(** * Bangladesh public-finance simulation: the annual orchestration engine

    A shallow embedding of [src/simulation.py] and of the twelve sector
    models under [src/models/], followed by the properties of the
    orchestrator stated in the specification.

    Conventions of the embedding.
    - Python numbers (int and float) are exact rationals [Q]; rounding and
      overflow of IEEE doubles are outside the model.  [np.nan] is the
      separate marker [NaN] of the type [cell]: it only ever occurs as a
      default in [_store_results], never inside the shared state.
    - The shared state, the sector outputs and the ledger rows are Python
      dicts with string keys: [gmap string value].
    - An exception is a value [Raise e] of the [result] monad; a division whose
      denominator is a variable goes through [pydiv], which raises
      [ZeroDivisionError] on a zero denominator.
    - The two ambient random generators ([np.random] and [random]) are an
      explicit [rng]: a fixed sequence of draws per generator and the
      position reached in it.
    - [print] calls are omitted. *)

From Stdlib Require Import QArith Qminmax Lqa ZArith Lia List Sorted.
From stdpp Require Import base option list gmap strings.

Set Warnings "-register-all".
Local Open Scope Q_scope.

(** ** Python values *)

Inductive value : Type :=
| VNum (q : Q)
| VBool (b : bool)
| VDict (d : gmap string value)
| VTuple (l : list value).

Abbreviation dict := (gmap string value).

(** A cell of a ledger row: a value read from the state, or [np.nan]. *)
Inductive cell : Type :=
| Val (v : value)
| NaN.

Inductive exn : Type :=
| ZeroDivisionError
| KeyError
| TypeError
| ValueError
| AttributeError.

Inductive result (A : Type) : Type :=
| Ok (a : A)
| Raise (e : exn).
Arguments Ok {A} a.
Arguments Raise {A} e.

Definition is_ok {A : Type} (m : result A) : bool :=
  match m with
  | Ok _ => true
  | Raise _ => false
  end.

Definition bind {A B : Type} (m : result A) (k : A -> result B) : result B :=
  match m with
  | Ok a => k a
  | Raise e => Raise e
  end.

Notation "x <- m ;; k" := (bind m (fun x => k))
  (at level 100, m at next level, right associativity).

(** ** Arithmetic as Python does it *)

Definition Qltb (a b : Q) : bool := negb (Qle_bool b a).

(** [max(a, b)] keeps [a] unless [b > a]; [min(a, b)] keeps [a] unless
    [b < a]. *)
Definition py_max (a b : Q) : Q := if Qltb a b then b else a.
Definition py_min (a b : Q) : Q := if Qltb b a then b else a.

Definition pydiv (a b : Q) : result Q :=
  if Qeq_bool b 0 then Raise ZeroDivisionError else Ok (a / b).

(** A value used as a number: [bool] is a subclass of [int]. *)
Definition as_num (v : value) : result Q :=
  match v with
  | VNum q => Ok q
  | VBool true => Ok 1
  | VBool false => Ok 0
  | VDict _ | VTuple _ => Raise TypeError
  end.

Definition is_empty {A : Type} (d : gmap string A) : bool :=
  match map_to_list d with
  | [] => true
  | _ :: _ => false
  end.

(** Truth value of an object in [if x]. *)
Definition truthy (v : value) : bool :=
  match v with
  | VNum q => negb (Qeq_bool q 0)
  | VBool b => b
  | VDict d => negb (is_empty d)
  | VTuple l => match l with [] => false | _ => true end
  end.

(** ** Dict access *)

(** [d[k]] *)
Definition getitem (d : dict) (k : string) : result value :=
  match d !! k with
  | Some v => Ok v
  | None => Raise KeyError
  end.

(** [d.get(k, default)] *)
Definition get (d : dict) (k : string) (default : value) : value :=
  match d !! k with
  | Some v => v
  | None => default
  end.

(** [v.get(k, default)] on an object [v] that should be a dict *)
Definition dget (v : value) (k : string) (default : value) : result value :=
  match v with
  | VDict d => Ok (get d k default)
  | _ => Raise AttributeError
  end.

(** [state.get(k1, {}).get(k2, default)] *)
Definition get2 (d : dict) (k1 k2 : string) (default : value) : result value :=
  dget (get d k1 (VDict ∅)) k2 default.

(** [d.update(other)]: the keys of a dict [other] overwrite those of [d].
    Any other argument is iterated as a sequence of key/value pairs; the
    sectors only ever return a tuple whose first element is the empty dict,
    an element of length 0 where 2 is required. *)
Definition update (d : dict) (other : value) : result dict :=
  match other with
  | VDict o => Ok (o ∪ d)
  | VTuple [] => Ok d
  | VTuple (VDict e :: _) =>
      if is_empty e then Raise ValueError else Raise TypeError
  | _ => Raise TypeError
  end.

(** [d[k1][k2] = v] *)
Definition setitem2 (d : dict) (k1 k2 : string) (v : value) : result dict :=
  inner <- getitem d k1 ;;
  match inner with
  | VDict i => Ok (<[k1 := VDict (<[k2 := v]> i)]> d)
  | _ => Raise TypeError
  end.

(** ** The random generators *)

Record rng : Type := Rng {
  np_stream : nat -> Q;   (* successive results of np.random.normal(0, 0.05) *)
  np_pos : nat;
  py_stream : nat -> Q;   (* successive results of random.random() *)
  py_pos : nat
}.

Definition np_random_normal (g : rng) : Q * rng :=
  (np_stream g (np_pos g),
   Rng (np_stream g) (S (np_pos g)) (py_stream g) (py_pos g)).

(** [random.uniform(a, b)] is [a + (b - a) * random()]. *)
Definition random_uniform (a b : Q) (g : rng) : Q * rng :=
  (a + (b - a) * py_stream g (py_pos g),
   Rng (np_stream g) (np_pos g) (py_stream g) (S (py_pos g))).

(** [config.get(key, default)] on a sector configuration: every optional
    key is an [option]. *)
Definition or_default (o : option Q) (d : Q) : Q :=
  match o with
  | Some q => q
  | None => d
  end.

(** ** Sector models *)

(** *** models/governance.py *)
Module GovernanceModel.

Record Weights : Type := {
  w_pfm : Q; w_nbr : Q; w_cb : Q; w_ac : Q; w_accountability : Q
}.

Record Config : Type := {
  initial_pfm_level : option Q;
  initial_nbr_level : option Q;
  initial_cb_level : option Q;
  initial_ac_level : option Q;
  initial_accountability_score : option Q;
  cfg_pfm_improvement_rate : option Q;
  cfg_nbr_improvement_rate : option Q;
  cfg_cb_improvement_rate : option Q;
  cfg_ac_improvement_rate : option Q;
  cfg_accountability_improvement_rate : option Q;
  governance_weights : option Weights
}.

Record t : Type := {
  pfm_reform_level : Q;
  nbr_capacity_level : Q;
  central_bank_capacity : Q;
  anti_corruption_effectiveness : Q;
  accountability_score : Q;
  pfm_improvement_rate : Q;
  nbr_improvement_rate : Q;
  cb_improvement_rate : Q;
  ac_improvement_rate : Q;
  accountability_improvement_rate : Q;
  weights : Weights;
  governance_index : Q
}.

Definition __init__ (config : Config) : t := {|
  pfm_reform_level := or_default (initial_pfm_level config) 0.4;
  nbr_capacity_level := or_default (initial_nbr_level config) 0.5;
  central_bank_capacity := or_default (initial_cb_level config) 0.6;
  anti_corruption_effectiveness := or_default (initial_ac_level config) 0.3;
  accountability_score := or_default (initial_accountability_score config) 0.4;
  pfm_improvement_rate := or_default (cfg_pfm_improvement_rate config) 0.015;
  nbr_improvement_rate := or_default (cfg_nbr_improvement_rate config) 0.01;
  cb_improvement_rate := or_default (cfg_cb_improvement_rate config) 0.005;
  ac_improvement_rate := or_default (cfg_ac_improvement_rate config) 0.008;
  accountability_improvement_rate :=
    or_default (cfg_accountability_improvement_rate config) 0.012;
  weights :=
    match governance_weights config with
    | Some w => w
    | None => {| w_pfm := 0.25; w_nbr := 0.20; w_cb := 0.15; w_ac := 0.20;
                 w_accountability := 0.20 |}
    end;
  governance_index := 0
|}.

Definition _update_governance_areas (self : t) : t := {|
  pfm_reform_level :=
    py_min 0.95 (pfm_reform_level self + pfm_improvement_rate self);
  nbr_capacity_level :=
    py_min 0.95 (nbr_capacity_level self + nbr_improvement_rate self);
  central_bank_capacity :=
    py_min 0.95 (central_bank_capacity self + cb_improvement_rate self);
  anti_corruption_effectiveness :=
    py_min 0.95 (anti_corruption_effectiveness self + ac_improvement_rate self);
  accountability_score :=
    py_min 0.95 (accountability_score self + accountability_improvement_rate self);
  pfm_improvement_rate := pfm_improvement_rate self;
  nbr_improvement_rate := nbr_improvement_rate self;
  cb_improvement_rate := cb_improvement_rate self;
  ac_improvement_rate := ac_improvement_rate self;
  accountability_improvement_rate := accountability_improvement_rate self;
  weights := weights self;
  governance_index := governance_index self
|}.

Definition _calculate_governance_index (self : t) : Q * t :=
  let index :=
    pfm_reform_level self * w_pfm (weights self) +
    nbr_capacity_level self * w_nbr (weights self) +
    central_bank_capacity self * w_cb (weights self) +
    anti_corruption_effectiveness self * w_ac (weights self) +
    accountability_score self * w_accountability (weights self) in
  (index * 100,
   {| pfm_reform_level := pfm_reform_level self;
      nbr_capacity_level := nbr_capacity_level self;
      central_bank_capacity := central_bank_capacity self;
      anti_corruption_effectiveness := anti_corruption_effectiveness self;
      accountability_score := accountability_score self;
      pfm_improvement_rate := pfm_improvement_rate self;
      nbr_improvement_rate := nbr_improvement_rate self;
      cb_improvement_rate := cb_improvement_rate self;
      ac_improvement_rate := ac_improvement_rate self;
      accountability_improvement_rate := accountability_improvement_rate self;
      weights := weights self;
      governance_index := index * 100 |}).

Definition governance_state_outputs (self : t) (index : Q) : dict :=
  <["governance_index" := VNum index]>
  (<["pfm_reform_level" := VNum (pfm_reform_level self)]>
  (<["nbr_modernization_level" := VNum (nbr_capacity_level self)]>
  (<["central_bank_capacity" := VNum (central_bank_capacity self)]>
  (<["anti_corruption_effectiveness" :=
       VNum (anti_corruption_effectiveness self)]>
  (<["accountability_score" := VNum (accountability_score self)]> ∅))))).

Definition simulate_governance_evolution (self : t) (year : Z) (state : dict)
  : dict * t :=
  let self := _update_governance_areas self in
  let '(index, self) := _calculate_governance_index self in
  (governance_state_outputs self index, self).

End GovernanceModel.

(** *** models/supervision.py *)
Module SupervisionModel.

Record Config : Type := {
  initial_supervision_effectiveness : option Q;
  cfg_cb_capacity_weight : option Q;
  cfg_financial_stability_weight : option Q;
  cfg_regulatory_reform_impact : option Q
}.

Record t : Type := {
  base_effectiveness : Q;
  cb_capacity_weight : Q;
  financial_stability_weight : Q;
  regulatory_reform_impact : Q;
  current_effectiveness : Q
}.

Definition __init__ (config : Config) : t :=
  let base := or_default (initial_supervision_effectiveness config) 0.6 in
  {| base_effectiveness := base;
     cb_capacity_weight := or_default (cfg_cb_capacity_weight config) 0.5;
     financial_stability_weight :=
       or_default (cfg_financial_stability_weight config) 0.3;
     regulatory_reform_impact :=
       or_default (cfg_regulatory_reform_impact config) 0.01;
     current_effectiveness := base |}.

Definition _update_effectiveness (self : t) (year : Z) (state : dict)
  : result t :=
  cb_capacity_v <- get2 state "governance_state" "central_bank_capacity"
                     (VNum 0.6) ;;
  npl_ratio <- as_num (get state "npl_ratio" (VNum 0.11)) ;;
  let stability_proxy := py_max 0 (1 - npl_ratio / 0.25) in
  cb_capacity <- as_num cb_capacity_v ;;
  let target_effectiveness :=
    cb_capacity_weight self * cb_capacity +
    financial_stability_weight self * stability_proxy in
  let target_effectiveness :=
    target_effectiveness + regulatory_reform_impact self in
  let current := current_effectiveness self * 0.9 + target_effectiveness * 0.1 in
  let current := py_max 0.2 (py_min 0.95 current) in
  Ok {| base_effectiveness := base_effectiveness self;
        cb_capacity_weight := cb_capacity_weight self;
        financial_stability_weight := financial_stability_weight self;
        regulatory_reform_impact := regulatory_reform_impact self;
        current_effectiveness := current |}.

Definition simulate_supervision_effectiveness (self : t) (year : Z)
    (state : dict) : result (Q * t) :=
  self <- _update_effectiveness self year state ;;
  Ok (current_effectiveness self, self).

End SupervisionModel.

(** *** models/financial_sector.py *)
Module FinancialSectorModel.

Record Config : Type := {
  initial_npl_ratio : option Q;
  initial_car : option Q;
  cfg_required_car : option Q;
  cfg_npl_gdp_sensitivity : option Q;
  cfg_npl_supervision_sensitivity : option Q
}.

Record t : Type := {
  npl_ratio : Q;
  capital_adequacy_ratio : Q;
  required_car : Q;
  npl_gdp_sensitivity : Q;
  npl_supervision_sensitivity : Q
}.

Definition __init__ (config : Config) : t := {|
  npl_ratio := or_default (initial_npl_ratio config) 0.11;
  capital_adequacy_ratio := or_default (initial_car config) 0.12;
  required_car := or_default (cfg_required_car config) 0.10;
  npl_gdp_sensitivity := or_default (cfg_npl_gdp_sensitivity config) (-0.5);
  npl_supervision_sensitivity :=
    or_default (cfg_npl_supervision_sensitivity config) (-0.2)
|}.

Definition set_npl_ratio (self : t) (x : Q) : t := {|
  npl_ratio := x;
  capital_adequacy_ratio := capital_adequacy_ratio self;
  required_car := required_car self;
  npl_gdp_sensitivity := npl_gdp_sensitivity self;
  npl_supervision_sensitivity := npl_supervision_sensitivity self
|}.

Definition set_capital_adequacy_ratio (self : t) (x : Q) : t := {|
  npl_ratio := npl_ratio self;
  capital_adequacy_ratio := x;
  required_car := required_car self;
  npl_gdp_sensitivity := npl_gdp_sensitivity self;
  npl_supervision_sensitivity := npl_supervision_sensitivity self
|}.

Definition _update_npls (self : t) (year : Z) (state : dict) : result t :=
  gdp_growth_v <- get2 state "economic_state" "gdp_growth" (VNum 0.06) ;;
  let supervision_effectiveness_v :=
    get state "supervision_effectiveness" (VNum 0.7) in
  gdp_growth <- as_num gdp_growth_v ;;
  let delta_npl_gdp := npl_gdp_sensitivity self * (gdp_growth - 0.04) in
  supervision_effectiveness <- as_num supervision_effectiveness_v ;;
  let delta_npl_supervision :=
    npl_supervision_sensitivity self * (supervision_effectiveness - 0.6) in
  let self :=
    set_npl_ratio self (npl_ratio self + (delta_npl_gdp + delta_npl_supervision)) in
  Ok (set_npl_ratio self (py_max 0.01 (npl_ratio self))).

Definition _update_capital_adequacy (self : t) (year : Z) (state : dict) : t :=
  let self :=
    if Qltb 0.15 (npl_ratio self)
    then set_capital_adequacy_ratio self (capital_adequacy_ratio self * 0.98)
    else set_capital_adequacy_ratio self (capital_adequacy_ratio self * 1.01) in
  set_capital_adequacy_ratio self
    (py_max 0.05 (py_min 0.25 (capital_adequacy_ratio self))).

Definition _calculate_stability_index (self : t) (year : Z) : Q :=
  let npl_score := py_max 0 (1 - npl_ratio self / 0.20) in
  let car_buffer := capital_adequacy_ratio self - required_car self in
  let car_score := py_max 0 (py_min 1 (car_buffer / 0.05)) in
  0.6 * npl_score + 0.4 * car_score.

(** The dict returned by [simulate_financial_system]. *)
Definition outputs (self : t) (stability_index : Q) : dict :=
  <["npl_ratio" := VNum (npl_ratio self)]>
  (<["capital_adequacy_ratio" := VNum (capital_adequacy_ratio self)]>
  (<["stability_index" := VNum stability_index]> ∅)).

Definition simulate_financial_system (self : t) (year : Z) (state : dict)
  : result (dict * t) :=
  self <- _update_npls self year state ;;
  let self := _update_capital_adequacy self year state in
  let stability_index := _calculate_stability_index self year in
  Ok (outputs self stability_index, self).

End FinancialSectorModel.

(** *** models/monetary_policy.py *)
Module MonetaryPolicyModel.

Record Config : Type := {
  target_inflation_band : option (Q * Q);
  initial_policy_rate : option Q;
  cfg_inflation_gap_weight : option Q;
  cfg_policy_transmission_lag : option Q
}.

Record t : Type := {
  target_inflation : Q * Q;
  policy_rate : Q;
  inflation_gap_weight : Q;
  policy_transmission_lag : Q
}.

Definition __init__ (config : Config) : t := {|
  target_inflation :=
    match target_inflation_band config with
    | Some b => b
    | None => (0.04, 0.06)
    end;
  policy_rate := or_default (initial_policy_rate config) 0.06;
  inflation_gap_weight := or_default (cfg_inflation_gap_weight config) 1.5;
  policy_transmission_lag := or_default (cfg_policy_transmission_lag config) 0.1
|}.

Definition _adjust_policy_rate (self : t) (year : Z) (state : dict)
  : result t :=
  let current_inflation_v := get state "inflation" (VNum 0.07) in
  let inflation_target_midpoint :=
    (fst (target_inflation self) + snd (target_inflation self)) / 2 in
  current_inflation <- as_num current_inflation_v ;;
  let inflation_gap := current_inflation - inflation_target_midpoint in
  let rate_adjustment := inflation_gap_weight self * inflation_gap in
  let rate := policy_rate self + rate_adjustment in
  Ok {| target_inflation := target_inflation self;
        policy_rate := py_max 0.01 (py_min 0.15 rate);
        inflation_gap_weight := inflation_gap_weight self;
        policy_transmission_lag := policy_transmission_lag self |}.

Definition _simulate_inflation_impact (self : t) (year : Z) (state : dict)
  : result Q :=
  current_inflation <- as_num (get state "inflation" (VNum 0.07)) ;;
  let projected_inflation :=
    current_inflation - policy_transmission_lag self * (policy_rate self - 0.06) in
  let projected_inflation :=
    0.8 * projected_inflation + 0.2 * current_inflation in
  Ok (py_max 0.00 (py_min 0.20 projected_inflation)).

Definition simulate_monetary_conditions (self : t) (year : Z) (state : dict)
  : result (Q * Q * t) :=
  self <- _adjust_policy_rate self year state ;;
  projected_inflation <- _simulate_inflation_impact self year state ;;
  Ok (policy_rate self, projected_inflation, self).

End MonetaryPolicyModel.

(** *** models/external_sector.py *)
Module ExternalSectorModel.

Record Config : Type := {
  cfg_initial_export_gdp : option Q;
  cfg_initial_import_gdp : option Q;
  cfg_initial_remittance_gdp : option Q;
  cfg_initial_fdi_gdp : option Q;
  cfg_initial_reserves_months_import : option Q;
  export_global_growth_sens : option Q;
  import_domestic_growth_sens : option Q;
  remittance_global_growth_sens : option Q;
  fdi_governance_sens : option Q;
  cfg_global_growth_factor : option Q
}.

Record Params : Type := {
  initial_export_gdp : Q;
  initial_import_gdp : Q;
  initial_remittance_gdp : Q;
  initial_fdi_gdp : Q;
  initial_reserves_months_import : Q;
  export_global_growth_sensitivity : Q;
  import_domestic_growth_sensitivity : Q;
  remittance_global_growth_sensitivity : Q;
  fdi_governance_sensitivity : Q;
  global_growth_factor : Q
}.

Record t : Type := Mk {
  params : Params;
  exports : Q;
  imports : Q;
  remittances : Q;
  fdi : Q;
  current_account_balance : Q;
  financial_account_balance : Q;
  overall_bop : Q;
  fx_reserves : Q;
  initialized : bool
}.

Definition __init__ (config : Config) : t :=
  Mk {| initial_export_gdp := or_default (cfg_initial_export_gdp config) 0.15;
        initial_import_gdp := or_default (cfg_initial_import_gdp config) 0.22;
        initial_remittance_gdp :=
          or_default (cfg_initial_remittance_gdp config) 0.05;
        initial_fdi_gdp := or_default (cfg_initial_fdi_gdp config) 0.01;
        initial_reserves_months_import :=
          or_default (cfg_initial_reserves_months_import config) 5.0;
        export_global_growth_sensitivity :=
          or_default (export_global_growth_sens config) 1.5;
        import_domestic_growth_sensitivity :=
          or_default (import_domestic_growth_sens config) 1.2;
        remittance_global_growth_sensitivity :=
          or_default (remittance_global_growth_sens config) 0.8;
        fdi_governance_sensitivity := or_default (fdi_governance_sens config) 0.05;
        global_growth_factor := or_default (cfg_global_growth_factor config) 1.02 |}
     0 0 0 0 0 0 0 0 false.

Definition _initialize_state (self : t) (initial_gdp : Q) : t :=
  let p := params self in
  let exports := initial_export_gdp p * initial_gdp in
  let imports := initial_import_gdp p * initial_gdp in
  let remittances := initial_remittance_gdp p * initial_gdp in
  let fdi := initial_fdi_gdp p * initial_gdp in
  let fx_reserves := imports * (initial_reserves_months_import p / 12.0) in
  Mk p exports imports remittances fdi
     (current_account_balance self) (financial_account_balance self)
     (overall_bop self) fx_reserves true.

Definition _project_flows (self : t) (year : Z) (state : dict) (g : rng)
  : result (t * rng) :=
  gdp <- get2 state "economic_state" "gdp" (VNum 1) ;;
  gdp_growth_v <- get2 state "economic_state" "gdp_growth" (VNum 0.05) ;;
  governance_index <- get2 state "governance_state" "governance_index"
                        (VNum 50) ;;
  governance_index <- as_num governance_index ;;
  let governance_score := governance_index / 100 in
  let '(global_factor, g) := random_uniform 0.98 1.05 g in
  gdp_growth <- as_num gdp_growth_v ;;
  let p := params self in
  let exports :=
    exports self *
    (1 + gdp_growth * 0.5 +
     (global_factor - 1) * export_global_growth_sensitivity p) in
  let imports :=
    imports self * (1 + gdp_growth * import_domestic_growth_sensitivity p) in
  let remittances :=
    remittances self *
    (1 + (global_factor - 1) * remittance_global_growth_sensitivity p) in
  let fdi :=
    fdi self *
    (1 + gdp_growth + fdi_governance_sensitivity p * (governance_score - 0.5)) in
  Ok (Mk p (py_max 0 exports) (py_max 0 imports) (py_max 0 remittances)
         (py_max 0 fdi)
         (current_account_balance self) (financial_account_balance self)
         (overall_bop self) (fx_reserves self) (initialized self),
      g).

Definition _calculate_bop (self : t) (year : Z) (state : dict) : t :=
  let trade_balance := exports self - imports self in
  let current_account_balance := trade_balance + remittances self in
  let financial_account_balance := fdi self in
  let overall_bop := current_account_balance + financial_account_balance in
  Mk (params self) (exports self) (imports self) (remittances self) (fdi self)
     current_account_balance financial_account_balance overall_bop
     (fx_reserves self) (initialized self).

(** With exact rationals the guard [imports > 0] makes the divisor
    [imports / 12.0] non-zero.  In double precision the quotient of a
    positive subnormal [imports] is [0.0], and the division of the reserves
    by it raises [ZeroDivisionError]: no property below relies on this
    division returning. *)
Definition _update_reserves (self : t) (year : Z) : result (Q * t) :=
  let fx_reserves := fx_reserves self + overall_bop self in
  let fx_reserves := py_max 0 fx_reserves in
  let self :=
    Mk (params self) (exports self) (imports self) (remittances self) (fdi self)
       (current_account_balance self) (financial_account_balance self)
       (overall_bop self) fx_reserves (initialized self) in
  months_of_imports <-
    (if Qltb 0 (imports self)
     then pydiv fx_reserves (imports self / 12.0)
     else Ok 0) ;;
  Ok (months_of_imports, self).

(** The result returned while GDP is not available: [return {}, 0]. *)
Definition empty_result : value := VTuple [VDict ∅; VNum 0].

Definition external_sector_outputs (self : t) (months_of_imports : Q) : dict :=
  <["exports" := VNum (exports self)]>
  (<["imports" := VNum (imports self)]>
  (<["remittances" := VNum (remittances self)]>
  (<["fdi" := VNum (fdi self)]>
  (<["current_account_balance" := VNum (current_account_balance self)]>
  (<["overall_bop" := VNum (overall_bop self)]>
  (<["fx_reserves" := VNum (fx_reserves self)]>
  (<["reserves_months_imports" := VNum months_of_imports]> ∅))))))).

(** The body of [simulate_external_sector] after the initialisation gate. *)
Definition simulate_active (self : t) (year : Z) (state : dict) (g : rng)
  : result (value * t * rng) :=
  r <- _project_flows self year state g ;;
  let '(self, g) := r in
  let self := _calculate_bop self year state in
  r <- _update_reserves self year ;;
  let '(months_of_imports, self) := r in
  Ok (VDict (external_sector_outputs self months_of_imports), self, g).

Definition simulate_external_sector (self : t) (year : Z) (state : dict)
    (g : rng) : result (value * t * rng) :=
  if negb (initialized self) then
    initial_gdp_v <- get2 state "economic_state" "gdp" (VNum 0) ;;
    initial_gdp <- as_num initial_gdp_v ;;
    if Qltb 0 initial_gdp
    then simulate_active (_initialize_state self initial_gdp) year state g
    else Ok (empty_result, self, g)
  else simulate_active self year state g.

End ExternalSectorModel.

(** *** models/development_finance.py *)
Module DevelopmentFinanceModel.

Record Config : Type := {
  cfg_initial_grant_aid_gdp : option Q;
  cfg_initial_dfi_net_lending_gdp : option Q;
  grant_global_factor_sens : option Q;
  dfi_lending_governance_sens : option Q;
  absorption_capacity_sens : option Q
}.

Record t : Type := Mk {
  initial_grant_aid_gdp : Q;
  initial_dfi_net_lending_gdp : Q;
  grant_global_factor_sensitivity : Q;
  dfi_lending_governance_sensitivity : Q;
  absorption_capacity_sensitivity : Q;
  grant_aid : Q;
  dfi_net_lending : Q;
  initialized : bool
}.

Definition __init__ (config : Config) : t :=
  Mk (or_default (cfg_initial_grant_aid_gdp config) 0.008)
     (or_default (cfg_initial_dfi_net_lending_gdp config) 0.015)
     (or_default (grant_global_factor_sens config) 0.5)
     (or_default (dfi_lending_governance_sens config) 0.3)
     (or_default (absorption_capacity_sens config) 0.4)
     0 0 false.

Definition with_flows (self : t) (grant dfi : Q) (init : bool) : t :=
  Mk (initial_grant_aid_gdp self) (initial_dfi_net_lending_gdp self)
     (grant_global_factor_sensitivity self)
     (dfi_lending_governance_sensitivity self)
     (absorption_capacity_sensitivity self) grant dfi init.

Definition _initialize_state (self : t) (initial_gdp : Q) : t :=
  with_flows self (initial_grant_aid_gdp self * initial_gdp)
    (initial_dfi_net_lending_gdp self * initial_gdp) true.

Definition _simulate_flows (self : t) (year : Z) (state : dict) (g : rng)
  : result (t * rng) :=
  gdp <- get2 state "economic_state" "gdp" (VNum 1) ;;
  gdp_growth_v <- get2 state "economic_state" "gdp_growth" (VNum 0.05) ;;
  governance_index <- get2 state "governance_state" "governance_index"
                        (VNum 50) ;;
  governance_index <- as_num governance_index ;;
  let governance_score := governance_index / 100 in
  pfm_level_v <- get2 state "governance_state" "pfm_reform_level" (VNum 0.4) ;;
  let '(global_aid_factor, g) := random_uniform 0.90 1.10 g in
  gdp_growth <- as_num gdp_growth_v ;;
  let grant_growth_factor := 1 + gdp_growth * 0.2 in
  let grant_growth_factor :=
    grant_growth_factor *
    (1 + (global_aid_factor - 1) * grant_global_factor_sensitivity self) in
  pfm_level <- as_num pfm_level_v ;;
  let grant_growth_factor :=
    grant_growth_factor *
    (1 + (pfm_level - 0.5) * absorption_capacity_sensitivity self) in
  let grant_aid := py_max 0 (grant_aid self * grant_growth_factor) in
  let dfi_growth_factor := 1 + gdp_growth * 0.5 in
  let dfi_growth_factor :=
    dfi_growth_factor *
    (1 + (governance_score - 0.5) * dfi_lending_governance_sensitivity self) in
  let dfi_net_lending := py_max 0 (dfi_net_lending self * dfi_growth_factor) in
  Ok (with_flows self grant_aid dfi_net_lending (initialized self), g).

Definition dev_finance_outputs (self : t) : dict :=
  <["grant_aid" := VNum (grant_aid self)]>
  (<["dfi_net_lending" := VNum (dfi_net_lending self)]> ∅).

(** [return {}, 0, 0] *)
Definition empty_result : value := VTuple [VDict ∅; VNum 0; VNum 0].

Definition simulate_active (self : t) (year : Z) (state : dict) (g : rng)
  : result (value * t * rng) :=
  r <- _simulate_flows self year state g ;;
  let '(self, g) := r in
  Ok (VDict (dev_finance_outputs self), self, g).

Definition simulate_development_finance (self : t) (year : Z) (state : dict)
    (g : rng) : result (value * t * rng) :=
  if negb (initialized self) then
    initial_gdp_v <- get2 state "economic_state" "gdp" (VNum 0) ;;
    initial_gdp <- as_num initial_gdp_v ;;
    if Qltb 0 initial_gdp
    then simulate_active (_initialize_state self initial_gdp) year state g
    else Ok (empty_result, self, g)
  else simulate_active self year state g.

End DevelopmentFinanceModel.

(** *** models/revenue.py *)
Module RevenueModel.

Record Config : Type := {
  vat_rate : option Q;
  avg_income_tax_rate : option Q;
  avg_corp_tax_rate : option Q;
  avg_trade_tax : option Q;
  initial_efficiency : option Q;
  initial_compliance : option Q;
  initial_share : option Q
}.

Record t : Type := Mk {
  config : Config;
  current_compliance_rate : Q;
  current_admin_efficiency : Q;
  formal_sector_share : Q
}.

Definition __init__ (config : Config) : t :=
  Mk config
     (or_default (initial_compliance config) 0.6)
     (or_default (initial_efficiency config) 0.7)
     (1.0 - or_default (initial_share config) 0.3).

Definition _calculate_tax_potential (self : t) (year : Z)
    (economic_state : value) : result Q :=
  gdp_v <- dget economic_state "gdp" (VNum 0) ;;
  gdp <- as_num gdp_v ;;
  let c := config self in
  let potential_vat := gdp * 0.4 * or_default (vat_rate c) 0.15 in
  let potential_income_tax :=
    gdp * 0.3 * or_default (avg_income_tax_rate c) 0.10 in
  let potential_corp_tax := gdp * 0.2 * or_default (avg_corp_tax_rate c) 0.25 in
  imports_v <- dget economic_state "imports" (VNum (gdp * 0.2)) ;;
  imports <- as_num imports_v ;;
  let potential_trade_tax := imports * or_default (avg_trade_tax c) 0.05 in
  Ok (potential_vat + potential_income_tax + potential_corp_tax +
      potential_trade_tax).

Definition _apply_structural_constraints (self : t) (year : Z)
    (potential_revenue : Q) (economic_state : value) : Q :=
  potential_revenue * formal_sector_share self.

Definition _apply_administrative_capacity (self : t) (year : Z)
    (constrained_revenue : Q) : Q :=
  let admin_factor := current_admin_efficiency self in
  constrained_revenue * admin_factor.

Definition _apply_compliance_dynamics (self : t) (year : Z)
    (collected_revenue : Q) : Q :=
  let compliance_factor := current_compliance_rate self in
  collected_revenue * compliance_factor.

Definition _update_internal_state (self : t) (year : Z)
    (economic_state governance_state : value) : result t :=
  nbr_v <- dget governance_state "nbr_modernization_level" (VNum 0) ;;
  nbr <- as_num nbr_v ;;
  let admin :=
    if Qltb (current_admin_efficiency self) nbr
    then py_min 1.0 (current_admin_efficiency self * 1.01)
    else current_admin_efficiency self in
  growth_v <- dget economic_state "gdp_growth" (VNum 0) ;;
  growth <- as_num growth_v ;;
  let compliance :=
    if Qltb 0.05 growth
    then py_min 0.95 (current_compliance_rate self * 1.005)
    else current_compliance_rate self in
  Ok (Mk (config self) compliance admin (formal_sector_share self)).

Definition project_revenue (self : t) (year : Z)
    (economic_state governance_state : value) : result (dict * t) :=
  potential <- _calculate_tax_potential self year economic_state ;;
  let structurally_adjusted :=
    _apply_structural_constraints self year potential economic_state in
  let admin_adjusted :=
    _apply_administrative_capacity self year structurally_adjusted in
  let final_revenue := _apply_compliance_dynamics self year admin_adjusted in
  self <- _update_internal_state self year economic_state governance_state ;;
  Ok (<["final_revenue" := VNum final_revenue]> ∅, self).

End RevenueModel.

(** *** models/fiscal_federalism.py *)
Module FiscalFederalismModel.

Record Config : Type := {
  cfg_transfer_ratio_central_revenue : option Q;
  cfg_initial_subnational_revenue_gdp : option Q;
  cfg_subnational_revenue_capacity_growth : option Q;
  cfg_subnational_spending_efficiency : option Q;
  cfg_subnational_debt_limit_gdp : option Q
}.

Record Params : Type := {
  transfer_ratio_central_revenue : Q;
  initial_subnational_revenue_gdp : Q;
  subnational_revenue_capacity_growth : Q;
  subnational_spending_efficiency : Q;
  subnational_debt_limit_gdp : Q
}.

Record t : Type := Mk {
  params : Params;
  subnational_revenue_capacity_index : Q;
  total_transfers : Q;
  total_subnational_own_revenue : Q;
  total_subnational_spending : Q;
  aggregate_subnational_debt : Q;
  initialized : bool
}.

Definition __init__ (config : Config) : t :=
  Mk {| transfer_ratio_central_revenue :=
          or_default (cfg_transfer_ratio_central_revenue config) 0.10;
        initial_subnational_revenue_gdp :=
          or_default (cfg_initial_subnational_revenue_gdp config) 0.005;
        subnational_revenue_capacity_growth :=
          or_default (cfg_subnational_revenue_capacity_growth config) 0.01;
        subnational_spending_efficiency :=
          or_default (cfg_subnational_spending_efficiency config) 0.8;
        subnational_debt_limit_gdp :=
          or_default (cfg_subnational_debt_limit_gdp config) 0.02 |}
     1.0 0 0 0 0 false.

Definition _initialize_state (self : t) (initial_gdp : Q) : t :=
  Mk (params self) (subnational_revenue_capacity_index self)
     (total_transfers self)
     (initial_subnational_revenue_gdp (params self) * initial_gdp)
     (total_subnational_spending self)
     (subnational_debt_limit_gdp (params self) * initial_gdp * 0.5)
     true.

Definition _calculate_central_transfers (self : t) (year : Z) (state : dict)
  : result t :=
  central_revenue_v <- get2 state "revenue_state" "final_revenue" (VNum 0) ;;
  central_revenue <- as_num central_revenue_v ;;
  Ok (Mk (params self) (subnational_revenue_capacity_index self)
         (central_revenue * transfer_ratio_central_revenue (params self))
         (total_subnational_own_revenue self)
         (total_subnational_spending self)
         (aggregate_subnational_debt self) (initialized self)).

Definition _simulate_subnational_revenue (self : t) (year : Z) (state : dict)
  : result t :=
  let p := params self in
  let capacity_index :=
    subnational_revenue_capacity_index self *
    (1 + subnational_revenue_capacity_growth p) in
  gdp_v <- get2 state "economic_state" "gdp" (VNum 1) ;;
  base_rev <-
    (if negb (initialized self) then
       gdp <- as_num gdp_v ;;
       Ok (gdp * initial_subnational_revenue_gdp p)
     else
       gdp_growth_v <- get2 state "economic_state" "gdp_growth" (VNum 0.05) ;;
       let inflation_v := get state "inflation" (VNum 0.06) in
       gdp_growth <- as_num gdp_growth_v ;;
       inflation <- as_num inflation_v ;;
       let nominal_gdp_growth := (1 + gdp_growth) * (1 + inflation) - 1 in
       Ok (total_subnational_own_revenue self *
           (1 + nominal_gdp_growth + subnational_revenue_capacity_growth p))) ;;
  Ok (Mk p capacity_index (total_transfers self) (py_max 0 base_rev)
         (total_subnational_spending self)
         (aggregate_subnational_debt self) (initialized self)).

Definition _simulate_subnational_spending (self : t) (year : Z) (state : dict)
  : t :=
  let available_resources :=
    total_transfers self + total_subnational_own_revenue self in
  let potential_spending := available_resources * 0.95 in
  let spending :=
    potential_spending * subnational_spending_efficiency (params self) in
  Mk (params self) (subnational_revenue_capacity_index self)
     (total_transfers self) (total_subnational_own_revenue self)
     (py_max 0 spending) (aggregate_subnational_debt self) (initialized self).

Definition _update_subnational_debt (self : t) (year : Z) (state : dict)
  : result t :=
  let subnational_deficit :=
    total_subnational_spending self -
    (total_transfers self + total_subnational_own_revenue self) in
  let new_borrowing := py_max 0 subnational_deficit in
  gdp_v <- get2 state "economic_state" "gdp" (VNum 1) ;;
  gdp <- as_num gdp_v ;;
  let debt_limit_amount := subnational_debt_limit_gdp (params self) * gdp in
  let allowed_borrowing :=
    py_max 0 (debt_limit_amount - aggregate_subnational_debt self) in
  let actual_borrowing := py_min new_borrowing allowed_borrowing in
  let debt := aggregate_subnational_debt self + actual_borrowing in
  Ok (Mk (params self) (subnational_revenue_capacity_index self)
         (total_transfers self) (total_subnational_own_revenue self)
         (total_subnational_spending self) (py_max 0 debt) (initialized self)).

Definition fiscal_federalism_outputs (self : t) : dict :=
  <["total_transfers" := VNum (total_transfers self)]>
  (<["total_subnational_own_revenue" :=
       VNum (total_subnational_own_revenue self)]>
  (<["total_subnational_spending" := VNum (total_subnational_spending self)]>
  (<["aggregate_subnational_debt" :=
       VNum (aggregate_subnational_debt self)]> ∅))).

(** [return {}, 0] *)
Definition empty_result : value := VTuple [VDict ∅; VNum 0].

Definition simulate_active (self : t) (year : Z) (state : dict)
  : result (value * t) :=
  self <- _calculate_central_transfers self year state ;;
  self <- _simulate_subnational_revenue self year state ;;
  let self := _simulate_subnational_spending self year state in
  self <- _update_subnational_debt self year state ;;
  Ok (VDict (fiscal_federalism_outputs self), self).

Definition simulate_fiscal_federalism (self : t) (year : Z) (state : dict)
  : result (value * t) :=
  if negb (initialized self) then
    initial_gdp_v <- get2 state "economic_state" "gdp" (VNum 0) ;;
    initial_gdp <- as_num initial_gdp_v ;;
    if Qltb 0 initial_gdp
    then simulate_active (_initialize_state self initial_gdp) year state
    else Ok (empty_result, self)
  else simulate_active self year state.

End FiscalFederalismModel.

(** *** models/expenditure.py *)
Module ExpenditureModel.

(** The model keeps its configuration and reads nothing from it. *)
Record t : Type := Mk { }.

(** The dict returned by [simulate_expenditure]. *)
Definition outputs (actual_spending_details : dict) (efficiency_score : Q)
  : dict :=
  <["actual_spending" := VDict actual_spending_details]>
  (<["expenditure_efficiency" := VNum efficiency_score]> ∅).

Definition simulate_expenditure (self : t) (year : Z)
    (budget_allocation implementation_capacity accountability_mechanisms
       political_economy : value) : result dict :=
  implementation_capacity <- as_num implementation_capacity ;;
  accountability_mechanisms <- as_num accountability_mechanisms ;;
  let efficiency_factor :=
    (implementation_capacity + accountability_mechanisms) / 2 in
  budget_allocation <- as_num budget_allocation ;;
  let actual_spending_total := budget_allocation * efficiency_factor * 1 in
  let actual_spending_details :=
    <["development" := VNum (actual_spending_total * 0.6)]>
    (<["non_development" := VNum (actual_spending_total * 0.4)]> ∅) in
  let efficiency_score := efficiency_factor * 1 in
  Ok (outputs actual_spending_details efficiency_score).

End ExpenditureModel.

(** *** models/soe.py *)
Module SOEModel.

Record Config : Type := {
  initial_soe_performance : option Q;
  cfg_initial_soe_debt_gdp : option Q;
  soe_gdp_sensitivity : option Q;
  soe_governance_sensitivity : option Q;
  soe_debt_drag : option Q;
  soe_dividend_payout : option Q;
  soe_transfer_threshold : option Q;
  soe_transfer_scale : option Q
}.

Record Params : Type := {
  initial_performance_index : Q;
  initial_soe_debt_gdp : Q;
  gdp_growth_sensitivity : Q;
  governance_sensitivity : Q;
  debt_drag_factor : Q;
  dividend_payout_ratio : Q;
  transfer_need_threshold : Q;
  transfer_scale_factor : Q
}.

Record t : Type := Mk {
  params : Params;
  performance_index : Q;
  soe_debt_stock : Q;
  initialized : bool
}.

Definition __init__ (config : Config) : t :=
  let p := {|
    initial_performance_index := or_default (initial_soe_performance config) 0.4;
    initial_soe_debt_gdp := or_default (cfg_initial_soe_debt_gdp config) 0.10;
    gdp_growth_sensitivity := or_default (soe_gdp_sensitivity config) 0.3;
    governance_sensitivity := or_default (soe_governance_sensitivity config) 0.2;
    debt_drag_factor := or_default (soe_debt_drag config) (-0.1);
    dividend_payout_ratio := or_default (soe_dividend_payout config) 0.2;
    transfer_need_threshold := or_default (soe_transfer_threshold config) 0.3;
    transfer_scale_factor := or_default (soe_transfer_scale config) 0.01 |} in
  Mk p (initial_performance_index p) 0 false.

Definition _initialize_debt (self : t) (initial_gdp : Q) : t :=
  Mk (params self) (performance_index self)
     (initial_soe_debt_gdp (params self) * initial_gdp) true.

Definition _update_financial_performance (self : t) (year : Z) (state : dict)
  : result t :=
  let p := params self in
  gdp_growth_v <- get2 state "economic_state" "gdp_growth" (VNum 0.05) ;;
  governance_index <- get2 state "governance_state" "governance_index"
                        (VNum 50) ;;
  governance_index <- as_num governance_index ;;
  let governance_score := governance_index / 100 in
  gdp_growth <- as_num gdp_growth_v ;;
  let performance_change :=
    gdp_growth_sensitivity p * gdp_growth +
    governance_sensitivity p * (governance_score - 0.5) in
  guard_v <- get2 state "economic_state" "gdp" (VNum 0) ;;
  guard <- as_num guard_v ;;
  current_debt_gdp <-
    (if Qltb 0 guard then
       gdp_v <- get2 state "economic_state" "gdp" (VNum 1) ;;
       gdp <- as_num gdp_v ;;
       pydiv (soe_debt_stock self) gdp
     else Ok 0) ;;
  let performance_change :=
    performance_change +
    debt_drag_factor p * (current_debt_gdp - initial_soe_debt_gdp p) in
  let performance := performance_index self + performance_change in
  Ok (Mk p (py_max 0.1 (py_min 0.9 performance)) (soe_debt_stock self)
         (initialized self)).

Definition _update_soe_debt (self : t) (year : Z) (state : dict)
    (transfers_received dividends_paid : Q) : t :=
  let implied_profit_loss :=
    (performance_index self - 0.5) * soe_debt_stock self * 0.1 in
  let debt_change := - implied_profit_loss + transfers_received - dividends_paid in
  let stock := soe_debt_stock self + debt_change in
  Mk (params self) (performance_index self) (py_max 0 stock) (initialized self).

Definition _calculate_fiscal_impact (self : t) (year : Z) (state : dict)
  : Q * Q :=
  let p := params self in
  if Qltb 0.55 (performance_index self) then
    let potential_profit :=
      (performance_index self - 0.5) * soe_debt_stock self * 0.1 in
    (potential_profit * dividend_payout_ratio p, 0)
  else if Qltb (performance_index self) (transfer_need_threshold p) then
    let performance_gap := transfer_need_threshold p - performance_index self in
    (0, performance_gap * transfer_scale_factor p * soe_debt_stock self)
  else (0, 0).

Definition simulate_active (self : t) (year : Z) (state : dict)
  : result (Q * Q * Q * t) :=
  self <- _update_financial_performance self year state ;;
  let '(dividends, transfers) := _calculate_fiscal_impact self year state in
  let self := _update_soe_debt self year state transfers dividends in
  Ok (dividends, transfers, soe_debt_stock self, self).

Definition simulate_soe_sector (self : t) (year : Z) (state : dict)
  : result (Q * Q * Q * t) :=
  if negb (initialized self) then
    initial_gdp_v <- get2 state "economic_state" "gdp" (VNum 0) ;;
    initial_gdp <- as_num initial_gdp_v ;;
    if Qltb 0 initial_gdp
    then simulate_active (_initialize_debt self initial_gdp) year state
    else Ok (0, 0, 0, self)
  else simulate_active self year state.

End SOEModel.

(** *** models/debt.py *)
Module DebtManagementModel.

Record DebtStock : Type := {
  total : Q;
  domestic : Q;
  external : Q
}.

(** [initial_debt_stock] is a dict whose three keys are each optional;
    [initial_debt_gdp_ratio] is read by the orchestrator, without default. *)
Record Config : Type := {
  initial_debt_stock : option (option Q * option Q * option Q);
  cfg_avg_interest_rate_domestic : option Q;
  cfg_avg_interest_rate_external : option Q;
  dsa_threshold_debt_to_gdp : option Q;
  initial_debt_gdp_ratio : option Q
}.

Record t : Type := Mk {
  debt_stock : DebtStock;
  avg_interest_rate_domestic : Q;
  avg_interest_rate_external : Q;
  dsa_thresholds : option Q
}.

Definition __init__ (config : Config) : t :=
  let initial_stock :=
    match initial_debt_stock config with
    | Some s => s
    | None => (Some 0, Some 0, Some 0)
    end in
  let '(tot, dom, ext) := initial_stock in
  Mk {| total := or_default tot 0;
        domestic := or_default dom 0;
        external := or_default ext 0 |}
     (or_default (cfg_avg_interest_rate_domestic config) 0.08)
     (or_default (cfg_avg_interest_rate_external config) 0.03)
     (dsa_threshold_debt_to_gdp config).

(** The dict object [self.debt_stock] as it is seen from the shared state. *)
Definition debt_stock_dict (s : DebtStock) : dict :=
  <["total" := VNum (total s)]>
  (<["domestic" := VNum (domestic s)]>
  (<["external" := VNum (external s)]> ∅)).

Definition _calculate_debt_service (self : t) (year : Z) (state : dict)
  : dict :=
  let s := debt_stock self in
  let interest_domestic := domestic s * avg_interest_rate_domestic self in
  let interest_external := external s * avg_interest_rate_external self in
  let total_interest := interest_domestic + interest_external in
  let principal_repayment_domestic := domestic s * 0.05 in
  let principal_repayment_external := external s * 0.03 in
  let total_principal_paid :=
    principal_repayment_domestic + principal_repayment_external in
  <["interest_domestic" := VNum interest_domestic]>
  (<["interest_external" := VNum interest_external]>
  (<["total_interest" := VNum total_interest]>
  (<["principal_domestic" := VNum principal_repayment_domestic]>
  (<["principal_external" := VNum principal_repayment_external]>
  (<["total_principal" := VNum total_principal_paid]>
  (<["total_service" := VNum (total_interest + total_principal_paid)]> ∅)))))).

Definition _update_debt_stock (self : t) (year : Z) (state : dict)
    (debt_service : dict) (deficit_financing : Q) : result t :=
  let s := debt_stock self in
  let total_current_debt := total s in
  domestic_share <-
    (if Qle_bool total_current_debt 0
     then Ok 0.5
     else pydiv (domestic s) total_current_debt) ;;
  let new_borrowing_domestic := deficit_financing * domestic_share in
  let new_borrowing_external := deficit_financing * (1 - domestic_share) in
  principal_domestic <- getitem debt_service "principal_domestic" ;;
  principal_domestic <- as_num principal_domestic ;;
  let domestic' := domestic s + (new_borrowing_domestic - principal_domestic) in
  principal_external <- getitem debt_service "principal_external" ;;
  principal_external <- as_num principal_external ;;
  let external' := external s + (new_borrowing_external - principal_external) in
  Ok (Mk {| total := domestic' + external';
            domestic := domestic';
            external := external' |}
         (avg_interest_rate_domestic self) (avg_interest_rate_external self)
         (dsa_thresholds self)).

Definition sustainability_metrics (debt_to_gdp debt_service_to_revenue : Q)
    (breached_threshold : bool) : dict :=
  <["debt_to_gdp" := VNum debt_to_gdp]>
  (<["debt_service_to_revenue" := VNum debt_service_to_revenue]>
  (<["breached_threshold" := VBool breached_threshold]> ∅)).

Definition _perform_dsa (self : t) (year : Z) (state : dict) : result dict :=
  gdp_v <- get2 state "economic_state" "gdp" (VNum 1) ;;
  gdp <- as_num gdp_v ;;
  let gdp := if Qle_bool gdp 0 then 1 else gdp in
  debt_to_gdp <- pydiv (total (debt_stock self)) gdp ;;
  total_revenue <- as_num (get state "total_revenue" (VNum 1)) ;;
  let total_revenue := if Qle_bool total_revenue 0 then 1 else total_revenue in
  let debt_service := get state "debt_service" (VDict ∅) in
  total_service_v <- dget debt_service "total_service" (VNum 0) ;;
  total_service <- as_num total_service_v ;;
  debt_service_to_revenue <- pydiv total_service total_revenue ;;
  Ok (sustainability_metrics debt_to_gdp debt_service_to_revenue
        (Qltb (or_default (dsa_thresholds self) 0.70) debt_to_gdp)).

Definition simulate_debt_dynamics (self : t) (year : Z) (state : dict)
    (deficit_financing : Q) : result (dict * dict * dict * t) :=
  let debt_service := _calculate_debt_service self year state in
  self <- _update_debt_stock self year state debt_service deficit_financing ;;
  let state_for_dsa := state in
  let state_for_dsa :=
    <["debt_stock" := VDict (debt_stock_dict (debt_stock self))]> state_for_dsa in
  let state_for_dsa := <["debt_service" := VDict debt_service]> state_for_dsa in
  sustainability_metrics <- _perform_dsa self year state_for_dsa ;;
  Ok (debt_stock_dict (debt_stock self), sustainability_metrics, debt_service,
      self).

End DebtManagementModel.

(** *** models/policy_coordination.py *)
Module PolicyCoordinationModel.

Record Config : Type := {
  cfg_base_coordination_score : option Q;
  cfg_conflict_threshold_inflation : option Q;
  cfg_conflict_threshold_deficit : option Q;
  cfg_conflict_impact : option Q;
  cfg_institutional_impact : option Q
}.

Record t : Type := Mk {
  base_coordination_score : Q;
  conflict_threshold_inflation : Q;
  conflict_threshold_deficit : Q;
  conflict_impact : Q;
  institutional_impact : Q;
  current_coordination_score : Q
}.

Definition __init__ (config : Config) : t :=
  let base := or_default (cfg_base_coordination_score config) 0.6 in
  Mk base
     (or_default (cfg_conflict_threshold_inflation config) 0.08)
     (or_default (cfg_conflict_threshold_deficit config) 0.05)
     (or_default (cfg_conflict_impact config) (-0.1))
     (or_default (cfg_institutional_impact config) 0.05)
     base.

Definition _assess_policy_conflict (self : t) (year : Z) (state : dict)
  : result bool :=
  let inflation_v := get state "inflation" (VNum 0.07) in
  let deficit_v := get state "deficit" (VNum 0) in
  gdp_v <- get2 state "economic_state" "gdp" (VNum 1) ;;
  gdp <- as_num gdp_v ;;
  deficit_gdp_ratio <-
    (if Qltb 0 gdp
     then deficit <- as_num deficit_v ;; pydiv deficit gdp
     else Ok 0) ;;
  inflation <- as_num inflation_v ;;
  Ok (Qltb (conflict_threshold_inflation self) inflation &&
      Qltb (conflict_threshold_deficit self) deficit_gdp_ratio).

Definition _assess_institutional_framework (self : t) (year : Z) (state : dict)
  : result Q :=
  governance_index <- as_num (get state "governance_index" (VNum 50)) ;;
  Ok (governance_index / 100).

Definition simulate_coordination (self : t) (year : Z) (state : dict)
  : result (Q * t) :=
  conflict_exists <- _assess_policy_conflict self year state ;;
  framework_strength <- _assess_institutional_framework self year state ;;
  let score_change := 0 in
  let score_change :=
    if conflict_exists then score_change + conflict_impact self
    else score_change in
  let score_change :=
    if Qltb 0.5 framework_strength
    then score_change + institutional_impact self * (framework_strength - 0.5) * 2
    else score_change in
  let score := current_coordination_score self + score_change in
  let score := py_max 0.1 (py_min 0.9 score) in
  Ok (score,
      Mk (base_coordination_score self) (conflict_threshold_inflation self)
         (conflict_threshold_deficit self) (conflict_impact self)
         (institutional_impact self) score).

End PolicyCoordinationModel.

(** ** The orchestrator: simulation.py *)

(** A row of the result table: the columns of one year, in the order in
    which [_store_results] lists them. *)
Definition row : Type := list (string * cell).

(** The first entry of a key in an association list. *)
Fixpoint assoc {A : Type} (k : string) (l : list (string * A)) : option A :=
  match l with
  | [] => None
  | (k', c) :: l => if String.eqb k k' then Some c else assoc k l
  end.

Definition row_get (k : string) (r : row) : option cell := assoc k r.

(** [self.results]: a dict keyed by year; assigning to a year that is
    present replaces its row in place, a new year is appended. *)
Definition ledger : Type := list (Z * row).

Fixpoint ledger_set (year : Z) (r : row) (l : ledger) : ledger :=
  match l with
  | [] => [(year, r)]
  | (y, r') :: l => if Z.eqb y year then (y, r) :: l
                    else (y, r') :: ledger_set year r l
  end.

Fixpoint ledger_get (year : Z) (l : ledger) : option row :=
  match l with
  | [] => None
  | (y, r) :: l => if Z.eqb y year then Some r else ledger_get year l
  end.

(** [v[k]] on an object [v] *)
Definition item (v : value) (k : string) : result value :=
  match v with
  | VDict d => getitem d k
  | _ => Raise TypeError
  end.

(** [d.get(k, np.nan)] *)
Definition cget (d : dict) (k : string) : cell :=
  match d !! k with
  | Some v => Val v
  | None => NaN
  end.

(** [v.get(k, np.nan)] on an object [v] *)
Definition cdget (v : value) (k : string) : result cell :=
  match v with
  | VDict d => Ok (cget d k)
  | _ => Raise AttributeError
  end.

(** [c / g]: [np.nan] is a float, and dividing it by a number gives
    [np.nan]. *)
Definition cell_div (c : cell) (g : value) : result cell :=
  match c with
  | Val v =>
      a <- as_num v ;;
      b <- as_num g ;;
      q <- pydiv a b ;;
      Ok (Val (VNum q))
  | NaN =>
      b <- as_num g ;;
      _ <- pydiv 0 b ;;
      Ok NaN
  end.

(** [sum(d.values())] *)
Definition sum_values (v : value) : result Q :=
  match v with
  | VDict d =>
      map_fold (fun _ x acc => a <- acc ;; q <- as_num x ;; Ok (a + q)) (Ok 0) d
  | _ => Raise AttributeError
  end.

(** The entries of a dict display are evaluated in order. *)
Fixpoint collect (l : list (string * result cell)) : result row :=
  match l with
  | [] => Ok []
  | (k, m) :: l => c <- m ;; r <- collect l ;; Ok ((k, c) :: r)
  end.

Module Simulation.

Record SimulationConfig : Type := {
  cfg_start_year : Z;
  cfg_end_year : Z;
  initial_gdp : Q;
  initial_gdp_growth : Q;
  base_real_gdp_growth : Q;
  initial_inflation : Q;
  inflation_persistence : Q
}.

Record Config : Type := {
  simulation : SimulationConfig;
  cfg_revenue_model : RevenueModel.Config;
  cfg_debt_model : DebtManagementModel.Config;
  cfg_financial_sector : FinancialSectorModel.Config;
  cfg_monetary_policy : MonetaryPolicyModel.Config;
  cfg_policy_coordination : PolicyCoordinationModel.Config;
  cfg_governance_model : GovernanceModel.Config;
  cfg_supervision_model : SupervisionModel.Config;
  cfg_soe_model : SOEModel.Config;
  cfg_external_sector : ExternalSectorModel.Config;
  cfg_fiscal_federalism : FiscalFederalismModel.Config;
  cfg_development_finance : DevelopmentFinanceModel.Config
}.

Record t : Type := Mk {
  config : Config;
  start_year : Z;
  end_year : Z;
  revenue_model : RevenueModel.t;
  expenditure_model : ExpenditureModel.t;
  debt_model : DebtManagementModel.t;
  financial_sector_model : FinancialSectorModel.t;
  monetary_policy_model : MonetaryPolicyModel.t;
  policy_coord_model : PolicyCoordinationModel.t;
  governance_model : GovernanceModel.t;
  supervision_model : SupervisionModel.t;
  soe_model : SOEModel.t;
  external_sector_model : ExternalSectorModel.t;
  fiscal_federalism_model : FiscalFederalismModel.t;
  dev_finance_model : DevelopmentFinanceModel.t;
  state : dict;
  results : ledger
}.

(** [range(self.start_year, self.end_year + 1)] *)
Definition years (self : t) : list Z :=
  map (fun i => (start_year self + Z.of_nat i)%Z)
      (seq 0 (Z.to_nat (end_year self + 1 - start_year self))).

(** A key of a configuration section read without default. *)
Definition required (o : option Q) : result Q :=
  match o with
  | Some q => Ok q
  | None => Raise KeyError
  end.

Definition _initialize_state (config : Config) : result dict :=
  let sim := simulation config in
  ratio <- required (DebtManagementModel.initial_debt_gdp_ratio
                       (cfg_debt_model config)) ;;
  npl <- required (FinancialSectorModel.initial_npl_ratio
                     (cfg_financial_sector config)) ;;
  Ok (<["economic_state" :=
         VDict (<["gdp" := VNum (initial_gdp sim)]>
               (<["gdp_growth" := VNum (initial_gdp_growth sim)]>
               (<["real_gdp_growth" := VNum (base_real_gdp_growth sim)]> ∅)))]>
      (<["inflation" := VNum (initial_inflation sim)]>
      (<["debt_stock" := VNum (ratio * initial_gdp sim)]>
      (<["npl_ratio" := VNum npl]>
      (<["fx_reserves" := VNum 0]>
      (<["soe_debt_stock" := VNum 0]>
      (<["governance_state" := VDict ∅]>
      (<["revenue_state" := VDict ∅]>
      (<["expenditure_state" := VDict ∅]>
      (<["debt_state" := VDict ∅]>
      (<["financial_sector_state" := VDict ∅]>
      (<["monetary_policy_state" := VDict ∅]>
      (<["policy_coordination_state" := VDict ∅]>
      (<["supervision_state" := VDict ∅]>
      (<["soe_state" := VDict ∅]>
      (<["external_sector_state" := VDict ∅]>
      (<["fiscal_federalism_state" := VDict ∅]>
      (<["dev_finance_state" := VDict ∅]>
      (<["deficit" := VNum 0]>
      (<["primary_deficit" := VNum 0]> ∅)))))))))))))))))))).

Definition __init__ (config : Config) : result t :=
  state <- _initialize_state config ;;
  Ok (Mk config
         (cfg_start_year (simulation config))
         (cfg_end_year (simulation config))
         (RevenueModel.__init__ (cfg_revenue_model config))
         ExpenditureModel.Mk
         (DebtManagementModel.__init__ (cfg_debt_model config))
         (FinancialSectorModel.__init__ (cfg_financial_sector config))
         (MonetaryPolicyModel.__init__ (cfg_monetary_policy config))
         (PolicyCoordinationModel.__init__ (cfg_policy_coordination config))
         (GovernanceModel.__init__ (cfg_governance_model config))
         (SupervisionModel.__init__ (cfg_supervision_model config))
         (SOEModel.__init__ (cfg_soe_model config))
         (ExternalSectorModel.__init__ (cfg_external_sector config))
         (FiscalFederalismModel.__init__ (cfg_fiscal_federalism config))
         (DevelopmentFinanceModel.__init__ (cfg_development_finance config))
         state
         []).

(** ['projected_inflation' in v] *)
Definition contains (v : value) (k : string) : result bool :=
  match v with
  | VDict d => Ok (bool_decide (is_Some (d !! k)))
  | _ => Raise TypeError
  end.

Definition _update_economic_state (config : Config) (state : dict) (year : Z)
    (g : rng) : result (dict * rng) :=
  let sim := simulation config in
  economic_state <- getitem state "economic_state" ;;
  prev_real_growth <- dget economic_state "real_gdp_growth"
                        (VNum (base_real_gdp_growth sim)) ;;
  let '(noise, g) := np_random_normal g in
  let current_real_growth := base_real_gdp_growth sim * (1 + noise) in
  prev_inflation <- getitem state "inflation" ;;
  monetary_policy_state <- getitem state "monetary_policy_state" ;;
  monetary_policy_effect <- dget monetary_policy_state
                              "projected_inflation_impact" (VNum 0) ;;
  has_projection <- contains monetary_policy_state "projected_inflation" ;;
  base_inflation <-
    (if has_projection : bool then
       p <- item monetary_policy_state "projected_inflation" ;; as_num p
     else
       prev_inflation <- as_num prev_inflation ;;
       Ok (prev_inflation * inflation_persistence sim +
           (1 - inflation_persistence sim) * initial_inflation sim)) ;;
  let current_inflation := base_inflation in
  let current_inflation := py_max 0.01 (py_min 0.15 current_inflation) in
  prev_gdp_v <- item economic_state "gdp" ;;
  prev_gdp <- as_num prev_gdp_v ;;
  let current_gdp :=
    prev_gdp * (1 + current_real_growth) * (1 + current_inflation) in
  gdp_growth <-
    (if Qltb 0 prev_gdp
     then q <- pydiv current_gdp prev_gdp ;; Ok (q - 1)
     else Ok 0) ;;
  state <- setitem2 state "economic_state" "gdp" (VNum current_gdp) ;;
  state <- setitem2 state "economic_state" "gdp_growth" (VNum gdp_growth) ;;
  state <- setitem2 state "economic_state" "real_gdp_growth"
             (VNum current_real_growth) ;;
  let state := <["inflation" := VNum current_inflation]> state in
  state <- setitem2 state "economic_state" "inflation_rate"
             (VNum current_inflation) ;;
  Ok (state, g).

(** [self.state['economic_state']['gdp']] *)
Definition economic_gdp (state : dict) : result value :=
  economic_state <- getitem state "economic_state" ;;
  item economic_state "gdp".

(** [x / gdp if gdp > 0 else 0], computed for the progress line only. *)
Definition share_of_gdp (state : dict) (x : Q) : result Q :=
  gdp <- economic_gdp state ;;
  gdp <- as_num gdp ;;
  if Qltb 0 gdp
  then gdp <- economic_gdp state ;; gdp <- as_num gdp ;; pydiv x gdp
  else Ok 0.

(** [num / gdp if gdp else np.nan] *)
Definition over_gdp (state : dict) (num : result cell) : result cell :=
  gdp <- economic_gdp state ;;
  if truthy gdp
  then n <- num ;; gdp <- economic_gdp state ;; cell_div n gdp
  else Ok NaN.

(** [self.state[k]] as a cell *)
Definition sitem (state : dict) (k : string) : result cell :=
  v <- getitem state k ;; Ok (Val v).

(** [self.state[k1][k2]] as a cell *)
Definition sitem2 (state : dict) (k1 k2 : string) : result cell :=
  v <- getitem state k1 ;; v <- item v k2 ;; Ok (Val v).

(** [self.state[k1].get(k2, np.nan)] *)
Definition sitem_get (state : dict) (k1 k2 : string) : result cell :=
  v <- getitem state k1 ;; cdget v k2.

(** [self.state.get(k1, {}).get(k2, np.nan)] *)
Definition sget2 (state : dict) (k1 k2 : string) : result cell :=
  cdget (get state k1 (VDict ∅)) k2.

Definition _store_results (state : dict) (year : Z) : result row :=
  collect [
    ("GDP", sitem2 state "economic_state" "gdp");
    ("GDP_Growth", sitem_get state "economic_state" "gdp_growth");
    ("Inflation", sitem2 state "economic_state" "inflation_rate");
    ("Total_Revenue", Ok (cget state "total_revenue"));
    ("Central_Revenue", Ok (cget state "central_revenue"));
    ("Revenue_GDP", over_gdp state (Ok (cget state "total_revenue")));
    ("Total_Expenditure", Ok (cget state "total_expenditure"));
    ("Central_Expenditure", Ok (cget state "central_expenditure"));
    ("Expenditure_GDP", over_gdp state (Ok (cget state "total_expenditure")));
    ("Overall_Deficit", sitem state "deficit");
    ("Primary_Deficit", Ok (cget state "primary_deficit"));
    ("Overall_Deficit_GDP", over_gdp state (sitem state "deficit"));
    ("Primary_Deficit_GDP", over_gdp state (sitem state "primary_deficit"));
    ("Debt_Stock_Total", sget2 state "debt_stock" "total");
    ("Debt_Stock_Domestic", sget2 state "debt_stock" "domestic");
    ("Debt_Stock_External", sget2 state "debt_stock" "external");
    ("Debt_Stock_GDP", over_gdp state (sget2 state "debt_stock" "total"));
    ("Debt_Service", sget2 state "debt_service_calculated" "total_service");
    ("Interest_Payments",
       sget2 state "debt_service_calculated" "total_interest_paid");
    ("DSA_Debt_GDP_Ratio", sget2 state "dsa_results" "debt_to_gdp");
    ("DSA_Service_Revenue_Ratio",
       sget2 state "dsa_results" "service_to_revenue");
    ("Exports", sitem_get state "external_sector_state" "exports");
    ("Imports", sitem_get state "external_sector_state" "imports");
    ("Remittances", sitem_get state "external_sector_state" "remittances");
    ("FDI", sitem_get state "external_sector_state" "fdi");
    ("CAB_GDP", sitem_get state "external_sector_state" "cab_gdp");
    ("FX_Reserves_Months",
       sitem_get state "external_sector_state" "reserves_months_imp");
    ("Governance_Index", sitem state "governance_index");
    ("PFM_Score", sitem_get state "governance_state" "pfm_level");
    ("NBR_Score", sitem_get state "governance_state" "nbr_capacity");
    ("AC_Score",
       sitem_get state "governance_state" "anti_corruption_effectiveness");
    ("Accountability_Score",
       sitem_get state "governance_state" "accountability_level");
    ("Financial_Stability_Index",
       sitem_get state "financial_sector_state" "financial_stability_index");
    ("NPL_Ratio", sitem_get state "financial_sector_state" "npl_ratio");
    ("CAR_Ratio",
       sitem_get state "financial_sector_state" "capital_adequacy_ratio");
    ("Policy_Rate", Ok (cget state "policy_rate"));
    ("Supervision_Effectiveness", Ok (cget state "supervision_effectiveness"));
    ("SOE_Performance", sget2 state "soe_state" "performance_index");
    ("SOE_Debt_GDP", over_gdp state (sget2 state "soe_state" "debt"));
    ("Subnational_Own_Revenue",
       sget2 state "fiscal_federalism_state" "own_revenue");
    ("Subnational_Debt",
       sget2 state "fiscal_federalism_state" "aggregate_debt");
    ("Grant_Receipts", sget2 state "development_finance_state" "grants");
    ("DFI_Lending",
       sget2 state "development_finance_state" "dfi_net_lending");
    ("Expenditure_Efficiency",
       sget2 state "expenditure_outputs" "expenditure_efficiency");
    ("Policy_Coordination_Score", Ok (cget state "policy_coordination_score"))
  ].

(** [{'dividends': ..., 'transfers_needed': ..., 'debt': ...}] *)
Definition soe_state (soe_dividends soe_transfers soe_debt : Q) : dict :=
  <["dividends" := VNum soe_dividends]>
  (<["transfers_needed" := VNum soe_transfers]>
  (<["debt" := VNum soe_debt]> ∅)).

Definition run_single_year (self : t) (year : Z) (g : rng)
  : result (t * rng) :=
  let state := state self in
  (* 0. basic economic state *)
  r <- _update_economic_state (config self) state year g ;;
  let '(state, g) := r in
  (* 1. Governance *)
  let '(gov_outputs, governance_model) :=
    GovernanceModel.simulate_governance_evolution (governance_model self)
      year state in
  let state := <["governance_state" := VDict gov_outputs]> state in
  state <- update state (VDict gov_outputs) ;;
  (* 2. Supervision *)
  r <- SupervisionModel.simulate_supervision_effectiveness
         (supervision_model self) year state ;;
  let '(sup_eff, supervision_model) := r in
  let supervision_state := <["supervision_effectiveness" := VNum sup_eff]> ∅ in
  let state := <["supervision_state" := VDict supervision_state]> state in
  state <- update state (VDict supervision_state) ;;
  (* 3. Financial sector *)
  r <- FinancialSectorModel.simulate_financial_system
         (financial_sector_model self) year state ;;
  let '(fin_outputs, financial_sector_model) := r in
  let state := <["financial_sector_state" := VDict fin_outputs]> state in
  state <- update state (VDict fin_outputs) ;;
  (* 4. Monetary policy *)
  r <- MonetaryPolicyModel.simulate_monetary_conditions
         (monetary_policy_model self) year state ;;
  let '(mp_rate, proj_inf, monetary_policy_model) := r in
  let monetary_policy_state :=
    <["policy_rate" := VNum mp_rate]>
    (<["projected_inflation" := VNum proj_inf]> ∅) in
  let state := <["monetary_policy_state" := VDict monetary_policy_state]> state in
  state <- update state (VDict monetary_policy_state) ;;
  (* 5. External sector *)
  r <- ExternalSectorModel.simulate_external_sector
         (external_sector_model self) year state g ;;
  let '(ext_outputs, external_sector_model, g) := r in
  let state := <["external_sector_state" := ext_outputs]> state in
  state <- update state ext_outputs ;;
  (* 6. Development finance *)
  r <- DevelopmentFinanceModel.simulate_development_finance
         (dev_finance_model self) year state g ;;
  let '(dev_fin_outputs, dev_finance_model, g) := r in
  let state := <["dev_finance_state" := dev_fin_outputs]> state in
  state <- update state dev_fin_outputs ;;
  (* 7. Revenue mobilisation *)
  economic_state <- getitem state "economic_state" ;;
  governance_state <- getitem state "governance_state" ;;
  r <- RevenueModel.project_revenue (revenue_model self) year
         economic_state governance_state ;;
  let '(rev_outputs, revenue_model) := r in
  let state := <["revenue_state" := VDict rev_outputs]> state in
  state <- update state (VDict rev_outputs) ;;
  final_revenue <- getitem rev_outputs "final_revenue" ;;
  (* 8. Fiscal federalism *)
  r <- FiscalFederalismModel.simulate_fiscal_federalism
         (fiscal_federalism_model self) year state ;;
  let '(ff_outputs, fiscal_federalism_model) := r in
  let state := <["fiscal_federalism_state" := ff_outputs]> state in
  state <- update state ff_outputs ;;
  transfers_to_subnational <- item ff_outputs "total_transfers" ;;
  final_revenue <- as_num final_revenue ;;
  transfers_to_subnational <- as_num transfers_to_subnational ;;
  let revenue_for_central_gov := final_revenue - transfers_to_subnational in
  state <- setitem2 state "revenue_state" "revenue_for_central_gov"
             (VNum revenue_for_central_gov) ;;
  (* 9. Expenditure *)
  let budget_allocation := get state "final_revenue" (VNum 0) in
  governance_state <- getitem state "governance_state" ;;
  implementation_capacity <- dget governance_state "pfm_effectiveness"
                               (VNum 0.5) ;;
  governance_state <- getitem state "governance_state" ;;
  accountability_mechanisms <- dget governance_state "accountability_index"
                                 (VNum 0.5) ;;
  governance_state <- getitem state "governance_state" ;;
  political_economy <- dget governance_state "governance_index" (VNum 0.5) ;;
  exp_outputs <- ExpenditureModel.simulate_expenditure
                   (expenditure_model self) year budget_allocation
                   implementation_capacity accountability_mechanisms
                   political_economy ;;
  let state := <["expenditure_state" := VDict exp_outputs]> state in
  state <- update state (VDict exp_outputs) ;;
  realized_central_spending <-
    sum_values (get exp_outputs "actual_spending" (VDict ∅)) ;;
  (* 10. SOE sector *)
  r <- SOEModel.simulate_soe_sector (soe_model self) year state ;;
  let '(soe_dividends, soe_transfers, soe_debt, soe_model) := r in
  let state :=
    <["soe_state" := VDict (soe_state soe_dividends soe_transfers soe_debt)]>
      state in
  let state := <["soe_debt_stock" := VNum soe_debt]> state in
  (* fiscal aggregates *)
  let total_revenue_inc_soe := revenue_for_central_gov + soe_dividends in
  let total_expenditure_inc_soe := realized_central_spending + soe_transfers in
  let deficit := total_expenditure_inc_soe - total_revenue_inc_soe in
  let state := <["deficit" := VNum deficit]> state in
  deficit_gdp <- share_of_gdp state deficit ;;
  (* 11. Debt management *)
  r <- DebtManagementModel.simulate_debt_dynamics (debt_model self) year
         state deficit ;;
  let '(updated_debt_stock, dsa_results, debt_service_calculated, debt_model) :=
    r in
  let state := <["debt_stock" := VDict updated_debt_stock]> state in
  let state := <["dsa_results" := VDict dsa_results]> state in
  let state :=
    <["debt_service_calculated" := VDict debt_service_calculated]> state in
  (* primary deficit *)
  interest_payments <-
    as_num (get debt_service_calculated "total_interest_paid" (VNum 0)) ;;
  let primary_deficit := deficit - interest_payments in
  let state := <["primary_deficit" := VNum primary_deficit]> state in
  primary_deficit_gdp <- share_of_gdp state primary_deficit ;;
  (* 12. Policy coordination *)
  r <- PolicyCoordinationModel.simulate_coordination (policy_coord_model self)
         year state ;;
  let '(coord_score, policy_coord_model) := r in
  let state :=
    <["policy_coordination_state" :=
        VDict (<["coordination_score" := VNum coord_score]> ∅)]> state in
  (* store results *)
  results_for_year <- _store_results state year ;;
  Ok (Mk (config self) (start_year self) (end_year self)
         revenue_model (expenditure_model self) debt_model
         financial_sector_model monetary_policy_model policy_coord_model
         governance_model supervision_model soe_model external_sector_model
         fiscal_federalism_model dev_finance_model
         state
         (ledger_set year results_for_year (results self)),
      g).

(** The loop of [run_simulation] over a list of years. *)
Fixpoint run_years (self : t) (ys : list Z) (g : rng) : result (t * rng) :=
  match ys with
  | [] => Ok (self, g)
  | year :: ys =>
      r <- run_single_year self year g ;;
      let '(self, g) := r in
      run_years self ys g
  end.

(** [run_simulation] returns the table built from [self.results]. *)
Definition run_simulation (self : t) (g : rng) : result (ledger * t * rng) :=
  r <- run_years self (years self) g ;;
  let '(self, g) := r in
  Ok (results self, self, g).

End Simulation.

(** The core of [main]: build the simulation from a configuration and run
    it. *)
Definition simulate (config : Simulation.Config) (g : rng)
  : result (ledger * Simulation.t * rng) :=
  self <- Simulation.__init__ config ;;
  Simulation.run_simulation self g.

(** The simulation after its first year only. *)
Definition after_first_year (config : Simulation.Config) (g : rng)
  : result (Simulation.t * rng) :=
  self <- Simulation.__init__ config ;;
  Simulation.run_single_year self (Simulation.start_year self) g.

(** ** Observing the shared state and the ledger *)

(** The number stored under a key, if there is one. *)
Definition num_at (d : dict) (k : string) : option Q :=
  match d !! k with
  | Some (VNum q) => Some q
  | _ => None
  end.

Definition value_at2 (d : dict) (k1 k2 : string) : option value :=
  match d !! k1 with
  | Some (VDict i) => i !! k2
  | _ => None
  end.

Definition num_at2 (d : dict) (k1 k2 : string) : option Q :=
  match d !! k1 with
  | Some (VDict i) => num_at i k2
  | _ => None
  end.

(** A ledger column of a year. *)
Definition column (l : ledger) (year : Z) (name : string) : option cell :=
  match ledger_get year l with
  | Some r => row_get name r
  | None => None
  end.

(** A computation that does not end in a division by zero. *)
Definition safe {A : Type} (m : result A) : Prop :=
  m <> Raise ZeroDivisionError.

(** Top-level state keys that [_store_results] reads and that neither the
    initial state nor any step of a year writes. *)
Definition unwritten_keys : list string :=
  ["total_revenue"; "central_revenue"; "total_expenditure";
   "central_expenditure"; "development_finance_state"; "expenditure_outputs";
   "policy_coordination_score"].

Definition never_written (state : dict) : Prop :=
  Forall (fun k => state !! k = None) unwritten_keys.

(** The ledger columns fed from keys that are never written. *)
Definition nan_columns : list string :=
  ["Total_Revenue"; "Central_Revenue"; "Total_Expenditure";
   "Central_Expenditure"; "Financial_Stability_Index"; "FX_Reserves_Months";
   "Interest_Payments"; "DSA_Service_Revenue_Ratio"; "SOE_Performance";
   "Grant_Receipts"; "DFI_Lending"; "Expenditure_Efficiency";
   "Policy_Coordination_Score"].

(** The ledger columns that [_store_results] divides by GDP. *)
Definition gdp_ratio_columns : list string :=
  ["Revenue_GDP"; "Expenditure_GDP"; "Overall_Deficit_GDP";
   "Primary_Deficit_GDP"; "Debt_Stock_GDP"; "SOE_Debt_GDP"].

(** [self.state['economic_state']['gdp'] = x], done from outside between two
    years. *)
Definition force_gdp (self : Simulation.t) (x : Q) : result Simulation.t :=
  state <- setitem2 (Simulation.state self) "economic_state" "gdp" (VNum x) ;;
  Ok (Simulation.Mk
        (Simulation.config self) (Simulation.start_year self)
        (Simulation.end_year self) (Simulation.revenue_model self)
        (Simulation.expenditure_model self) (Simulation.debt_model self)
        (Simulation.financial_sector_model self)
        (Simulation.monetary_policy_model self)
        (Simulation.policy_coord_model self) (Simulation.governance_model self)
        (Simulation.supervision_model self) (Simulation.soe_model self)
        (Simulation.external_sector_model self)
        (Simulation.fiscal_federalism_model self)
        (Simulation.dev_finance_model self)
        state (Simulation.results self)).

(** Two generators that are at the same position and agree on the next [n]
    normal draws and the next [m] uniform draws. *)
Definition rng_agree (n m : nat) (g1 g2 : rng) : Prop :=
  np_pos g1 = np_pos g2 /\
  py_pos g1 = py_pos g2 /\
  (forall i, (i < n)%nat ->
     np_stream g1 (np_pos g1 + i)%nat = np_stream g2 (np_pos g2 + i)%nat) /\
  (forall i, (i < m)%nat ->
     py_stream g1 (py_pos g1 + i)%nat = py_stream g2 (py_pos g2 + i)%nat).

(** Two runs of the same code that end alike: with the same exception, or
    with the same value and generators that agree on the next draws. *)
Definition agree_after {A : Type} (n m : nat) (r1 r2 : result (A * rng))
  : Prop :=
  match r1, r2 with
  | Ok (a1, g1), Ok (a2, g2) => a1 = a2 /\ rng_agree n m g1 g2
  | Raise e1, Raise e2 => e1 = e2
  | _, _ => False
  end.

(** What is left of a run for the reader of the table. *)
Definition ledger_of (r : result (ledger * Simulation.t * rng))
  : result ledger :=
  x <- r ;; Ok (fst (fst x)).

(** Successive calls of the external sector model, with the state each call
    sees. *)
Fixpoint external_calls (self : ExternalSectorModel.t)
    (calls : list (Z * dict)) (g : rng)
  : result (list value * ExternalSectorModel.t * rng) :=
  match calls with
  | [] => Ok ([], self, g)
  | (year, state) :: calls =>
      r <- ExternalSectorModel.simulate_external_sector self year state g ;;
      let '(v, self, g) := r in
      r <- external_calls self calls g ;;
      let '(vs, self, g) := r in
      Ok (v :: vs, self, g)
  end.

(** GDP is absent from the state, or it is zero. *)
Definition gdp_unavailable (state : dict) : Prop :=
  state !! "economic_state" = None \/
  (exists e, state !! "economic_state" = Some (VDict e) /\
             (e !! "gdp" = None \/ exists q, e !! "gdp" = Some (VNum q) /\ q == 0)).

(** GDP is present in the state and is the number [q]. *)
Definition gdp_is (state : dict) (q : Q) : Prop :=
  exists e, state !! "economic_state" = Some (VDict e) /\
            e !! "gdp" = Some (VNum q).

(** ** Scenarios *)

Module Scenario.

Definition revenue : RevenueModel.Config :=
  RevenueModel.Build_Config None None None None None None None.
Definition financial (npl : Q) : FinancialSectorModel.Config :=
  FinancialSectorModel.Build_Config (Some npl) None None None None.
Definition monetary : MonetaryPolicyModel.Config :=
  MonetaryPolicyModel.Build_Config None None None None.
Definition coordination : PolicyCoordinationModel.Config :=
  PolicyCoordinationModel.Build_Config None None None None None.
Definition governance : GovernanceModel.Config :=
  GovernanceModel.Build_Config None None None None None None None None None
    None None.
Definition supervision : SupervisionModel.Config :=
  SupervisionModel.Build_Config None None None None.
Definition soe : SOEModel.Config :=
  SOEModel.Build_Config None None None None None None None None.
Definition external_sector : ExternalSectorModel.Config :=
  ExternalSectorModel.Build_Config None None None None None None None None
    None None.
Definition federalism : FiscalFederalismModel.Config :=
  FiscalFederalismModel.Build_Config None None None None None.
Definition development : DevelopmentFinanceModel.Config :=
  DevelopmentFinanceModel.Build_Config None None None None None.

(** Every sector at its defaults; the debt section and the horizon vary. *)
Definition config (first last : Z) (gdp npl : Q)
    (debt : DebtManagementModel.Config) : Simulation.Config := {|
  Simulation.simulation := {|
    Simulation.cfg_start_year := first;
    Simulation.cfg_end_year := last;
    Simulation.initial_gdp := gdp;
    Simulation.initial_gdp_growth := 0.06;
    Simulation.base_real_gdp_growth := 0.06;
    Simulation.initial_inflation := 0.06;
    Simulation.inflation_persistence := 0.7 |};
  Simulation.cfg_revenue_model := revenue;
  Simulation.cfg_debt_model := debt;
  Simulation.cfg_financial_sector := financial npl;
  Simulation.cfg_monetary_policy := monetary;
  Simulation.cfg_policy_coordination := coordination;
  Simulation.cfg_governance_model := governance;
  Simulation.cfg_supervision_model := supervision;
  Simulation.cfg_soe_model := soe;
  Simulation.cfg_external_sector := external_sector;
  Simulation.cfg_fiscal_federalism := federalism;
  Simulation.cfg_development_finance := development
|}.

Definition no_debt : DebtManagementModel.Config :=
  DebtManagementModel.Build_Config None None None None (Some 0).

(** Domestic debt 100, external debt 50, at the default interest rates. *)
Definition some_debt : DebtManagementModel.Config :=
  DebtManagementModel.Build_Config
    (Some (Some 150, Some 100, Some 50)) None None None (Some 0.15).

(** One year, GDP 1000, no debt, NPL ratio zero. *)
Definition one_year : Simulation.Config := config 2025 2025 1000 0 no_debt.

Definition two_years : Simulation.Config := config 2025 2026 1000 0.11 no_debt.

Definition indebted : Simulation.Config := config 2025 2025 1000 0.11 some_debt.

(** A configuration whose initial GDP is zero. *)
Definition no_gdp : Simulation.Config := config 2025 2025 0 0.11 no_debt.

(** Every sector at its defaults, except that the external sector starts
    without reserves and that the state-owned enterprises perform at the top
    of the scale and pay out sixty times their profit: in 2025 both the
    reserves and the SOE debt would fall below zero. *)
Definition drained : Simulation.Config := {|
  Simulation.simulation := {|
    Simulation.cfg_start_year := 2025;
    Simulation.cfg_end_year := 2025;
    Simulation.initial_gdp := 1000;
    Simulation.initial_gdp_growth := 0.06;
    Simulation.base_real_gdp_growth := 0.06;
    Simulation.initial_inflation := 0.06;
    Simulation.inflation_persistence := 0.7 |};
  Simulation.cfg_revenue_model := revenue;
  Simulation.cfg_debt_model := no_debt;
  Simulation.cfg_financial_sector := financial 0.11;
  Simulation.cfg_monetary_policy := monetary;
  Simulation.cfg_policy_coordination := coordination;
  Simulation.cfg_governance_model := governance;
  Simulation.cfg_supervision_model := supervision;
  Simulation.cfg_soe_model :=
    SOEModel.Build_Config (Some 0.9) None None None None (Some 60) None None;
  Simulation.cfg_external_sector :=
    ExternalSectorModel.Build_Config None None None None (Some 0) None None
      None None None;
  Simulation.cfg_fiscal_federalism := federalism;
  Simulation.cfg_development_finance := development
|}.

(** No growth noise; every uniform draw at the middle of its interval. *)
Definition calm : rng := Rng (fun _ => 0) 0 (fun _ => 0.5) 0.

(** The same draws as [calm] for the first two years, others afterwards. *)
Definition calm_then_rough : rng :=
  Rng (fun i => if (i <? 2)%nat then 0 else 0.3) 0
      (fun i => if (i <? 4)%nat then 0.5 else 0.9) 0.

(** The simulation after 2025, with GDP then set to zero from outside. *)
Definition zero_gdp_start : result (Simulation.t * rng) :=
  r <- after_first_year two_years calm ;;
  let '(self, g) := r in
  self <- force_gdp self 0 ;;
  Ok (self, g).

(** The year 2026 run from there. *)
Definition zero_gdp_year : result (Simulation.t * rng) :=
  r <- zero_gdp_start ;;
  let '(self, g) := r in
  Simulation.run_single_year self 2026 g.

(** States as the external sector may see them before and after GDP is
    known. *)
Definition state_without_gdp : dict := ∅.
Definition state_with_zero_gdp : dict :=
  <["economic_state" := VDict (<["gdp" := VNum 0]> ∅)]> ∅.
Definition state_with_gdp : dict :=
  <["economic_state" := VDict (<["gdp" := VNum 1000]> ∅)]> ∅.

End Scenario.

(** * Properties *)

Import Simulation.

(** ** The scenarios run to completion *)

Lemma one_year_first_year_ok :
  is_ok (after_first_year Scenario.one_year Scenario.calm) = true.
Proof. vm_compute. reflexivity. Qed.

Lemma indebted_first_year_ok :
  is_ok (after_first_year Scenario.indebted Scenario.calm) = true.
Proof. vm_compute. reflexivity. Qed.

Lemma one_year_run_ok :
  is_ok (simulate Scenario.one_year Scenario.calm) = true.
Proof. vm_compute. reflexivity. Qed.

Lemma two_years_run_ok :
  is_ok (simulate Scenario.two_years Scenario.calm) = true.
Proof. vm_compute. reflexivity. Qed.

Lemma zero_gdp_year_ok : is_ok Scenario.zero_gdp_year = true.
Proof. vm_compute. reflexivity. Qed.

(** ** Arithmetic *)

Lemma Qltb_true (a b : Q) : Qltb a b = true <-> a < b.
Proof.
  unfold Qltb. rewrite negb_true_iff, <- not_true_iff_false, Qle_bool_iff.
  split; [apply Qnot_le_lt | apply Qlt_not_le].
Qed.

Lemma Qltb_false (a b : Q) : Qltb a b = false <-> b <= a.
Proof.
  unfold Qltb. rewrite negb_false_iff. apply Qle_bool_iff.
Qed.

Lemma py_max_lower (a b : Q) : a <= py_max a b.
Proof.
  unfold py_max. destruct (Qltb a b) eqn:E.
  - apply Qltb_true in E. lra.
  - lra.
Qed.

Lemma py_max_upper (a b c : Q) : a <= c -> b <= c -> py_max a b <= c.
Proof. unfold py_max. destruct (Qltb a b); auto. Qed.

Lemma py_min_upper (a b : Q) : py_min a b <= a.
Proof.
  unfold py_min. destruct (Qltb b a) eqn:E.
  - apply Qltb_true in E. lra.
  - lra.
Qed.

(** [max(lo, min(hi, x))] lies in [[lo, hi]]. *)
Lemma clamp_bounds (lo hi x : Q) :
  lo <= hi -> lo <= py_max lo (py_min hi x) <= hi.
Proof.
  intros H. split.
  - apply py_max_lower.
  - apply py_max_upper; [exact H | apply py_min_upper].
Qed.

Lemma Qeq_bool_false (a : Q) : Qeq_bool a 0 = false <-> ~ a == 0.
Proof.
  rewrite <- not_true_iff_false, Qeq_bool_iff. reflexivity.
Qed.

(** ** Inversion of a successful computation *)

Lemma bind_Ok {A B : Type} (m : result A) (k : A -> result B) (b : B) :
  bind m k = Ok b -> exists a, m = Ok a /\ k a = Ok b.
Proof. destruct m; simpl; [eauto | discriminate]. Qed.

Ltac inv_step H :=
  match type of H with
  | bind ?m _ = Ok _ =>
      let E := fresh "E" in
      destruct m eqn:E; [cbn [bind] in H | discriminate H]
  | match ?p with pair _ _ => _ end = Ok _ =>
      first [ is_var p; destruct p | let E := fresh "E" in destruct p eqn:E ]
  | (if ?b then _ else _) = Ok _ =>
      let E := fresh "E" in destruct b eqn:E
  end.

Ltac inv_ok H := repeat inv_step H; try discriminate H.

Lemma update_dict_Ok (d o d' : dict) : update d (VDict o) = Ok d' -> d' = o ∪ d.
Proof. cbn. congruence. Qed.

Lemma setitem2_Ok (d : dict) (k1 k2 : string) (v : value) (d' : dict) :
  setitem2 d k1 k2 v = Ok d' ->
  exists i, d !! k1 = Some (VDict i) /\ d' = <[k1 := VDict (<[k2 := v]> i)]> d.
Proof.
  unfold setitem2, getitem. destruct (d !! k1) as [[]|]; cbn; try discriminate.
  intros [= <-]. eauto.
Qed.

Lemma getitem_Ok (d : dict) (k : string) (v : value) :
  getitem d k = Ok v <-> d !! k = Some v.
Proof.
  unfold getitem. destruct (d !! k); split; congruence.
Qed.

Lemma as_num_VNum (v : value) (q : Q) :
  as_num v = Ok q -> v = VNum q \/ exists b, v = VBool b.
Proof.
  destruct v as [x|b| |]; cbn; try discriminate.
  - intros [= ->]. auto.
  - eauto.
Qed.

(** ** What each sector returns *)

Lemma update_reserves_floor m y months m' :
  ExternalSectorModel._update_reserves m y = Ok (months, m') ->
  ExternalSectorModel.fx_reserves m' =
    py_max 0 (ExternalSectorModel.fx_reserves m +
              ExternalSectorModel.overall_bop m) /\
  ExternalSectorModel.initialized m' = ExternalSectorModel.initialized m.
Proof.
  unfold ExternalSectorModel._update_reserves. cbn.
  intros H. inv_ok H; injection H as <- <-; auto.
Qed.

Lemma external_shape m y s g v m' g' :
  ExternalSectorModel.simulate_external_sector m y s g = Ok (v, m', g') ->
  v = ExternalSectorModel.empty_result \/
  exists months,
    v = VDict (ExternalSectorModel.external_sector_outputs m' months) /\
    0 <= ExternalSectorModel.fx_reserves m'.
Proof.
  unfold ExternalSectorModel.simulate_external_sector,
    ExternalSectorModel.simulate_active.
  intros H. inv_ok H; injection H as <- <- <-; eauto;
    right; eexists; (split; [reflexivity |]);
    match goal with
    | E : ExternalSectorModel._update_reserves _ _ = Ok _ |- _ =>
        apply update_reserves_floor in E; destruct E as [-> _];
        apply py_max_lower
    end.
Qed.

Lemma development_shape m y s g v m' g' :
  DevelopmentFinanceModel.simulate_development_finance m y s g = Ok (v, m', g') ->
  v = DevelopmentFinanceModel.empty_result \/
  v = VDict (DevelopmentFinanceModel.dev_finance_outputs m').
Proof.
  unfold DevelopmentFinanceModel.simulate_development_finance,
    DevelopmentFinanceModel.simulate_active.
  intros H. inv_ok H; injection H as <- <- <-; eauto.
Qed.

Lemma federalism_shape m y s v m' :
  FiscalFederalismModel.simulate_fiscal_federalism m y s = Ok (v, m') ->
  v = FiscalFederalismModel.empty_result \/
  v = VDict (FiscalFederalismModel.fiscal_federalism_outputs m').
Proof.
  unfold FiscalFederalismModel.simulate_fiscal_federalism,
    FiscalFederalismModel.simulate_active.
  intros H. inv_ok H; injection H as <- <-; eauto.
Qed.

Lemma revenue_shape m y e gv o m' :
  RevenueModel.project_revenue m y e gv = Ok (o, m') ->
  exists fr, o = <["final_revenue" := VNum fr]> ∅.
Proof.
  unfold RevenueModel.project_revenue. intros H. inv_ok H.
  injection H as <- <-; eauto.
Qed.

Lemma expenditure_shape m y b c a p o :
  ExpenditureModel.simulate_expenditure m y b c a p = Ok o ->
  exists d e, o = ExpenditureModel.outputs d e.
Proof.
  unfold ExpenditureModel.simulate_expenditure. intros H. inv_ok H.
  injection H as <-; eauto.
Qed.

Lemma financial_shape m y s o m' :
  FinancialSectorModel.simulate_financial_system m y s = Ok (o, m') ->
  exists si, o = FinancialSectorModel.outputs m' si.
Proof.
  unfold FinancialSectorModel.simulate_financial_system. intros H. inv_ok H.
  injection H as <- <-; eauto.
Qed.

Lemma governance_shape m y s o m' :
  GovernanceModel.simulate_governance_evolution m y s = (o, m') ->
  o = GovernanceModel.governance_state_outputs m'
        (GovernanceModel.governance_index m').
Proof.
  unfold GovernanceModel.simulate_governance_evolution. cbn.
  intros H. injection H as <- <-. reflexivity.
Qed.

Lemma debt_shape m y s d ds dsa dsc m' :
  DebtManagementModel.simulate_debt_dynamics m y s d = Ok (ds, dsa, dsc, m') ->
  ds = DebtManagementModel.debt_stock_dict (DebtManagementModel.debt_stock m') /\
  dsc = DebtManagementModel._calculate_debt_service m y s /\
  exists a b c, dsa = DebtManagementModel.sustainability_metrics a b c.
Proof.
  unfold DebtManagementModel.simulate_debt_dynamics,
    DebtManagementModel._perform_dsa.
  intros H. inv_ok H; injection H as <- <- <- <-.
  match goal with E : bind _ _ = Ok _ |- _ => inv_ok E; injection E as <- end.
  eauto 10.
Qed.

(** ** Stepping through a year *)

(** After [year_inv H], for [H] a successful [run_single_year], every
    intermediate state is a variable with its defining equation, every
    sector call a hypothesis, and the outputs of the sectors have their
    dict shape. *)
Ltac year_shapes :=
  repeat match goal with
  | H : update _ (VDict _) = Ok _ |- _ => apply update_dict_Ok in H
  | H : setitem2 _ _ _ _ = Ok _ |- _ =>
      let i := fresh "inner" in
      let L := fresh "L" in
      apply setitem2_Ok in H; destruct H as (i & L & H)
  | H : ExternalSectorModel.simulate_external_sector _ _ _ _ = Ok (?v, _, _),
    U : update _ ?v = Ok _ |- _ =>
      let M := fresh "months" in
      let R := fresh "Hreserves" in
      destruct (external_shape _ _ _ _ _ _ _ H) as [-> | (M & -> & R)];
      [discriminate U|]
  | H : DevelopmentFinanceModel.simulate_development_finance _ _ _ _ =
          Ok (?v, _, _),
    U : update _ ?v = Ok _ |- _ =>
      destruct (development_shape _ _ _ _ _ _ _ H) as [-> | ->];
      [discriminate U|]
  | H : FiscalFederalismModel.simulate_fiscal_federalism _ _ _ = Ok (?v, _),
    U : update _ ?v = Ok _ |- _ =>
      destruct (federalism_shape _ _ _ _ _ H) as [-> | ->];
      [discriminate U|]
  | H : RevenueModel.project_revenue _ _ _ _ = Ok (?o, _) |- _ =>
      is_var o;
      let fr := fresh "final_revenue" in
      destruct (revenue_shape _ _ _ _ _ _ H) as [fr ->]
  | H : ExpenditureModel.simulate_expenditure _ _ _ _ _ _ = Ok ?o |- _ =>
      is_var o;
      let d := fresh "spending" in
      let e := fresh "efficiency" in
      destruct (expenditure_shape _ _ _ _ _ _ _ H) as (d & e & ->)
  | H : FinancialSectorModel.simulate_financial_system _ _ _ = Ok (?o, _) |- _ =>
      is_var o;
      let si := fresh "stability" in
      destruct (financial_shape _ _ _ _ _ H) as [si ->]
  | H : GovernanceModel.simulate_governance_evolution _ _ _ = (?o, _) |- _ =>
      is_var o; rewrite (governance_shape _ _ _ _ _ H) in *
  | H : DebtManagementModel.simulate_debt_dynamics _ _ _ _ =
          Ok (?ds, ?dsa, ?dsc, _) |- _ =>
      is_var dsa;
      let a := fresh "debt_to_gdp" in
      let b := fresh "service_to_revenue" in
      let c := fresh "breached" in
      destruct (debt_shape _ _ _ _ _ _ _ _ H) as (-> & -> & a & b & c & ->)
  end.

Ltac year_inv H :=
  unfold run_single_year in H; inv_ok H; year_shapes;
  injection H as <- <-.

Ltac lit_unfold :=
  unfold ExternalSectorModel.external_sector_outputs,
    DevelopmentFinanceModel.dev_finance_outputs,
    FiscalFederalismModel.fiscal_federalism_outputs,
    ExpenditureModel.outputs, FinancialSectorModel.outputs,
    GovernanceModel.governance_state_outputs,
    DebtManagementModel.sustainability_metrics,
    DebtManagementModel.debt_stock_dict,
    DebtManagementModel._calculate_debt_service,
    soe_state.

(** A key that a dict display does not list, and one that it lists. *)
Ltac lit_none :=
  lit_unfold; repeat (rewrite lookup_insert_ne by done); apply lookup_empty.
Ltac lit_some :=
  lit_unfold; repeat (rewrite lookup_insert_ne by done); apply lookup_insert_eq.

(** Looking a constant key up in a state built from insertions, updates
    and named intermediate states. *)
Ltac lk1 :=
  match goal with
  | |- context [ (<[?k := _]> _) !! ?k ] => rewrite lookup_insert_eq
  | |- context [ (<[_ := _]> _) !! _ ] => rewrite lookup_insert_ne by done
  | |- context [ (?o ∪ _) !! ?k ] => rewrite (lookup_union_r o) by lit_none
  | |- context [ (?o ∪ ?m) !! ?k ] =>
      erewrite (lookup_union_Some_l o m k) by lit_some
  | |- context [ ∅ !! _ ] => rewrite lookup_empty
  | H : ?a = _ |- context [ ?a !! _ ] => is_var a; rewrite H
  end.
Ltac lk := repeat lk1.

(** ** The fiscal aggregates of a year *)

(** [sum(d.values())] of the two components of the realised spending, in
    the order of the dict display. *)
Lemma sum_values_spending (development non_development : Q) :
  sum_values (VDict (<["development" := VNum development]>
                     (<["non_development" := VNum non_development]> ∅))) =
  Ok (0 + development + non_development).
Proof.
  unfold sum_values. rewrite map_fold_foldr.
  assert (map_to_list (<["development" := VNum development]>
                       (<["non_development" := VNum non_development]>
                          (∅ : dict))) =
          [("non_development", VNum non_development);
           ("development", VNum development)]) as ->
    by (vm_compute; reflexivity).
  reflexivity.
Qed.

Lemma expenditure_components m y b c a p d e :
  ExpenditureModel.simulate_expenditure m y b c a p =
    Ok (ExpenditureModel.outputs d e) ->
  exists development non_development,
    d = <["development" := VNum development]>
        (<["non_development" := VNum non_development]> ∅).
Proof.
  unfold ExpenditureModel.simulate_expenditure. intros H. inv_ok H.
  apply (f_equal (fun r : result dict =>
                    match r with
                    | Ok o => o !! "actual_spending"
                    | Raise _ => None
                    end)) in H.
  cbv beta iota in H. unfold ExpenditureModel.outputs in H.
  rewrite !lookup_insert_eq in H.
  match type of H with
  | Some (VDict (<[_ := VNum ?x]> (<[_ := VNum ?z]> _))) = _ => exists x, z
  end.
  congruence.
Qed.

Lemma year_aggregates self year g self' g' :
  run_single_year self year g = Ok (self', g') ->
  exists final_revenue transfers_to_subnational development non_development
         soe_dividends soe_transfers_needed,
    let st := state self' in
    let revenue_for_central_gov := final_revenue - transfers_to_subnational in
    let realized_central_spending := 0 + development + non_development in
    let total_revenue := revenue_for_central_gov + soe_dividends in
    let total_expenditure := realized_central_spending + soe_transfers_needed in
    num_at2 st "revenue_state" "final_revenue" = Some final_revenue /\
    num_at2 st "fiscal_federalism_state" "total_transfers" =
      Some transfers_to_subnational /\
    transfers_to_subnational =
      FiscalFederalismModel.total_transfers (fiscal_federalism_model self') /\
    num_at2 st "revenue_state" "revenue_for_central_gov" =
      Some revenue_for_central_gov /\
    value_at2 st "expenditure_state" "actual_spending" =
      Some (VDict (<["development" := VNum development]>
                   (<["non_development" := VNum non_development]> ∅))) /\
    num_at2 st "soe_state" "dividends" = Some soe_dividends /\
    num_at2 st "soe_state" "transfers_needed" = Some soe_transfers_needed /\
    num_at st "deficit" = Some (total_expenditure - total_revenue).
Proof.
  intros H. year_inv H.
  repeat match goal with
  | E : getitem (<[_ := _]> _) _ = Ok _ |- _ =>
      unfold getitem in E; rewrite lookup_insert_eq in E; injection E as <-
  | E : item (VDict (FiscalFederalismModel.fiscal_federalism_outputs _)) _ =
          Ok _ |- _ =>
      cbn [item] in E;
      unfold getitem, FiscalFederalismModel.fiscal_federalism_outputs in E;
      rewrite lookup_insert_eq in E; injection E as <-
  | E : as_num (VNum _) = Ok _ |- _ => cbn [as_num] in E; injection E as <-
  end.
  match goal with
  | L : _ !! "revenue_state" = Some (VDict ?inner) |- _ =>
      assert (inner = <["final_revenue" := VNum final_revenue]> ∅) as ->
        by (revert L; lk; congruence)
  end.
  match goal with
  | X : ExpenditureModel.simulate_expenditure _ _ _ _ _ _ = Ok _ |- _ =>
      destruct (expenditure_components _ _ _ _ _ _ _ _ X)
        as (development & non_development & ->)
  end.
  match goal with
  | E : sum_values _ = Ok ?x,
    S : SOEModel.simulate_soe_sector _ _ _ = Ok (?d, ?t, _, _),
    F : FiscalFederalismModel.simulate_fiscal_federalism _ _ _ = Ok (_, ?m)
    |- _ =>
      unfold get, ExpenditureModel.outputs in E;
      rewrite lookup_insert_eq, sum_values_spending in E; injection E as <-;
      exists final_revenue, (FiscalFederalismModel.total_transfers m),
             development, non_development, d, t
  end.
  cbn [state fiscal_federalism_model]. cbv zeta.
  unfold num_at2, value_at2, num_at.
  repeat split; lk; lit_unfold; lk; reflexivity.
Qed.

(** C1. In every simulated year the orchestrator's aggregates satisfy
    revenue_for_central_gov = final_revenue - transfers_to_subnational,
    total_revenue = revenue_for_central_gov + soe_dividends,
    total_expenditure = realized_central_spending + soe_transfers_needed,
    where realized_central_spending is the sum 0 + development +
    non_development of the values of the Expenditure model's
    actual_spending, and the deficit written into the shared state is
    total_expenditure - total_revenue; the operands are the Revenue,
    FiscalFederalism, Expenditure and SOE outputs of that year, as stored in
    the state. *)
Theorem C1_fiscal_aggregates self year g self' g' :
  run_single_year self year g = Ok (self', g') ->
  exists final_revenue transfers_to_subnational development non_development
         soe_dividends soe_transfers_needed,
    let st := state self' in
    let revenue_for_central_gov := final_revenue - transfers_to_subnational in
    let realized_central_spending := 0 + development + non_development in
    let total_revenue := revenue_for_central_gov + soe_dividends in
    let total_expenditure := realized_central_spending + soe_transfers_needed in
    num_at2 st "revenue_state" "final_revenue" = Some final_revenue /\
    num_at2 st "fiscal_federalism_state" "total_transfers" =
      Some transfers_to_subnational /\
    transfers_to_subnational =
      FiscalFederalismModel.total_transfers (fiscal_federalism_model self') /\
    num_at2 st "revenue_state" "revenue_for_central_gov" =
      Some revenue_for_central_gov /\
    value_at2 st "expenditure_state" "actual_spending" =
      Some (VDict (<["development" := VNum development]>
                   (<["non_development" := VNum non_development]> ∅))) /\
    num_at2 st "soe_state" "dividends" = Some soe_dividends /\
    num_at2 st "soe_state" "transfers_needed" = Some soe_transfers_needed /\
    num_at st "deficit" = Some (total_expenditure - total_revenue).
Proof. exact (year_aggregates self year g self' g'). Qed.

(** The figures of 2025 in the one-year scenario. *)
Lemma one_year_aggregates :
  match after_first_year Scenario.one_year Scenario.calm with
  | Ok (s, _) =>
      let st := state s in
      match num_at2 st "revenue_state" "final_revenue",
            num_at2 st "fiscal_federalism_state" "total_transfers",
            value_at2 st "expenditure_state" "actual_spending",
            num_at st "deficit" with
      | Some fr, Some tr, Some (VDict sp), Some d =>
          match num_at sp "development", num_at sp "non_development" with
          | Some dev, Some nondev =>
              Qeq_bool fr 49.55076 && Qeq_bool tr 4.955076 &&
              Qeq_bool dev 14.865228 && Qeq_bool nondev 9.910152 &&
              Qeq_bool d (-19.820304)
          | _, _ => false
          end
      | _, _, _, _ => false
      end
  | Raise _ => false
  end = true.
Proof. vm_compute. reflexivity. Qed.

Lemma C1_fiscal_aggregates_witness :
  exists self' g' final_revenue transfers_to_subnational development
         non_development soe_dividends soe_transfers_needed,
    after_first_year Scenario.one_year Scenario.calm = Ok (self', g') /\
    num_at2 (state self') "revenue_state" "final_revenue" =
      Some final_revenue /\
    num_at2 (state self') "fiscal_federalism_state" "total_transfers" =
      Some transfers_to_subnational /\
    value_at2 (state self') "expenditure_state" "actual_spending" =
      Some (VDict (<["development" := VNum development]>
                   (<["non_development" := VNum non_development]> ∅))) /\
    num_at2 (state self') "soe_state" "dividends" = Some soe_dividends /\
    num_at2 (state self') "soe_state" "transfers_needed" =
      Some soe_transfers_needed /\
    num_at (state self') "deficit" =
      Some (0 + development + non_development + soe_transfers_needed -
            (final_revenue - transfers_to_subnational + soe_dividends)) /\
    final_revenue == 49.55076 /\
    transfers_to_subnational == 4.955076 /\
    development == 14.865228 /\
    non_development == 9.910152 /\
    0 + development + non_development + soe_transfers_needed -
      (final_revenue - transfers_to_subnational + soe_dividends) ==
    -19.820304.
Proof.
  pose proof one_year_aggregates as Hfig.
  destruct (after_first_year Scenario.one_year Scenario.calm)
    as [[self' g']|e] eqn:E; [|discriminate Hfig].
  unfold after_first_year in E.
  apply bind_Ok in E as (self & _ & Hrun).
  destruct (C1_fiscal_aggregates _ _ _ _ _ Hrun)
    as (fr & tr & dev & nondev & sd & st & H1 & H2 & _ & _ & H5 & H6 & H7 &
        H8).
  cbv zeta in Hfig, H8. rewrite H1, H2, H5, H8 in Hfig.
  unfold num_at in Hfig.
  rewrite lookup_insert_eq, lookup_insert_ne, lookup_insert_eq in Hfig by done.
  repeat (apply andb_prop in Hfig as [Hfig ?]).
  repeat match goal with
  | Q : Qeq_bool _ _ = true |- _ => apply Qeq_bool_iff in Q
  end.
  exists self', g', fr, tr, dev, nondev, sd, st.
  split; [reflexivity|].
  repeat (split; [assumption|]). assumption.
Defined.

(** ** The ledger *)

Lemma ledger_get_set_eq (l : ledger) (y : Z) (r : row) :
  ledger_get y (ledger_set y r l) = Some r.
Proof.
  induction l as [|[y' r'] l IH]; cbn.
  - rewrite Z.eqb_refl. reflexivity.
  - destruct (Z.eqb y' y) eqn:E; cbn; rewrite E; auto.
Qed.

Lemma collect_get (l : list (string * result cell)) (r : row) :
  collect l = Ok r ->
  forall k m, assoc k l = Some m -> exists c, m = Ok c /\ row_get k r = Some c.
Proof.
  revert r. induction l as [|[k' m'] l IH]; intros r H k m Hk.
  - discriminate Hk.
  - cbn in H. inv_ok H. injection H as <-.
    cbn in Hk. unfold row_get. cbn. destruct (String.eqb k k').
    + injection Hk as <-. eauto.
    + eapply IH; eauto.
Qed.

(** The cell that [_store_results] computes for a column. *)
Ltac store_column E name :=
  let c := fresh "c" in
  let Hc := fresh "Hc" in
  let Hrow := fresh "Hrow" in
  destruct (collect_get _ _ E name _ eq_refl) as (c & Hc & Hrow).

(** Evaluating the computation of a cell on the final state of a year. *)
Ltac cell_eval Hc :=
  unfold sitem_get, sitem2, sitem, sget2, getitem, get in Hc;
  revert Hc; lk; cbn [bind cdget item]; unfold cget, getitem; lit_unfold; lk;
  cbn [bind].

Lemma update_npls_floor m y s m' :
  FinancialSectorModel._update_npls m y s = Ok m' ->
  0.01 <= FinancialSectorModel.npl_ratio m'.
Proof.
  unfold FinancialSectorModel._update_npls.
  intros H. inv_ok H. injection H as <-. cbn. apply py_max_lower.
Qed.

Lemma update_capital_adequacy_bounds m y s :
  let m' := FinancialSectorModel._update_capital_adequacy m y s in
  FinancialSectorModel.npl_ratio m' = FinancialSectorModel.npl_ratio m /\
  0.05 <= FinancialSectorModel.capital_adequacy_ratio m' <= 0.25.
Proof.
  unfold FinancialSectorModel._update_capital_adequacy. cbn. split.
  - destruct (Qltb 0.15 _); reflexivity.
  - apply clamp_bounds. lra.
Qed.

Lemma financial_bounds m y s o m' :
  FinancialSectorModel.simulate_financial_system m y s = Ok (o, m') ->
  0.01 <= FinancialSectorModel.npl_ratio m' /\
  0.05 <= FinancialSectorModel.capital_adequacy_ratio m' <= 0.25.
Proof.
  unfold FinancialSectorModel.simulate_financial_system.
  intros H. inv_ok H. injection H as <- <-.
  match goal with
  | E : FinancialSectorModel._update_npls _ _ _ = Ok ?a |- _ =>
      apply update_npls_floor in E;
      destruct (update_capital_adequacy_bounds a y s) as [-> ?]
  end.
  auto.
Qed.

Lemma coordination_bounds m y s score m' :
  PolicyCoordinationModel.simulate_coordination m y s = Ok (score, m') ->
  0.1 <= score <= 0.9 /\
  PolicyCoordinationModel.current_coordination_score m' = score.
Proof.
  unfold PolicyCoordinationModel.simulate_coordination.
  intros H. inv_ok H; injection H as <- <-; cbn;
    (split; [apply clamp_bounds; lra | reflexivity]).
Qed.

(** C6. After every simulated year the clamped ratios are within their
    bounds: the NPL ratio is at least 0.01, the capital adequacy ratio lies
    in [0.05, 0.25] and the policy coordination score in [0.1, 0.9]; this
    holds of the values in the shared state, in the models and in the
    ledger. *)
Theorem C6_clamped_ratios self year g self' g' :
  run_single_year self year g = Ok (self', g') ->
  exists npl car score,
    let st := state self' in
    num_at2 st "financial_sector_state" "npl_ratio" = Some npl /\
    num_at2 st "financial_sector_state" "capital_adequacy_ratio" = Some car /\
    num_at2 st "policy_coordination_state" "coordination_score" = Some score /\
    npl = FinancialSectorModel.npl_ratio (financial_sector_model self') /\
    car = FinancialSectorModel.capital_adequacy_ratio
            (financial_sector_model self') /\
    score = PolicyCoordinationModel.current_coordination_score
              (policy_coord_model self') /\
    column (results self') year "NPL_Ratio" = Some (Val (VNum npl)) /\
    column (results self') year "CAR_Ratio" = Some (Val (VNum car)) /\
    0.01 <= npl /\
    0.05 <= car <= 0.25 /\
    0.1 <= score <= 0.9.
Proof.
  intros H. year_inv H.
  match goal with
  | F : FinancialSectorModel.simulate_financial_system _ _ _ = Ok (_, ?m),
    P : PolicyCoordinationModel.simulate_coordination _ _ _ = Ok (?sc, _),
    S : _store_results _ _ = Ok _ |- _ =>
      destruct (financial_bounds _ _ _ _ _ F) as [Hnpl Hcar];
      destruct (coordination_bounds _ _ _ _ _ P) as [Hsc Hcur];
      exists (FinancialSectorModel.npl_ratio m),
             (FinancialSectorModel.capital_adequacy_ratio m), sc;
      store_column S "NPL_Ratio"; store_column S "CAR_Ratio"
  end.
  cbn [state financial_sector_model policy_coord_model results]. cbv zeta.
  unfold column. rewrite ledger_get_set_eq.
  unfold num_at2, num_at.
  cell_eval Hc. intros [= <-]. cell_eval Hc0. intros [= <-].
  repeat split; lk; lit_unfold; lk; try reflexivity; try tauto; auto.
Qed.

Lemma C6_clamped_ratios_witness :
  exists self' g',
    after_first_year Scenario.one_year Scenario.calm = Ok (self', g') /\
    exists npl car score,
      num_at2 (state self') "financial_sector_state" "npl_ratio" = Some npl /\
      num_at2 (state self') "financial_sector_state" "capital_adequacy_ratio" =
        Some car /\
      num_at2 (state self') "policy_coordination_state" "coordination_score" =
        Some score /\
      0.01 <= npl /\ 0.05 <= car <= 0.25 /\ 0.1 <= score <= 0.9.
Proof.
  pose proof one_year_first_year_ok as Hok.
  destruct (after_first_year Scenario.one_year Scenario.calm)
    as [[self' g']|e] eqn:E; [|discriminate Hok].
  exists self', g'. split; [reflexivity|].
  unfold after_first_year in E.
  apply bind_Ok in E as (self & _ & Hrun).
  destruct (C6_clamped_ratios _ _ _ _ _ Hrun)
    as (npl & car & score & H1 & H2 & H3 & _ & _ & _ & _ & _ & H4 & H5 & H6).
  exists npl, car, score.
  exact (conj H1 (conj H2 (conj H3 (conj H4 (conj H5 H6))))).
Defined.

(** ** Monetary stocks *)

Lemma soe_debt_nonneg m y s d t debt m' :
  SOEModel.simulate_soe_sector m y s = Ok (d, t, debt, m') -> 0 <= debt.
Proof.
  unfold SOEModel.simulate_soe_sector, SOEModel.simulate_active,
    SOEModel._update_soe_debt.
  intros H. inv_ok H; injection H as <- <- <- <-; cbn;
    first [apply py_max_lower | lra].
Qed.

Lemma update_debt_stock_total m y s dsc d m' :
  DebtManagementModel._update_debt_stock m y s dsc d = Ok m' ->
  DebtManagementModel.total (DebtManagementModel.debt_stock m') =
  DebtManagementModel.domestic (DebtManagementModel.debt_stock m') +
  DebtManagementModel.external (DebtManagementModel.debt_stock m').
Proof.
  unfold DebtManagementModel._update_debt_stock.
  intros H. inv_ok H; injection H as <-; reflexivity.
Qed.

Lemma debt_total_is_sum m y s d ds dsa dsc m' :
  DebtManagementModel.simulate_debt_dynamics m y s d = Ok (ds, dsa, dsc, m') ->
  DebtManagementModel.total (DebtManagementModel.debt_stock m') =
  DebtManagementModel.domestic (DebtManagementModel.debt_stock m') +
  DebtManagementModel.external (DebtManagementModel.debt_stock m').
Proof.
  unfold DebtManagementModel.simulate_debt_dynamics.
  intros H. inv_ok H. injection H as _ _ _ <-.
  eapply update_debt_stock_total; eauto.
Qed.

(** What the economic update leaves in the state. *)
Lemma economic_update_result config s y g s' g' :
  _update_economic_state config s y g = Ok (s', g') ->
  exists inner gdp growth real inflation,
    s' !! "inflation" = Some (VNum inflation) /\
    s' !! "economic_state" =
      Some (VDict (<["inflation_rate" := VNum inflation]>
                   (<["real_gdp_growth" := VNum real]>
                   (<["gdp_growth" := VNum growth]>
                   (<["gdp" := VNum gdp]> inner))))) /\
    s !! "economic_state" = Some (VDict inner) /\
    0.01 <= inflation <= 0.15.
Proof.
  unfold _update_economic_state. intros H.
  inv_ok H; injection H as <- <-;
  repeat match goal with
  | E : setitem2 _ _ _ _ = Ok _ |- _ =>
      let L := fresh "L" in
      apply setitem2_Ok in E; destruct E as (? & L & ->)
  end.
  all: repeat match goal with
  | L : (<[_ := _]> _) !! _ = Some _ |- _ =>
      first [ rewrite lookup_insert_eq in L; injection L as <-
            | rewrite lookup_insert_ne in L by done ]
  end.
  all: eexists _, _, _, _, _.
  all: (split; [lk; reflexivity|]).
  all: (split; [lk; reflexivity|]).
  all: (split; [eassumption | apply clamp_bounds; lra]).
Qed.

(** [max(0, x)]: a value that is not positive is replaced with zero. *)
Lemma py_max_floor (x : Q) :
  (x <= 0 -> py_max 0 x = 0) /\ (0 < x -> py_max 0 x = x).
Proof.
  unfold py_max. destruct (Qltb 0 x) eqn:E.
  - apply Qltb_true in E. split; [lra | reflexivity].
  - apply Qltb_false in E. split; [reflexivity | lra].
Qed.

Lemma soe_debt_update m y s d t debt m' :
  SOEModel.simulate_soe_sector m y s = Ok (d, t, debt, m') ->
  0 <= debt /\
  ((SOEModel.initialized m' = false /\ debt = 0) \/
   exists opening,
     SOEModel.initialized m' = true /\
     debt = SOEModel.soe_debt_stock m' /\
     (SOEModel.initialized m = true -> opening = SOEModel.soe_debt_stock m) /\
     (SOEModel.initialized m = false ->
      exists gdp,
        bind (get2 s "economic_state" "gdp" (VNum 0)) as_num = Ok gdp /\
        opening = SOEModel.initial_soe_debt_gdp (SOEModel.params m) * gdp) /\
     debt =
       py_max 0
         (opening +
          (- ((SOEModel.performance_index m' - 0.5) * opening * 0.1) + t - d))).
Proof.
  assert (forall m0 : SOEModel.t,
            SOEModel.initialized m0 = true ->
            SOEModel.simulate_active m0 y s = Ok (d, t, debt, m') ->
            SOEModel.initialized m' = true /\
            debt = SOEModel.soe_debt_stock m' /\
            debt =
              py_max 0
                (SOEModel.soe_debt_stock m0 +
                 (- ((SOEModel.performance_index m' - 0.5) *
                     SOEModel.soe_debt_stock m0 * 0.1) + t - d))) as Ha.
  { intros m0 Hi H. unfold SOEModel.simulate_active in H.
    apply bind_Ok in H as (m1 & Hp & H).
    assert (SOEModel.soe_debt_stock m1 = SOEModel.soe_debt_stock m0 /\
            SOEModel.initialized m1 = SOEModel.initialized m0) as [Hs Hi1].
    { unfold SOEModel._update_financial_performance in Hp.
      inv_ok Hp; injection Hp as <-; split; reflexivity. }
    destruct (SOEModel._calculate_fiscal_impact m1 y s) as [dv tr].
    injection H as <- <- <- <-.
    unfold SOEModel._update_soe_debt.
    cbn [SOEModel.initialized SOEModel.soe_debt_stock
         SOEModel.performance_index].
    rewrite Hs, Hi1. auto. }
  intros H. split; [eapply soe_debt_nonneg; exact H|].
  unfold SOEModel.simulate_soe_sector in H.
  destruct (SOEModel.initialized m) eqn:Hi; cbn [negb] in H.
  - destruct (Ha m Hi H) as (H1 & H2 & H3).
    right. exists (SOEModel.soe_debt_stock m).
    repeat split; auto. discriminate.
  - apply bind_Ok in H as (v & Hv & H). apply bind_Ok in H as (q & Hq & H).
    destruct (Qltb 0 q) eqn:G.
    + destruct (Ha (SOEModel._initialize_debt m q) eq_refl H) as (H1 & H2 & H3).
      right. exists (SOEModel.initial_soe_debt_gdp (SOEModel.params m) * q).
      repeat split; auto; try discriminate.
      intros _. exists q. split; [|reflexivity].
      rewrite Hv. exact Hq.
    + injection H as <- <- <- <-. left. auto.
Qed.

Lemma external_reserves_update m y s g v m' g' :
  ExternalSectorModel.simulate_external_sector m y s g = Ok (v, m', g') ->
  v = ExternalSectorModel.empty_result \/
  exists months opening,
    v = VDict (ExternalSectorModel.external_sector_outputs m' months) /\
    ExternalSectorModel.initialized m' = true /\
    (ExternalSectorModel.initialized m = true ->
     opening = ExternalSectorModel.fx_reserves m) /\
    (ExternalSectorModel.initialized m = false ->
     exists gdp,
       bind (get2 s "economic_state" "gdp" (VNum 0)) as_num = Ok gdp /\
       opening =
         ExternalSectorModel.initial_import_gdp (ExternalSectorModel.params m) *
         gdp *
         (ExternalSectorModel.initial_reserves_months_import
            (ExternalSectorModel.params m) / 12.0)) /\
    ExternalSectorModel.fx_reserves m' =
      py_max 0 (opening + ExternalSectorModel.overall_bop m').
Proof.
  assert (forall m0 : ExternalSectorModel.t,
            ExternalSectorModel.initialized m0 = true ->
            ExternalSectorModel.simulate_active m0 y s g = Ok (v, m', g') ->
            exists months,
              v = VDict (ExternalSectorModel.external_sector_outputs m' months) /\
              ExternalSectorModel.initialized m' = true /\
              ExternalSectorModel.fx_reserves m' =
                py_max 0 (ExternalSectorModel.fx_reserves m0 +
                          ExternalSectorModel.overall_bop m')) as Ha.
  { intros m0 Hi H. unfold ExternalSectorModel.simulate_active in H.
    apply bind_Ok in H as ([m1 g1] & Hp & H).
    apply bind_Ok in H as ([months m2] & Hu & H).
    injection H as <- <- <-.
    assert (ExternalSectorModel.fx_reserves m1 =
              ExternalSectorModel.fx_reserves m0 /\
            ExternalSectorModel.initialized m1 =
              ExternalSectorModel.initialized m0) as [Hf Hi1].
    { unfold ExternalSectorModel._project_flows in Hp.
      inv_ok Hp. injection Hp as <- <-. split; reflexivity. }
    unfold ExternalSectorModel._update_reserves in Hu. cbv zeta in Hu.
    apply bind_Ok in Hu as (mo & _ & Hu). injection Hu as <- <-.
    eexists. split; [reflexivity|].
    cbn [ExternalSectorModel.initialized ExternalSectorModel.fx_reserves
         ExternalSectorModel.overall_bop ExternalSectorModel._calculate_bop].
    rewrite Hf, Hi1. auto. }
  intros H. unfold ExternalSectorModel.simulate_external_sector in H.
  destruct (ExternalSectorModel.initialized m) eqn:Hi; cbn [negb] in H.
  - destruct (Ha m Hi H) as (months & H1 & H2 & H3).
    right. exists months, (ExternalSectorModel.fx_reserves m).
    repeat split; auto. discriminate.
  - apply bind_Ok in H as (gv & Hv & H). apply bind_Ok in H as (q & Hq & H).
    destruct (Qltb 0 q) eqn:G.
    + destruct (Ha (ExternalSectorModel._initialize_state m q) eq_refl H)
        as (months & H1 & H2 & H3).
      right. exists months. eexists.
      split; [exact H1|]. split; [exact H2|].
      split; [discriminate|]. split; [|exact H3].
      intros _. exists q. split; [|reflexivity].
      rewrite Hv. exact Hq.
    + injection H as <- <- <-. left. reflexivity.
Qed.

(** The value that a state built from insertions, updates and named
    intermediate states holds under a constant key. *)
Ltac state_lookup st k H :=
  let v := fresh "v" in
  evar (v : option value);
  assert (st !! k = v) as H by (subst v; lk; reflexivity);
  subst v.

(** [x / gdp if gdp else np.nan] for a number [x]. *)
Lemma over_gdp_number s q x c :
  gdp_is s q ->
  over_gdp s (Ok (Val (VNum x))) = Ok c ->
  (q == 0 -> c = NaN) /\ (~ q == 0 -> c = Val (VNum (x / q))).
Proof.
  intros (e & He & Hg). unfold over_gdp, economic_gdp, getitem.
  rewrite He. cbn [bind item]. unfold getitem. rewrite Hg.
  cbn [bind truthy]. destruct (Qeq_bool q 0) eqn:E; cbn [negb bind].
  - apply Qeq_bool_iff in E. intros [= <-]. split; [reflexivity | tauto].
  - cbn [cell_div as_num bind]. unfold pydiv. rewrite E. cbn [bind].
    apply Qeq_bool_false in E. intros [= <-]. split; [tauto | reflexivity].
Qed.

(** C3, counterexample. With every sector at its defaults and no initial
    debt, the first year closes with a surplus, and the total debt stock
    recorded in the ledger for 2025 is negative. *)
Lemma C3_debt_stock_negative :
  exists self' g' q,
    after_first_year Scenario.one_year Scenario.calm = Ok (self', g') /\
    column (results self') 2025 "Debt_Stock_Total" = Some (Val (VNum q)) /\
    q < 0.
Proof.
  assert (match after_first_year Scenario.one_year Scenario.calm with
          | Ok (s, _) =>
              match column (results s) 2025 "Debt_Stock_Total" with
              | Some (Val (VNum q)) => Qltb q 0
              | _ => false
              end
          | Raise _ => false
          end = true) as H by (vm_compute; reflexivity).
  destruct (after_first_year Scenario.one_year Scenario.calm)
    as [[self' g']|e]; [|discriminate H].
  destruct (column (results self') 2025 "Debt_Stock_Total")
    as [[[q| | |]|]|] eqn:C; try discriminate H.
  apply Qltb_true in H.
  exists self', g', q. auto.
Qed.

(** C3, amended. In every simulated year the SOE debt stock and the FX
    reserves are floored at zero: each is the stock with which the model
    entered the year (the one it initialises from GDP, in the year in which
    it becomes active) plus the change of the year, replaced with zero when
    that sum is not positive.  They are the values that the year leaves in
    the shared state; the row of the year reports the SOE debt as
    SOE_Debt_GDP, the stock divided by GDP, and has no reserves column but
    FX_Reserves_Months, which is not fed.  The central government debt
    stock is recorded in the row as the debt model holds it,
    total = domestic + external, with no floor. *)
Theorem C3_floored_stocks self year g self' g' :
  run_single_year self year g = Ok (self', g') ->
  exists gdp soe_debt soe_opening dividends transfers reserves
         reserves_opening overall_bop,
    let st := state self' in
    let soe := soe_model self in
    let soe' := soe_model self' in
    let ext := external_sector_model self in
    let ext' := external_sector_model self' in
    let debt := DebtManagementModel.debt_stock (debt_model self') in
    let soe_candidate :=
      soe_opening +
      (- ((SOEModel.performance_index soe' - 0.5) * soe_opening * 0.1) +
       transfers - dividends) in
    let reserves_candidate := reserves_opening + overall_bop in
    (* what the year leaves in the shared state *)
    num_at2 st "economic_state" "gdp" = Some gdp /\
    num_at st "soe_debt_stock" = Some soe_debt /\
    num_at2 st "soe_state" "debt" = Some soe_debt /\
    num_at2 st "soe_state" "dividends" = Some dividends /\
    num_at2 st "soe_state" "transfers_needed" = Some transfers /\
    num_at st "fx_reserves" = Some reserves /\
    num_at2 st "external_sector_state" "fx_reserves" = Some reserves /\
    num_at2 st "external_sector_state" "overall_bop" = Some overall_bop /\
    (* the SOE debt stock *)
    0 <= soe_debt /\
    ((SOEModel.initialized soe' = false /\ soe_debt = 0) \/
     (SOEModel.initialized soe' = true /\
      soe_debt = SOEModel.soe_debt_stock soe' /\
      (SOEModel.initialized soe = true ->
       soe_opening = SOEModel.soe_debt_stock soe) /\
      (SOEModel.initialized soe = false ->
       soe_opening =
         SOEModel.initial_soe_debt_gdp (SOEModel.params soe) * gdp) /\
      (soe_candidate <= 0 -> soe_debt = 0) /\
      (0 < soe_candidate -> soe_debt = soe_candidate))) /\
    (* the FX reserves *)
    0 <= reserves /\
    reserves = ExternalSectorModel.fx_reserves ext' /\
    overall_bop = ExternalSectorModel.overall_bop ext' /\
    (ExternalSectorModel.initialized ext = true ->
     reserves_opening = ExternalSectorModel.fx_reserves ext) /\
    (ExternalSectorModel.initialized ext = false ->
     reserves_opening =
       ExternalSectorModel.initial_import_gdp (ExternalSectorModel.params ext) *
       gdp *
       (ExternalSectorModel.initial_reserves_months_import
          (ExternalSectorModel.params ext) / 12.0)) /\
    (reserves_candidate <= 0 -> reserves = 0) /\
    (0 < reserves_candidate -> reserves = reserves_candidate) /\
    (* the row of the year *)
    (gdp == 0 -> column (results self') year "SOE_Debt_GDP" = Some NaN) /\
    (~ gdp == 0 ->
     column (results self') year "SOE_Debt_GDP" =
       Some (Val (VNum (soe_debt / gdp)))) /\
    column (results self') year "FX_Reserves_Months" = Some NaN /\
    column (results self') year "Debt_Stock_Total" =
      Some (Val (VNum (DebtManagementModel.total debt))) /\
    column (results self') year "Debt_Stock_Domestic" =
      Some (Val (VNum (DebtManagementModel.domestic debt))) /\
    column (results self') year "Debt_Stock_External" =
      Some (Val (VNum (DebtManagementModel.external debt))) /\
    DebtManagementModel.total debt =
      DebtManagementModel.domestic debt + DebtManagementModel.external debt.
Proof.
  intros H. year_inv H.
  match goal with |- ?G => set (Claim := G) end.
  match goal with
  | U : _update_economic_state _ _ _ _ = Ok _ |- _ =>
      destruct (economic_update_result _ _ _ _ _ _ U)
        as (eco & egdp & egrowth & ereal & einfl & _ & He & _ & _)
  end.
  match goal with
  | S : SOEModel.simulate_soe_sector _ _ ?s9 = Ok (_, _, _, _),
    X : ExternalSectorModel.simulate_external_sector _ _ ?s4 _ = Ok _,
    D : DebtManagementModel.simulate_debt_dynamics _ _ _ _ = Ok _,
    R : _store_results ?st _ = Ok _
    |- _ =>
      destruct (soe_debt_update _ _ _ _ _ _ _ S) as [Hsoe Hsoe'];
      destruct (external_reserves_update _ _ _ _ _ _ _ X)
        as [Hx | (months' & ropen & _ & Hxi & Hx1 & Hx2 & Hx3)];
        [discriminate Hx|];
      pose proof (debt_total_is_sum _ _ _ _ _ _ _ _ D) as Hsum;
      assert (bind (get2 s9 "economic_state" "gdp" (VNum 0)) as_num = Ok egdp)
        as Hg9 by (unfold get2, get; lk; rewrite He; cbn [dget bind];
                   unfold get; lk; reflexivity);
      assert (bind (get2 s4 "economic_state" "gdp" (VNum 0)) as_num = Ok egdp)
        as Hg4 by (unfold get2, get; lk; rewrite He; cbn [dget bind];
                   unfold get; lk; reflexivity);
      state_lookup st "economic_state" Keco; rewrite He in Keco;
      state_lookup st "soe_debt_stock" Ksoe;
      state_lookup st "soe_state" Ksoes;
      state_lookup st "fx_reserves" Kfx;
      state_lookup st "external_sector_state" Kext;
      assert (gdp_is st egdp) as Hgdp
        by (eexists; split; [exact Keco | lk; reflexivity]);
      store_column R "Debt_Stock_Total";
      store_column R "Debt_Stock_Domestic";
      store_column R "Debt_Stock_External";
      store_column R "FX_Reserves_Months";
      store_column R "SOE_Debt_GDP"
  end.
  cell_eval Hc. intros [= <-]. cell_eval Hc0. intros [= <-].
  cell_eval Hc1. intros [= <-].
  unfold sitem_get, getitem in Hc2. rewrite Kext in Hc2.
  cbn [bind cdget] in Hc2. unfold cget in Hc2. revert Hc2. lit_unfold. lk.
  intros [= <-].
  unfold sget2, get in Hc3. rewrite Ksoes in Hc3. cbn [cdget] in Hc3.
  unfold cget in Hc3. revert Hc3. lit_unfold. lk. intros Hc3.
  destruct (over_gdp_number _ _ _ _ Hgdp Hc3) as [Hnan Hratio].
  match goal with
  | Hr : row_get "SOE_Debt_GDP" _ = Some _ |- _ =>
      assert (Hnan' := fun z => eq_trans Hr (f_equal Some (Hnan z)));
      assert (Hratio' := fun z => eq_trans Hr (f_equal Some (Hratio z)))
  end.
  match goal with
  | X : ExternalSectorModel.simulate_external_sector ?mx0 _ _ _ =
          Ok (_, ?mx, _) |- _ =>
      assert (ExternalSectorModel.initialized mx0 = false ->
              ropen =
                ExternalSectorModel.initial_import_gdp
                  (ExternalSectorModel.params mx0) * egdp *
                (ExternalSectorModel.initial_reserves_months_import
                   (ExternalSectorModel.params mx0) / 12.0)) as Hropen
        by (intros Hi; destruct (Hx2 Hi) as (gq & Hgq & ->);
            rewrite Hg4 in Hgq; injection Hgq as <-; reflexivity);
      destruct (py_max_floor (ropen + ExternalSectorModel.overall_bop mx))
        as [Hr0 Hr1];
      rewrite <- Hx3 in Hr0, Hr1
  end.
  subst Claim.
  match goal with
  | S : SOEModel.simulate_soe_sector _ _ _ = Ok (?dv, ?tr, ?debt, ?ms),
    X : ExternalSectorModel.simulate_external_sector _ _ _ _ =
          Ok (_, ?mx, _) |- _ =>
      destruct Hsoe' as [[Hsi Hs0] | (sopen & Hsi & Hsd & Hs1 & Hs2 & Hs3)];
      [ exists egdp, debt, 0, dv, tr, (ExternalSectorModel.fx_reserves mx),
          ropen, (ExternalSectorModel.overall_bop mx)
      | exists egdp, debt, sopen, dv, tr,
          (ExternalSectorModel.fx_reserves mx), ropen,
          (ExternalSectorModel.overall_bop mx) ]
  end.
  all: cbn [state soe_model external_sector_model debt_model results];
    cbv zeta; unfold column; rewrite ledger_get_set_eq;
    unfold num_at2, num_at; rewrite Keco, Ksoe, Ksoes, Kfx, Kext.
  all: do 8 (split; [lit_unfold; lk; reflexivity|]).
  all: split; [exact Hsoe|].
  all: split;
    [| split; [exact Hreserves|];
       split; [reflexivity|]; split; [reflexivity|];
       split; [exact Hx1|]; split; [exact Hropen|];
       split; [exact Hr0|]; split; [exact Hr1|];
       split; [exact Hnan'|]; split; [exact Hratio'|];
       repeat (split; [assumption|]); exact Hsum ].
  - left. auto.
  - right. split; [exact Hsi|]. split; [exact Hsd|]. split; [exact Hs1|].
    split.
    + intros Hi. destruct (Hs2 Hi) as (gq & Hgq & ->).
      rewrite Hg9 in Hgq. injection Hgq as <-. reflexivity.
    + match type of Hs3 with
      | _ = py_max 0 ?c => destruct (py_max_floor c) as [F0 F1]
      end.
      rewrite <- Hs3 in F0, F1. auto.
Qed.

(** In the drained scenario both models start uninitialised, and the SOE
    debt and the reserves that 2025 leaves are zero. *)
Lemma drained_figures :
  match Simulation.__init__ Scenario.drained with
  | Ok self =>
      negb (SOEModel.initialized (soe_model self)) &&
      negb (ExternalSectorModel.initialized (external_sector_model self)) &&
      match run_single_year self 2025 Scenario.calm with
      | Ok (s, _) =>
          SOEModel.initialized (soe_model s) &&
          match num_at (state s) "soe_debt_stock",
                num_at (state s) "fx_reserves" with
          | Some d, Some r => Qeq_bool d 0 && Qeq_bool r 0
          | _, _ => false
          end
      | Raise _ => false
      end
  | Raise _ => false
  end = true.
Proof. vm_compute. reflexivity. Qed.

Lemma C3_floored_stocks_witness :
  exists self self' g' gdp soe_opening dividends transfers reserves_opening
         overall_bop,
    Simulation.__init__ Scenario.drained = Ok self /\
    run_single_year self 2025 Scenario.calm = Ok (self', g') /\
    num_at2 (state self') "economic_state" "gdp" = Some gdp /\
    num_at2 (state self') "soe_state" "dividends" = Some dividends /\
    num_at2 (state self') "soe_state" "transfers_needed" = Some transfers /\
    num_at2 (state self') "external_sector_state" "overall_bop" =
      Some overall_bop /\
    soe_opening =
      SOEModel.initial_soe_debt_gdp (SOEModel.params (soe_model self)) * gdp /\
    reserves_opening =
      ExternalSectorModel.initial_import_gdp
        (ExternalSectorModel.params (external_sector_model self)) * gdp *
      (ExternalSectorModel.initial_reserves_months_import
         (ExternalSectorModel.params (external_sector_model self)) / 12.0) /\
    soe_opening +
      (- ((SOEModel.performance_index (soe_model self') - 0.5) * soe_opening *
          0.1) + transfers - dividends) <= 0 /\
    num_at (state self') "soe_debt_stock" = Some 0 /\
    reserves_opening + overall_bop <= 0 /\
    num_at (state self') "fx_reserves" = Some 0.
Proof.
  pose proof drained_figures as Hfig.
  destruct (Simulation.__init__ Scenario.drained) as [self|e] eqn:Hinit;
    [|discriminate Hfig].
  apply andb_prop in Hfig as [Hfig Hrun].
  apply andb_prop in Hfig as [Hsoe0 Hext0].
  apply negb_true_iff in Hsoe0, Hext0.
  destruct (run_single_year self 2025 Scenario.calm)
    as [[self' g']|e] eqn:E; [|discriminate Hrun].
  apply andb_prop in Hrun as [Hsoe1 Hfig].
  destruct (C3_floored_stocks _ _ _ _ _ E)
    as (gdp & soe_debt & soe_opening & dividends & transfers & reserves &
        reserves_opening & overall_bop & Hgdp & Hs1 & _ & Hdiv & Htr & Hr1 &
        _ & Hbop & _ & Hsoe & _ & _ & _ & _ & Hro & Hr0 & Hrpos & _).
  cbv zeta in Hgdp, Hs1, Hdiv, Htr, Hr1, Hbop, Hsoe, Hro, Hr0, Hrpos.
  rewrite Hs1, Hr1 in Hfig.
  apply andb_prop in Hfig as [Hd Hr]. apply Qeq_bool_iff in Hd, Hr.
  destruct Hsoe as [[Hoff _] | (_ & _ & _ & Hso & Hs0 & Hspos)];
    [congruence|].
  exists self, self', g', gdp, soe_opening, dividends, transfers,
    reserves_opening, overall_bop.
  split; [reflexivity|]. split; [exact E|].
  split; [exact Hgdp|]. split; [exact Hdiv|]. split; [exact Htr|].
  split; [exact Hbop|].
  split; [exact (Hso Hsoe0)|]. split; [exact (Hro Hext0)|].
  match type of Hs0 with
  | ?c <= 0 -> _ =>
      assert (c <= 0) as Hc
        by (destruct (Qlt_le_dec 0 c) as [Hp|Hn]; [|exact Hn];
            exfalso; rewrite <- (Hspos Hp), Hd in Hp;
            exact (Qlt_irrefl 0 Hp))
  end.
  match type of Hr0 with
  | ?c <= 0 -> _ =>
      assert (c <= 0) as Hc'
        by (destruct (Qlt_le_dec 0 c) as [Hp|Hn]; [|exact Hn];
            exfalso; rewrite <- (Hrpos Hp), Hr in Hp;
            exact (Qlt_irrefl 0 Hp))
  end.
  split; [exact Hc|]. split; [rewrite Hs1, (Hs0 Hc); reflexivity|].
  split; [exact Hc'|]. rewrite Hr1, (Hr0 Hc'). reflexivity.
Defined.

(** ** The primary deficit *)

(** The interest looked up under ['total_interest_paid'] is always the
    default [0]: the debt service dict has the key ['total_interest']. *)
Lemma year_primary_deficit self year g self' g' :
  run_single_year self year g = Ok (self', g') ->
  exists deficit,
    let st := state self' in
    let debt := DebtManagementModel.debt_stock (debt_model self) in
    num_at st "deficit" = Some deficit /\
    num_at st "primary_deficit" = Some (deficit - 0) /\
    num_at2 st "debt_service_calculated" "total_interest" =
      Some (DebtManagementModel.domestic debt *
              DebtManagementModel.avg_interest_rate_domestic (debt_model self) +
            DebtManagementModel.external debt *
              DebtManagementModel.avg_interest_rate_external (debt_model self)) /\
    column (results self') year "Primary_Deficit" =
      Some (Val (VNum (deficit - 0))).
Proof.
  intros H. year_inv H.
  match goal with
  | E : as_num (get (DebtManagementModel._calculate_debt_service _ _ _)
                  "total_interest_paid" _) = Ok _ |- _ =>
      unfold get in E; revert E; lit_unfold; lk; cbn [as_num]; intros [= <-]
  end.
  match goal with
  | R : _store_results _ _ = Ok _ |- _ => store_column R "Primary_Deficit"
  end.
  unfold cget in Hc. revert Hc. lk. intros [= <-].
  eexists.
  cbn [state results]. cbv zeta.
  unfold column. rewrite ledger_get_set_eq. unfold num_at2, num_at.
  repeat split; lk; lit_unfold; lk; try reflexivity; auto.
Qed.

(** C2, at a failing input. With domestic debt 100 and external debt 50
    at the default rates the debt service of the first year has interest
    9.5, and the primary deficit stored in the state is the deficit itself,
    not the deficit minus the interest. *)
Theorem C2_primary_deficit_ignores_interest :
  exists self' g' deficit interest primary,
    after_first_year Scenario.indebted Scenario.calm = Ok (self', g') /\
    num_at (state self') "deficit" = Some deficit /\
    num_at2 (state self') "debt_service_calculated" "total_interest" =
      Some interest /\
    num_at (state self') "primary_deficit" = Some primary /\
    column (results self') 2025 "Primary_Deficit" = Some (Val (VNum primary)) /\
    interest == 9.5 /\
    primary == deficit /\
    ~ primary == deficit - interest.
Proof.
  pose proof indebted_first_year_ok as Hok.
  destruct (after_first_year Scenario.indebted Scenario.calm)
    as [[self' g']|e] eqn:E; [|discriminate Hok].
  unfold after_first_year in E.
  apply bind_Ok in E as (self & Hinit & Hrun).
  destruct (year_primary_deficit _ _ _ _ _ Hrun)
    as (deficit & H1 & H2 & H3 & H4).
  unfold __init__ in Hinit. inv_ok Hinit. injection Hinit as <-.
  cbn [debt_model start_year] in *.
  set (interest := _ + _) in H3.
  assert (interest == 9.5) as Hi by (vm_compute; reflexivity).
  exists self', g', deficit, interest, (deficit - 0).
  repeat split; auto; lra.
Qed.

(** ** The one-year scenario *)





Lemma init_fields config self :
  __init__ config = Ok self ->
  start_year self = cfg_start_year (simulation config) /\
  end_year self = cfg_end_year (simulation config) /\
  debt_model self = DebtManagementModel.__init__ (cfg_debt_model config) /\
  results self = [].
Proof.
  unfold __init__. intros H. inv_ok H. injection H as <-. auto.
Qed.




(** ** Columns that are never fed *)

Lemma init_never_written config self :
  __init__ config = Ok self -> never_written (state self).
Proof.
  unfold __init__, _initialize_state. intros H. inv_ok H. injection H as <-.
  match goal with E : bind _ _ = Ok _ |- _ => inv_ok E; injection E as <- end.
  cbn [state]. unfold never_written, unwritten_keys.
  repeat (apply List.Forall_cons); [..|apply List.Forall_nil]; lit_none.
Qed.

(** The economic update writes ['economic_state'] and ['inflation'] only. *)
Lemma economic_update_frame config s y g s' g' :
  _update_economic_state config s y g = Ok (s', g') ->
  forall k, k <> "economic_state" -> k <> "inflation" -> s' !! k = s !! k.
Proof.
  unfold _update_economic_state. intros H k K1 K2.
  inv_ok H; injection H as <- <-;
  repeat match goal with
  | E : setitem2 _ _ _ _ = Ok _ |- _ =>
      apply setitem2_Ok in E; destruct E as (? & _ & ->)
  end;
  rewrite ?lookup_insert_ne by auto; reflexivity.
Qed.

Lemma year_missing_columns self year g self' g' :
  never_written (state self) ->
  run_single_year self year g = Ok (self', g') ->
  never_written (state self') /\
  exists r, results self' = ledger_set year r (results self) /\
            Forall (fun c => row_get c r = Some NaN) nan_columns.
Proof.
  intros Hnw H. year_inv H.
  unfold never_written, unwritten_keys in Hnw.
  rewrite !Forall_cons in Hnw.
  destruct Hnw as (K1 & K2 & K3 & K4 & K5 & K6 & K7 & _).
  match goal with
  | U : _update_economic_state _ _ _ _ = Ok _ |- _ =>
      pose proof (economic_update_frame _ _ _ _ _ _ U) as Hfr
  end.
  cbn [state results].
  match goal with
  | |- never_written ?st /\ _ => assert (never_written st) as Hnw'
  end.
  { unfold never_written, unwritten_keys.
    repeat (apply List.Forall_cons); [..|apply List.Forall_nil];
      lk; rewrite Hfr by done; assumption. }
  split; [exact Hnw'|].
  unfold never_written, unwritten_keys in Hnw'.
  rewrite !Forall_cons in Hnw'.
  destruct Hnw' as (N1 & N2 & N3 & N4 & N5 & N6 & N7 & _).
  eexists. split; [reflexivity|].
  unfold nan_columns.
  match goal with
  | R : _store_results _ _ = Ok _ |- _ =>
  repeat (apply List.Forall_cons); [..|apply List.Forall_nil];
  match goal with
  | |- row_get ?c _ = _ => store_column R c
  end
  end.
  all: unfold sitem_get, sget2, getitem, get, cget in Hc.
  all: try rewrite N1 in Hc; try rewrite N2 in Hc; try rewrite N3 in Hc;
       try rewrite N4 in Hc; try rewrite N5 in Hc; try rewrite N6 in Hc;
       try rewrite N7 in Hc.
  all: revert Hc; lk; cbn [bind cdget item]; unfold cget, getitem; lit_unfold; lk;
    cbn [bind]; intros [= <-]; assumption.
Qed.

Lemma run_years_invariant (P : t -> Prop) :
  (forall self y g self' g',
      P self -> run_single_year self y g = Ok (self', g') -> P self') ->
  forall ys self g self' g',
    P self -> run_years self ys g = Ok (self', g') -> P self'.
Proof.
  intros step ys. induction ys as [|y ys IH]; intros self g self' g' HP H.
  - injection H as <- <-. exact HP.
  - cbn [run_years] in H. apply bind_Ok in H as ([s1 g1] & Hy & H).
    eapply IH; [|exact H]. eapply step; eauto.
Qed.

Lemma ledger_set_Forall (P : Z * row -> Prop) (l : ledger) (y : Z) (r : row) :
  Forall P l -> P (y, r) -> Forall P (ledger_set y r l).
Proof.
  intros Hl Hr. induction Hl as [|[y' r'] l Hx Hl IH]; cbn.
  - apply List.Forall_cons; [exact Hr | apply List.Forall_nil].
  - destruct (Z.eqb y' y) eqn:E.
    + apply Z.eqb_eq in E. subst y'. apply List.Forall_cons; assumption.
    + apply List.Forall_cons; assumption.
Qed.

(** C4. In every row of the ledger the columns Total_Revenue,
    Central_Revenue, Total_Expenditure, Central_Expenditure,
    Financial_Stability_Index, FX_Reserves_Months, Interest_Payments,
    DSA_Service_Revenue_Ratio, SOE_Performance, Grant_Receipts, DFI_Lending,
    Expenditure_Efficiency and Policy_Coordination_Score hold NaN: the keys
    they are read from are written neither by the initial state nor by any
    step of a year. *)
Theorem C4_missing_columns config g ledger self' g' :
  simulate config g = Ok (ledger, self', g') ->
  never_written (state self') /\
  forall year r, In (year, r) ledger ->
  forall c, In c nan_columns -> row_get c r = Some NaN.
Proof.
  intros H. unfold simulate in H. apply bind_Ok in H as (self & Hinit & H).
  unfold run_simulation in H. apply bind_Ok in H as ([s1 g1] & Hrun & H).
  injection H as <- <- <-.
  pose (P := fun s : t =>
    never_written (state s) /\
    Forall (fun e : Z * row =>
              Forall (fun c => row_get c (snd e) = Some NaN) nan_columns)
           (results s)).
  assert (P s1) as [Hnw Hrows].
  { apply (run_years_invariant P) with (ys := years self) (self := self)
      (g := g) (g' := g1); [| |exact Hrun].
    - intros s y g0 s' g0' [Hn Hr] Hy. unfold P.
      destruct (year_missing_columns _ _ _ _ _ Hn Hy) as (Hn' & r & -> & Hc).
      split; [exact Hn'|]. apply ledger_set_Forall; assumption.
    - split; [eapply init_never_written; eauto|].
      unfold __init__ in Hinit. inv_ok Hinit. injection Hinit as <-.
      apply List.Forall_nil. }
  split; [exact Hnw|].
  intros year r Hin c Hc.
  rewrite List.Forall_forall in Hrows. specialize (Hrows _ Hin).
  rewrite List.Forall_forall in Hrows. exact (Hrows _ Hc).
Qed.

Lemma C4_missing_columns_witness :
  exists ledger self' g',
    simulate Scenario.two_years Scenario.calm = Ok (ledger, self', g') /\
    never_written (state self') /\
    forall year r, In (year, r) ledger ->
    forall c, In c nan_columns -> row_get c r = Some NaN.
Proof.
  pose proof two_years_run_ok as Hok.
  destruct (simulate Scenario.two_years Scenario.calm)
    as [[[ledger self'] g']|e] eqn:E; [|discriminate Hok].
  exists ledger, self', g'. split; [reflexivity|].
  exact (C4_missing_columns _ _ _ _ _ E).
Defined.

(** ** The ledger grows by one row per year *)

Lemma year_ledger self year g self' g' :
  run_single_year self year g = Ok (self', g') ->
  exists r, results self' = ledger_set year r (results self).
Proof.
  intros H. unfold run_single_year in H. inv_ok H. injection H as <- <-.
  eexists. reflexivity.
Qed.

Lemma ledger_set_fresh (l : ledger) (y : Z) (r : row) :
  Forall (fun k => (k < y)%Z) (map fst l) -> ledger_set y r l = l ++ [(y, r)].
Proof.
  induction l as [|[y' r'] l IH]; cbn; intros H.
  - reflexivity.
  - apply Forall_cons in H as [Hlt H].
    destruct (Z.eqb y' y) eqn:E.
    + apply Z.eqb_eq in E. lia.
    + rewrite IH by exact H. reflexivity.
Qed.

Lemma run_years_appends ys : forall self g self' g',
  StronglySorted Z.lt ys ->
  Forall (fun k => Forall (fun y => (k < y)%Z) ys) (map fst (results self)) ->
  run_years self ys g = Ok (self', g') ->
  exists rows, results self' = results self ++ rows /\ map fst rows = ys.
Proof.
  induction ys as [|y ys IH]; intros self g self' g' Hs Hk H.
  - injection H as <- <-. exists []. rewrite app_nil_r. auto.
  - cbn [run_years] in H. apply bind_Ok in H as ([s1 g1] & Hy & H).
    destruct (year_ledger _ _ _ _ _ Hy) as [r Hr].
    apply StronglySorted_inv in Hs as [Hs Hy_lt].
    rewrite ledger_set_fresh in Hr.
    2:{ eapply Forall_impl; [exact Hk|]. cbn. intros k Hf.
        apply Forall_cons in Hf as [? _]. assumption. }
    destruct (IH s1 g1 self' g' Hs) as (rows & Hrows & Hfst); [|exact H|].
    + rewrite Hr, map_app. apply Forall_app. split.
      * eapply Forall_impl; [exact Hk|]. cbn. intros k Hf.
        apply Forall_cons in Hf as [_ ?]. assumption.
      * cbn. apply List.Forall_cons; [exact Hy_lt | apply List.Forall_nil].
    + exists ((y, r) :: rows). rewrite Hrows, Hr, <- app_assoc. cbn.
      split; [reflexivity | congruence].
Qed.

Lemma range_sorted (first : Z) (n a : nat) :
  StronglySorted Z.lt (map (fun i => (first + Z.of_nat i)%Z) (seq a n)).
Proof.
  revert a. induction n as [|n IH]; intros a; cbn.
  - constructor.
  - constructor; [apply IH|].
    apply List.Forall_forall. intros x Hx.
    apply in_map_iff in Hx as (i & <- & Hi). apply in_seq in Hi. lia.
Qed.

Lemma years_sorted self : StronglySorted Z.lt (years self).
Proof. apply range_sorted. Qed.

Lemma years_spec self y :
  In y (years self) <-> (start_year self <= y <= end_year self)%Z.
Proof.
  unfold years. rewrite in_map_iff. split.
  - intros (i & <- & Hi). apply in_seq in Hi. lia.
  - intros H. exists (Z.to_nat (y - start_year self)). split; [lia|].
    apply in_seq. lia.
Qed.

Lemma run_years_app ys1 : forall ys2 self g,
  run_years self (ys1 ++ ys2) g =
  bind (run_years self ys1 g) (fun r => run_years (fst r) ys2 (snd r)).
Proof.
  induction ys1 as [|y ys1 IH]; intros ys2 self g; cbn.
  - reflexivity.
  - destruct (run_single_year self y g) as [[s1 g1]|e]; cbn; auto.
Qed.

Lemma ledger_get_Some (l : ledger) (y : Z) :
  (exists r, ledger_get y l = Some r) <-> In y (map fst l).
Proof.
  induction l as [|[y' r'] l IH]; cbn.
  - split; [intros [r H]; discriminate | tauto].
  - destruct (Z.eqb y' y) eqn:E.
    + apply Z.eqb_eq in E. split; eauto.
    + apply Z.eqb_neq in E. rewrite IH. tauto.
Qed.

Lemma sorted_prefix ys1 ys2 k :
  StronglySorted Z.lt (ys1 ++ ys2) -> In k ys1 -> Forall (fun y => (k < y)%Z) ys2.
Proof.
  induction ys1 as [|y ys1 IH]; cbn; intros Hs Hin; [tauto|].
  apply StronglySorted_inv in Hs as [Hs Hy].
  destruct Hin as [<- | Hin].
  - apply Forall_app in Hy as [_ ?]. assumption.
  - auto.
Qed.

Lemma sorted_app_inv ys1 ys2 :
  StronglySorted Z.lt (ys1 ++ ys2) ->
  StronglySorted Z.lt ys1 /\ StronglySorted Z.lt ys2.
Proof.
  induction ys1 as [|y ys1 IH]; cbn; intros Hs.
  - split; [constructor | exact Hs].
  - apply StronglySorted_inv in Hs as [Hs Hy].
    destruct (IH Hs) as [H1 H2]. split; [|exact H2].
    constructor; [exact H1|]. apply Forall_app in Hy as [? _]. assumption.
Qed.

(** C5. After a full run the ledger has exactly one row for every year
    from start_year to end_year and no other row, in strictly increasing
    order; the rows are appended one per completed year, and the ledger
    after any number of completed years is a prefix of the final ledger:
    no row is changed, removed or moved once written. *)
Theorem C5_ledger_years config g ledger self' g' :
  simulate config g = Ok (ledger, self', g') ->
  let first := cfg_start_year (simulation config) in
  let last := cfg_end_year (simulation config) in
  map fst ledger =
    map (fun i => (first + Z.of_nat i)%Z) (seq 0 (Z.to_nat (last + 1 - first))) /\
  (forall y, (exists r, ledger_get y ledger = Some r) <-> (first <= y <= last)%Z) /\
  StronglySorted Z.lt (map fst ledger) /\
  NoDup (map fst ledger) /\
  (forall self ys1 ys2 mid gmid,
      __init__ config = Ok self ->
      years self = ys1 ++ ys2 ->
      run_years self ys1 g = Ok (mid, gmid) ->
      map fst (results mid) = ys1 /\
      exists rows, ledger = results mid ++ rows /\ map fst rows = ys2).
Proof.
  intros H first last. subst first last.
  unfold simulate in H. apply bind_Ok in H as (self & Hinit & H).
  destruct (init_fields _ _ Hinit) as (Is & Ie & _ & Ir).
  unfold run_simulation in H. apply bind_Ok in H as ([s1 g1] & Hrun & H).
  injection H as <- <- <-.
  destruct (run_years_appends _ _ _ _ _ (years_sorted self)
              ltac:(rewrite Ir; apply List.Forall_nil) Hrun)
    as (rows & Hrows & Hfst).
  rewrite Ir in Hrows. cbn [app] in Hrows.
  assert (map fst (results s1) = years self) as Hkeys by congruence.
  rewrite <- Is, <- Ie. fold (years self). rewrite Hkeys.
  split; [reflexivity|].
  split; [intros y; rewrite ledger_get_Some, Hkeys; apply years_spec|].
  split; [apply years_sorted|].
  split.
  { pose proof (years_sorted self) as Hs. clear - Hs.
    induction Hs as [|y ys Hs IH Hy]; constructor; auto.
    intros Hin%list_elem_of_In. rewrite List.Forall_forall in Hy.
    specialize (Hy _ Hin). lia. }
  intros self0 ys1 ys2 mid gmid Hinit0 Hys Hmid.
  assert (self0 = self) as -> by congruence.
  pose proof (years_sorted self) as Hs. rewrite Hys in Hs.
  rewrite Hys, run_years_app, Hmid in Hrun. cbn [bind fst snd] in Hrun.
  destruct (sorted_app_inv _ _ Hs) as [Hs1 Hs2].
  destruct (run_years_appends _ _ _ _ _ Hs1
              ltac:(rewrite Ir; apply List.Forall_nil) Hmid)
    as (rows1 & Hrows1 & Hfst1).
  rewrite Ir in Hrows1. cbn [app] in Hrows1.
  split; [congruence|].
  apply (run_years_appends ys2 mid gmid s1 g1); [| |exact Hrun].
  - exact Hs2.
  - rewrite Hrows1, Hfst1. apply List.Forall_forall. intros k Hk.
    eapply sorted_prefix; eauto.
Qed.

Lemma C5_ledger_years_witness :
  exists ledger self' g',
    simulate Scenario.two_years Scenario.calm = Ok (ledger, self', g') /\
    map fst ledger = [2025; 2026]%Z.
Proof.
  pose proof two_years_run_ok as Hok.
  destruct (simulate Scenario.two_years Scenario.calm)
    as [[[ledger self'] g']|e] eqn:E; [|discriminate Hok].
  exists ledger, self', g'. split; [reflexivity|].
  exact (proj1 (C5_ledger_years _ _ _ _ _ E)).
Defined.

(** ** Lazy initialisation of the external sector *)

Section ExternalSector.
Import ExternalSectorModel.

Lemma get2_unavailable s :
  gdp_unavailable s ->
  exists q, bind (get2 s "economic_state" "gdp" (VNum 0)) as_num = Ok q /\ q == 0.
Proof.
  unfold gdp_unavailable, get2, get, dget.
  intros [-> | (e & -> & [He | (q & He & Hq)])]; cbn [bind]; unfold get.
  - rewrite lookup_empty. exists 0. split; reflexivity.
  - rewrite He. exists 0. split; reflexivity.
  - rewrite He. exists q. auto.
Qed.

Lemma get2_gdp_is s q d :
  gdp_is s q -> get2 s "economic_state" "gdp" d = Ok (VNum q).
Proof.
  unfold gdp_is, get2, get, dget. intros (e & -> & He). unfold get.
  rewrite He. reflexivity.
Qed.

Lemma external_unavailable m y s g :
  initialized m = false ->
  gdp_unavailable s ->
  simulate_external_sector m y s g = Ok (empty_result, m, g).
Proof.
  intros Hi Hs. unfold simulate_external_sector. rewrite Hi. cbn [negb].
  destruct (get2_unavailable s Hs) as (q & Hq & Hz).
  apply bind_Ok in Hq as (v & -> & Hv). cbn [bind]. rewrite Hv. cbn [bind].
  assert (Qltb 0 q = false) as -> by (apply Qltb_false; lra).
  reflexivity.
Qed.

Lemma external_calls_unavailable before : forall m g,
  initialized m = false ->
  Forall gdp_unavailable (map snd before) ->
  external_calls m before g = Ok (map (fun _ => empty_result) before, m, g).
Proof.
  induction before as [|[y s] before IH]; intros m g Hi Hall; cbn.
  - reflexivity.
  - cbn in Hall. apply Forall_cons in Hall as [Hs Hall].
    rewrite (external_unavailable m y s g Hi Hs). cbn [bind].
    rewrite (IH m g Hi Hall). reflexivity.
Qed.

Lemma external_first_available m y s g q :
  initialized m = false ->
  gdp_is s q -> 0 < q ->
  simulate_external_sector m y s g =
  simulate_active (_initialize_state m q) y s g.
Proof.
  intros Hi Hs Hq. unfold simulate_external_sector. rewrite Hi. cbn [negb].
  rewrite (get2_gdp_is s q _ Hs). cbn [bind as_num].
  assert (Qltb 0 q = true) as -> by (apply Qltb_true; exact Hq).
  reflexivity.
Qed.

Lemma external_active m y s g :
  initialized m = true ->
  simulate_external_sector m y s g = simulate_active m y s g.
Proof.
  intros Hi. unfold simulate_external_sector. rewrite Hi. reflexivity.
Qed.

Lemma project_flows_initialized m y s g m' g' :
  _project_flows m y s g = Ok (m', g') ->
  initialized m' = initialized m.
Proof.
  unfold _project_flows. intros H. inv_ok H. injection H as <- <-. reflexivity.
Qed.

Lemma simulate_active_initialized m y s g v m' g' :
  simulate_active m y s g = Ok (v, m', g') ->
  initialized m' = initialized m /\
  exists months, v = VDict (external_sector_outputs m' months).
Proof.
  unfold simulate_active. intros H. inv_ok H. injection H as <- <- <-.
  match goal with
  | P : _project_flows _ _ _ _ = Ok _,
    U : _update_reserves _ _ = Ok _ |- _ =>
      apply project_flows_initialized in P;
      apply update_reserves_floor in U; destruct U as [_ U]
  end.
  split; [|eauto]. cbn in *. congruence.
Qed.

(** The steps of an active call: the flows are projected and the balance
    of payments computed without exception, and the call ends with
    [_update_reserves], whose months of imports it adds to the indicators. *)
Lemma simulate_active_steps m y s g q growth index :
  gdp_is s q ->
  bind (get2 s "economic_state" "gdp_growth" (VNum 0.05)) as_num = Ok growth ->
  bind (get2 s "governance_state" "governance_index" (VNum 50)) as_num =
    Ok index ->
  exists m1 g1,
    _project_flows m y s g = Ok (m1, g1) /\
    initialized m1 = initialized m /\
    simulate_active m y s g =
      (r <- _update_reserves (_calculate_bop m1 y s) y ;;
       Ok (VDict (external_sector_outputs (snd r) (fst r)), snd r, g1)).
Proof.
  intros Hs Hg Hi.
  apply bind_Ok in Hg as (gv & Hg & Hg'). apply bind_Ok in Hi as (iv & Hi & Hi').
  unfold simulate_active, _project_flows.
  rewrite (get2_gdp_is s q _ Hs), Hg, Hi. cbn [bind]. rewrite Hi'. cbn [bind].
  unfold random_uniform. rewrite Hg'. cbn [bind].
  eexists _, _. split; [reflexivity|]. split; [reflexivity|].
  match goal with
  | |- bind ?u _ = bind ?u _ => destruct u as [[mo mm]|e]; reflexivity
  end.
Qed.

(** C9. While GDP is absent from the state or zero, the external sector
    model returns its empty result [({}, 0)], raises nothing and stays
    uninitialised.  At the first call with a positive GDP it sets its flows
    and reserves from that GDP and carries on with the year on the
    initialised model: the flows are projected, and the call returns the
    indicators with the months of imports that [_update_reserves] computes.
    From then on it is active and is never initialised again. *)
Theorem C9_external_lazy_initialisation m before y s q g :
  initialized m = false ->
  Forall gdp_unavailable (map snd before) ->
  gdp_is s q -> 0 < q ->
  let m0 := _initialize_state m q in
  let p := params m in
  (* the calls made while GDP is absent or zero *)
  external_calls m before g =
    Ok (map (fun _ => empty_result) before, m, g) /\
  (* the first call with a positive GDP *)
  simulate_external_sector m y s g = simulate_active m0 y s g /\
  initialized m0 = true /\
  exports m0 = initial_export_gdp p * q /\
  imports m0 = initial_import_gdp p * q /\
  remittances m0 = initial_remittance_gdp p * q /\
  fdi m0 = initial_fdi_gdp p * q /\
  fx_reserves m0 =
    imports m0 * (initial_reserves_months_import p / 12.0) /\
  (forall growth index,
      bind (get2 s "economic_state" "gdp_growth" (VNum 0.05)) as_num =
        Ok growth ->
      bind (get2 s "governance_state" "governance_index" (VNum 50)) as_num =
        Ok index ->
      exists m1 g1,
        _project_flows m0 y s g = Ok (m1, g1) /\
        initialized m1 = true /\
        simulate_external_sector m y s g =
          (r <- _update_reserves (_calculate_bop m1 y s) y ;;
           Ok (VDict (external_sector_outputs (snd r) (fst r)), snd r, g1))) /\
  (* afterwards the model stays active and is not initialised again *)
  (forall v m' g',
      simulate_external_sector m y s g = Ok (v, m', g') ->
      initialized m' = true /\
      (exists months, v = VDict (external_sector_outputs m' months)) /\
      forall y2 s2 g2,
        simulate_external_sector m' y2 s2 g2 = simulate_active m' y2 s2 g2 /\
        forall v2 m2 g3,
          simulate_external_sector m' y2 s2 g2 = Ok (v2, m2, g3) ->
          initialized m2 = true).
Proof.
  intros Hi Hall Hs Hq m0 p.
  pose proof (external_first_available m y s g q Hi Hs Hq) as Hfirst.
  split; [apply external_calls_unavailable; assumption|].
  split; [exact Hfirst|].
  repeat (split; [reflexivity|]).
  split.
  - intros growth index Hg Hx. rewrite Hfirst.
    destruct (simulate_active_steps m0 y s g q growth index Hs Hg Hx)
      as (m1 & g1 & H1 & H2 & H3).
    exists m1, g1. auto.
  - intros v m' g' H. rewrite Hfirst in H.
    apply simulate_active_initialized in H as [H Hv]. cbn in H.
    split; [exact H|]. split; [exact Hv|]. intros y2 s2 g2.
    split; [apply external_active; exact H|].
    intros v2 m2 g3 H2. rewrite (external_active _ _ _ _ H) in H2.
    apply simulate_active_initialized in H2 as [H2 _]. congruence.
Qed.

(** The first call with GDP 1000 returns, under the default
    configuration. *)
Lemma external_first_call_figures :
  match simulate_external_sector (__init__ Scenario.external_sector) 2025
          Scenario.state_with_gdp Scenario.calm with
  | Ok (VDict o, m', _) =>
      initialized m' &&
      match num_at o "exports", num_at o "imports",
            num_at o "fx_reserves", num_at o "reserves_months_imports" with
      | Some e, Some i, Some r, Some mo =>
          Qeq_bool e 157.125 && Qeq_bool i 233.2 &&
          Qeq_bool (r * 12) (mo * i)
      | _, _, _, _ => false
      end
  | _ => false
  end = true.
Proof. vm_compute. reflexivity. Qed.

Lemma C9_external_lazy_initialisation_witness :
  let m := __init__ Scenario.external_sector in
  external_calls m
    [(2023%Z, Scenario.state_without_gdp); (2024%Z, Scenario.state_with_zero_gdp)]
    Scenario.calm =
    Ok ([empty_result; empty_result],
        m, Scenario.calm) /\
  simulate_external_sector m 2025 Scenario.state_with_gdp Scenario.calm =
    simulate_active (_initialize_state m 1000) 2025 Scenario.state_with_gdp
      Scenario.calm /\
  imports (_initialize_state m 1000) = 0.22 * 1000 /\
  exists v m' g',
    simulate_external_sector m 2025 Scenario.state_with_gdp Scenario.calm =
      Ok (v, m', g') /\
    initialized m' = true /\
    exists months, v = VDict (external_sector_outputs m' months).
Proof.
  intros m.
  assert (Forall gdp_unavailable
            (map snd [(2023%Z, Scenario.state_without_gdp);
                      (2024%Z, Scenario.state_with_zero_gdp)])) as Hall.
  { apply List.Forall_cons; [left; reflexivity|].
    apply List.Forall_cons; [|apply List.Forall_nil].
    right. eexists. split; [reflexivity|]. right. exists 0.
    split; reflexivity. }
  assert (gdp_is Scenario.state_with_gdp 1000) as Hgdp
    by (eexists; split; reflexivity).
  assert (0 < 1000) as Hpos by reflexivity.
  destruct (C9_external_lazy_initialisation m _ 2025%Z _ _ Scenario.calm
              eq_refl Hall Hgdp Hpos)
    as (H1 & H2 & _ & _ & H5 & _ & _ & _ & _ & H10).
  split; [exact H1|]. split; [exact H2|]. split; [exact H5|].
  pose proof external_first_call_figures as Hfig. fold m in Hfig.
  destruct (simulate_external_sector m 2025 Scenario.state_with_gdp
              Scenario.calm) as [[[v m'] g']|e] eqn:E; [|discriminate Hfig].
  exists v, m', g'. split; [reflexivity|].
  destruct (H10 v m' g' eq_refl) as (K1 & K2 & _). auto.
Defined.

End ExternalSector.

(** ** No division by zero *)

(** Outside the external sector, every division by a variable is guarded
    on the divisor itself: by [x > 0], by [x <= 0] with a substitute
    denominator, or by the truth value of [x]. *)

Lemma safe_Ok {A} (a : A) : safe (Ok a).
Proof. discriminate. Qed.

Lemma safe_bind {A B} (m : result A) (k : A -> result B) :
  safe m -> (forall a, m = Ok a -> safe (k a)) -> safe (bind m k).
Proof.
  unfold safe. destruct m as [a|e]; cbn; [auto | congruence].
Qed.

Lemma safe_getitem d k : safe (getitem d k).
Proof. unfold safe, getitem. destruct (d !! k); discriminate. Qed.

Lemma safe_item v k : safe (item v k).
Proof. destruct v; try discriminate. apply safe_getitem. Qed.

Lemma safe_dget v k d : safe (dget v k d).
Proof. destruct v; discriminate. Qed.

Lemma safe_cdget v k : safe (cdget v k).
Proof. destruct v; discriminate. Qed.

Lemma safe_get2 s k1 k2 d : safe (get2 s k1 k2 d).
Proof. apply safe_dget. Qed.

Lemma safe_as_num v : safe (as_num v).
Proof. destruct v as [| [] | |]; discriminate. Qed.

Lemma safe_update d v : safe (update d v).
Proof.
  destruct v as [| | |[|[] ?]]; try discriminate.
  cbn. destruct (is_empty _); discriminate.
Qed.

Lemma safe_setitem2 d k1 k2 v : safe (setitem2 d k1 k2 v).
Proof.
  unfold setitem2. apply safe_bind; [apply safe_getitem|].
  intros [] _; discriminate.
Qed.

Lemma safe_contains v k : safe (contains v k).
Proof. destruct v; discriminate. Qed.

Lemma safe_required o : safe (required o).
Proof. destruct o; discriminate. Qed.

Lemma safe_pydiv a b : ~ b == 0 -> safe (pydiv a b).
Proof.
  intros H. unfold pydiv. apply Qeq_bool_false in H. rewrite H. discriminate.
Qed.

Lemma safe_sum_values v : safe (sum_values v).
Proof.
  destruct v as [| |d|]; try discriminate. cbn.
  apply (map_fold_weak_ind (fun (r : result Q) (_ : dict) => safe r)).
  - apply safe_Ok.
  - intros i x m r _ Hr. apply safe_bind; [exact Hr|]. intros a _.
    apply safe_bind; [apply safe_as_num|]. intros; apply safe_Ok.
Qed.

Create HintDb safe.
#[local] Hint Resolve safe_Ok safe_getitem safe_item safe_dget safe_cdget
  safe_get2 safe_as_num safe_update safe_setitem2 safe_contains safe_required
  safe_sum_values : safe.

Ltac safe_step :=
  match goal with
  | |- safe (bind _ _) => apply safe_bind; [|intros ? ?]
  | |- safe (match ?p with pair _ _ => _ end) => destruct p
  | |- safe (if ?b then _ else _) => let G := fresh "G" in destruct b eqn:G
  | |- safe _ => solve [auto with safe]
  end.

Ltac safe_walk := repeat safe_step.

Lemma Qdiv_nonzero (a b : Q) : ~ a == 0 -> ~ b == 0 -> ~ a / b == 0.
Proof.
  intros Ha Hb Hz. apply Ha.
  rewrite <- (Qmult_div_r a b) by exact Hb. rewrite Hz. ring.
Qed.

(** Guards *)
Ltac nonzero :=
  repeat match goal with
  | G : Qltb _ _ = true |- _ => apply Qltb_true in G
  | G : Qltb _ _ = false |- _ => apply Qltb_false in G
  | G : Qle_bool _ _ = true |- _ => apply Qle_bool_iff in G
  | G : Qle_bool _ _ = false |- _ =>
      apply not_true_iff_false in G; rewrite Qle_bool_iff in G
  end;
  first [ lra | apply Qdiv_nonzero; lra ].

Ltac safe_div :=
  match goal with
  | |- safe (pydiv _ _) => apply safe_pydiv; nonzero
  end.

Lemma safe_supervision m y s :
  safe (SupervisionModel.simulate_supervision_effectiveness m y s).
Proof.
  unfold SupervisionModel.simulate_supervision_effectiveness,
    SupervisionModel._update_effectiveness. safe_walk.
Qed.

Lemma safe_financial m y s :
  safe (FinancialSectorModel.simulate_financial_system m y s).
Proof.
  unfold FinancialSectorModel.simulate_financial_system,
    FinancialSectorModel._update_npls. safe_walk.
Qed.

Lemma safe_monetary m y s :
  safe (MonetaryPolicyModel.simulate_monetary_conditions m y s).
Proof.
  unfold MonetaryPolicyModel.simulate_monetary_conditions,
    MonetaryPolicyModel._adjust_policy_rate,
    MonetaryPolicyModel._simulate_inflation_impact. safe_walk.
Qed.

Lemma safe_development m y s g :
  safe (DevelopmentFinanceModel.simulate_development_finance m y s g).
Proof.
  unfold DevelopmentFinanceModel.simulate_development_finance,
    DevelopmentFinanceModel.simulate_active,
    DevelopmentFinanceModel._simulate_flows.
  safe_walk.
Qed.

Lemma safe_revenue m y e gv : safe (RevenueModel.project_revenue m y e gv).
Proof.
  unfold RevenueModel.project_revenue, RevenueModel._calculate_tax_potential,
    RevenueModel._update_internal_state.
  safe_walk.
Qed.

Lemma safe_federalism_active m y s :
  safe (FiscalFederalismModel.simulate_active m y s).
Proof.
  unfold FiscalFederalismModel.simulate_active,
    FiscalFederalismModel._calculate_central_transfers,
    FiscalFederalismModel._simulate_subnational_revenue,
    FiscalFederalismModel._update_subnational_debt.
  safe_walk.
Qed.

Lemma safe_federalism m y s :
  safe (FiscalFederalismModel.simulate_fiscal_federalism m y s).
Proof.
  unfold FiscalFederalismModel.simulate_fiscal_federalism.
  safe_walk; apply safe_federalism_active.
Qed.

Lemma safe_expenditure m y b c a p :
  safe (ExpenditureModel.simulate_expenditure m y b c a p).
Proof. unfold ExpenditureModel.simulate_expenditure. safe_walk. Qed.

(** The guard of the SOE debt ratio reads GDP with default 0, the division
    reads it with default 1: under the guard both read the same number. *)
Lemma get2_defaults s k1 k2 d1 d2 v1 v2 q :
  get2 s k1 k2 (VNum d1) = Ok v1 ->
  get2 s k1 k2 (VNum d2) = Ok v2 ->
  as_num v1 = Ok q -> ~ q == d1 -> v2 = v1.
Proof.
  unfold get2, dget, get. destruct (s !! k1) as [[]|]; try discriminate.
  - destruct (_ !! k2).
    + congruence.
    + intros [= <-] _ [= <-] H. exfalso. apply H. reflexivity.
  - rewrite lookup_empty. intros [= <-] _ [= <-] H. exfalso. apply H. reflexivity.
Qed.

Lemma safe_soe_performance m y s :
  safe (SOEModel._update_financial_performance m y s).
Proof.
  unfold SOEModel._update_financial_performance. safe_walk.
  match goal with
  | A : get2 _ _ _ (VNum 0) = Ok ?v1, B : get2 _ _ _ (VNum 1) = Ok ?v2,
    N : as_num ?v1 = Ok ?q, G : Qltb 0 ?q = true |- _ =>
      apply Qltb_true in G;
      assert (v2 = v1) as -> by (eapply get2_defaults; eauto; lra)
  end.
  apply safe_pydiv.
  match goal with
  | A : as_num ?v = Ok ?a, B : as_num ?v = Ok ?b |- _ =>
      rewrite A in B; injection B as <-
  end. lra.
Qed.

Lemma safe_soe m y s : safe (SOEModel.simulate_soe_sector m y s).
Proof.
  assert (forall m, safe (SOEModel.simulate_active m y s)) as Ha.
  { intros m0. unfold SOEModel.simulate_active.
    apply safe_bind; [apply safe_soe_performance|]. intros a _.
    destruct (SOEModel._calculate_fiscal_impact a y s). apply safe_Ok. }
  unfold SOEModel.simulate_soe_sector. safe_walk; apply Ha.
Qed.

Lemma safe_debt m y s d :
  safe (DebtManagementModel.simulate_debt_dynamics m y s d).
Proof.
  unfold DebtManagementModel.simulate_debt_dynamics,
    DebtManagementModel._update_debt_stock, DebtManagementModel._perform_dsa.
  safe_walk; try safe_div;
    apply safe_pydiv;
    match goal with
    | |- context [if Qle_bool ?x 0 then _ else _] =>
        let G := fresh "G" in destruct (Qle_bool x 0) eqn:G
    end; nonzero.
Qed.

Lemma safe_coordination m y s :
  safe (PolicyCoordinationModel.simulate_coordination m y s).
Proof.
  unfold PolicyCoordinationModel.simulate_coordination,
    PolicyCoordinationModel._assess_policy_conflict,
    PolicyCoordinationModel._assess_institutional_framework.
  safe_walk; try safe_div.
Qed.

Lemma safe_economic_update config s y g :
  safe (_update_economic_state config s y g).
Proof.
  unfold _update_economic_state, np_random_normal. safe_walk; try safe_div.
Qed.

Lemma safe_economic_gdp s : safe (economic_gdp s).
Proof. unfold economic_gdp. safe_walk. Qed.

Lemma safe_share_of_gdp s x : safe (share_of_gdp s x).
Proof.
  unfold share_of_gdp. 
  apply safe_bind; [apply safe_economic_gdp|]. intros v1 E1.
  apply safe_bind; [apply safe_as_num|]. intros q1 N1.
  destruct (Qltb 0 q1) eqn:G; [|apply safe_Ok].
  rewrite E1. cbn [bind]. rewrite N1. cbn [bind]. safe_div.
Qed.

Lemma safe_cell_div c g : truthy g = true -> safe (cell_div c g).
Proof.
  intros Ht.
  assert (forall b, as_num g = Ok b -> ~ b == 0) as Hb.
  { destruct g as [q|[]| |]; cbn in *; try discriminate.
    - intros b [= <-]. apply Qeq_bool_false. apply negb_true_iff. exact Ht.
    - intros b [= <-]. discriminate. }
  destruct c; cbn; safe_walk; apply safe_pydiv; auto.
Qed.

Lemma safe_over_gdp s num : safe num -> safe (over_gdp s num).
Proof.
  intros Hn. unfold over_gdp.
  apply safe_bind; [apply safe_economic_gdp|]. intros v1 E1.
  destruct (truthy v1) eqn:G; [|apply safe_Ok].
  apply safe_bind; [exact Hn|]. intros c _.
  rewrite E1. cbn [bind]. apply safe_cell_div. exact G.
Qed.

Lemma safe_collect l : Forall (fun e => safe (snd e)) l -> safe (collect l).
Proof.
  induction 1 as [|[k m] l Hm Hl IH]; cbn; [apply safe_Ok|].
  apply safe_bind; [exact Hm|]. intros c _.
  apply safe_bind; [exact IH|]. intros; apply safe_Ok.
Qed.

Lemma safe_store_results s y : safe (_store_results s y).
Proof.
  unfold _store_results. apply safe_collect.
  repeat (apply List.Forall_cons); [..|apply List.Forall_nil]; cbn [snd];
    try apply safe_over_gdp;
    unfold sitem2, sitem_get, sitem, sget2; safe_walk.
Qed.

#[local] Hint Resolve safe_supervision safe_financial safe_monetary
  safe_development safe_revenue safe_federalism
  safe_expenditure safe_soe safe_debt safe_coordination safe_economic_update
  safe_share_of_gdp safe_store_results : safe.

(** ** A year without GDP *)

Lemma economic_update_zero_gdp config s y g s' g' q :
  gdp_is s q -> q == 0 ->
  _update_economic_state config s y g = Ok (s', g') ->
  exists q', gdp_is s' q' /\ q' == 0.
Proof.
  intros (e & He & Hg) Hq H. unfold _update_economic_state in H.
  unfold getitem at 1 in H. rewrite He in H. cbn [bind dget item] in H.
  inv_ok H; injection H as <- <-;
  repeat match goal with
  | E : setitem2 _ _ _ _ = Ok _ |- _ =>
      let i := fresh "i" in
      let L := fresh "L" in
      apply setitem2_Ok in E; destruct E as (i & L & ->)
  | E : getitem e "gdp" = Ok _ |- _ =>
      apply getitem_Ok in E; rewrite Hg in E; injection E as <-
  | E : as_num (VNum _) = Ok _ |- _ => cbn [as_num] in E; injection E as <-
  end.
  all: repeat match goal with
  | L : (<[_ := _]> _) !! _ = Some _ |- _ =>
      first [ rewrite lookup_insert_eq in L; injection L as <-
            | rewrite lookup_insert_ne in L by done ]
  end.
  all: match goal with
  | L : ?x !! "economic_state" = Some (VDict ?i),
    L' : ?x !! "economic_state" = Some (VDict ?j) |- _ =>
      is_var i; rewrite L' in L; injection L as <-
  end.
  all: eexists; split;
    [ eexists; split;
      [ rewrite lookup_insert_eq; reflexivity
      | rewrite ?lookup_insert_ne by done; rewrite lookup_insert_eq;
        reflexivity ]
    | rewrite Hq; ring ].
Qed.

Lemma debt_to_gdp_without_gdp m y s d ds dsa dsc m' q :
  gdp_is s q -> q == 0 ->
  DebtManagementModel.simulate_debt_dynamics m y s d = Ok (ds, dsa, dsc, m') ->
  dsa !! "debt_to_gdp" =
  Some (VNum (DebtManagementModel.total (DebtManagementModel.debt_stock m') / 1)).
Proof.
  intros Hs Hq H.
  unfold DebtManagementModel.simulate_debt_dynamics in H.
  inv_ok H. injection H as _ <- _ <-.
  match goal with
  | E : DebtManagementModel._perform_dsa _ _ _ = Ok _ |- _ =>
      unfold DebtManagementModel._perform_dsa in E;
      rewrite (get2_gdp_is _ q) in E
        by (destruct Hs as (e & He & Hg); exists e;
            rewrite !lookup_insert_ne by done; auto);
      cbn [bind as_num] in E;
      assert (Qle_bool q 0 = true) as Hle by (apply Qle_bool_iff; lra);
      rewrite Hle in E; inv_ok E; injection E as <-
  end.
  match goal with
  | E : pydiv _ 1 = Ok _ |- _ => cbn in E; injection E as <-
  end.
  lit_unfold. lk. reflexivity.
Qed.

Lemma over_gdp_without_gdp s num q c :
  gdp_is s q -> q == 0 -> over_gdp s num = Ok c -> c = NaN.
Proof.
  intros (e & He & Hg) Hq. unfold over_gdp, economic_gdp, getitem.
  rewrite He. cbn [bind item]. unfold getitem. rewrite Hg. cbn [bind truthy].
  assert (Qeq_bool q 0 = true) as -> by (apply Qeq_bool_iff; exact Hq).
  cbn. congruence.
Qed.

(** [state.update] of the tuple that a sector returns while it waits for
    GDP. *)
Lemma update_empty_result d :
  update d ExternalSectorModel.empty_result = Raise ValueError.
Proof. reflexivity. Qed.

(** The first year of the configuration without GDP. *)
Lemma no_gdp_first_year :
  match Simulation.__init__ Scenario.no_gdp with
  | Ok self =>
      match num_at2 (state self) "economic_state" "gdp" with
      | Some q => Qeq_bool q 0
      | None => false
      end &&
      negb (ExternalSectorModel.initialized (external_sector_model self)) &&
      match run_single_year self 2025 Scenario.calm with
      | Raise ValueError => true
      | _ => false
      end &&
      match simulate Scenario.no_gdp Scenario.calm with
      | Raise ValueError => true
      | _ => false
      end
  | Raise _ => false
  end = true.
Proof. vm_compute. reflexivity. Qed.

Lemma num_at2_Some d k1 k2 q :
  num_at2 d k1 k2 = Some q ->
  exists e, d !! k1 = Some (VDict e) /\ e !! k2 = Some (VNum q).
Proof.
  unfold num_at2, num_at. destruct (d !! k1) as [[| |e|]|]; try discriminate.
  destruct (e !! k2) as [[x| | |]|] eqn:E; try discriminate.
  intros [= <-]. eauto.
Qed.

(** C7. With a zero initial GDP the first year does not complete: no
    division error is raised, but the external sector model, which cannot
    initialise, returns the tuple [({}, 0)], and [state.update] of that
    tuple raises [ValueError].  The run ends there, without a row for the
    year. *)
Theorem C7_zero_gdp_first_year_raises :
  exists self q,
    Simulation.__init__ Scenario.no_gdp = Ok self /\
    gdp_is (state self) q /\ q == 0 /\
    ExternalSectorModel.initialized (external_sector_model self) = false /\
    (forall s,
        gdp_unavailable s ->
        ExternalSectorModel.simulate_external_sector
          (external_sector_model self) 2025 s Scenario.calm =
        Ok (ExternalSectorModel.empty_result, external_sector_model self,
            Scenario.calm)) /\
    (forall d, update d ExternalSectorModel.empty_result = Raise ValueError) /\
    run_single_year self 2025 Scenario.calm = Raise ValueError /\
    simulate Scenario.no_gdp Scenario.calm = Raise ValueError.
Proof.
  pose proof no_gdp_first_year as H.
  destruct (Simulation.__init__ Scenario.no_gdp) as [self|e] eqn:Hinit;
    [|discriminate H].
  apply andb_prop in H as [H Hsim]. apply andb_prop in H as [H Hrun].
  apply andb_prop in H as [Hgdp Hext]. apply negb_true_iff in Hext.
  destruct (num_at2 (state self) "economic_state" "gdp") as [q|] eqn:Hq;
    [|discriminate Hgdp].
  apply Qeq_bool_iff in Hgdp.
  exists self, q. split; [reflexivity|].
  split; [apply num_at2_Some; exact Hq|]. split; [exact Hgdp|].
  split; [exact Hext|].
  split; [intros s Hs; apply external_unavailable; assumption|].
  split; [exact update_empty_result|].
  split.
  - destruct (run_single_year self 2025 Scenario.calm) as [?|[]];
      try discriminate Hrun. reflexivity.
  - destruct (simulate Scenario.no_gdp Scenario.calm) as [?|[]];
      try discriminate Hsim. reflexivity.
Qed.

(** XA. In a year that starts from a zero GDP and completes, the columns
    Revenue_GDP, Expenditure_GDP, Overall_Deficit_GDP, Primary_Deficit_GDP,
    Debt_Stock_GDP and SOE_Debt_GDP of the row are NaN, while the DSA
    debt-to-GDP ratio is a number: the debt stock divided by the substitute
    denominator 1. *)
Theorem XA_zero_gdp_year_row self year g q self' g' :
  gdp_is (state self) q -> q == 0 ->
  run_single_year self year g = Ok (self', g') ->
  Forall (fun c => column (results self') year c = Some NaN)
    gdp_ratio_columns /\
  column (results self') year "DSA_Debt_GDP_Ratio" =
    Some (Val (VNum (DebtManagementModel.total
                       (DebtManagementModel.debt_stock (debt_model self')) /
                     1))) /\
  column (results self') year "Debt_Stock_Total" =
    Some (Val (VNum (DebtManagementModel.total
                       (DebtManagementModel.debt_stock (debt_model self'))))) /\
  exists gdp, column (results self') year "GDP" = Some (Val (VNum gdp)) /\
              gdp == 0.
Proof.
  intros Hs Hq H. year_inv H.
  match goal with |- ?G => set (Claim := G) end.
  match goal with
  | U : _update_economic_state _ _ _ _ = Ok _ |- _ =>
      destruct (economic_update_zero_gdp _ _ _ _ _ _ _ Hs Hq U)
        as (q' & (e & He & Hg) & Hq')
  end.
  match goal with
  | R : _store_results ?st _ = Ok _ |- _ =>
      assert (gdp_is st q') as Hfinal
        by (exists e; split; [lk; exact He | exact Hg]);
      store_column R "DSA_Debt_GDP_Ratio"; store_column R "Debt_Stock_Total";
      store_column R "GDP";
      store_column R "Revenue_GDP"; store_column R "Expenditure_GDP";
      store_column R "Overall_Deficit_GDP";
      store_column R "Primary_Deficit_GDP"; store_column R "Debt_Stock_GDP";
      store_column R "SOE_Debt_GDP"
  end.
  repeat match goal with
  | X : over_gdp _ _ = Ok _ |- _ =>
      apply (over_gdp_without_gdp _ _ _ _ Hfinal Hq') in X; subst
  end.
  match goal with
  | D : DebtManagementModel.simulate_debt_dynamics _ _ ?st _ = Ok _ |- _ =>
      assert (gdp_is st q') as Hdebt
        by (exists e; split; [lk; exact He | exact Hg]);
      pose proof (debt_to_gdp_without_gdp _ _ _ _ _ _ _ _ _ Hdebt Hq' D) as Hdsa;
      revert Hdsa; lit_unfold; lk; intros [= ->]
  end.
  cell_eval Hc. intros [= <-]. cell_eval Hc0. intros [= <-].
  unfold sitem2, getitem in Hc1. revert Hc1. lk. rewrite He. cbn [bind item].
  unfold getitem. rewrite Hg. cbn [bind]. intros [= <-].
  subst Claim.
  cbn [results debt_model]. unfold column. rewrite ledger_get_set_eq.
  split.
  { unfold gdp_ratio_columns.
    repeat (apply List.Forall_cons); [..|apply List.Forall_nil]; assumption. }
  split; [assumption|]. split; [assumption|].
  exists q'. auto.
Qed.

Lemma force_gdp_is self x self' :
  force_gdp self x = Ok self' -> gdp_is (state self') x.
Proof.
  unfold force_gdp. intros H. inv_ok H. injection H as <-.
  match goal with
  | E : setitem2 _ _ _ _ = Ok _ |- _ =>
      apply setitem2_Ok in E; destruct E as (i & _ & ->)
  end.
  cbn [state]. eexists. split; apply lookup_insert_eq.
Qed.

Lemma XA_zero_gdp_year_row_witness :
  exists self g self' g' ratio,
    Scenario.zero_gdp_start = Ok (self, g) /\
    run_single_year self 2026 g = Ok (self', g') /\
    Forall (fun c => column (results self') 2026 c = Some NaN)
      gdp_ratio_columns /\
    column (results self') 2026 "DSA_Debt_GDP_Ratio" =
      Some (Val (VNum ratio)).
Proof.
  pose proof zero_gdp_year_ok as Hok. unfold Scenario.zero_gdp_year in Hok.
  destruct Scenario.zero_gdp_start as [[self g]|e] eqn:E0;
    [|discriminate Hok].
  cbn [bind] in Hok.
  destruct (run_single_year self 2026 g) as [[self' g']|e] eqn:E1;
    [|discriminate Hok].
  assert (gdp_is (state self) 0) as Hgdp.
  { unfold Scenario.zero_gdp_start in E0.
    apply bind_Ok in E0 as ([s0 g0] & _ & E0).
    apply bind_Ok in E0 as (s1 & Hf & E0). injection E0 as <- <-.
    exact (force_gdp_is _ _ _ Hf). }
  assert (0 == 0) as Hz by reflexivity.
  destruct (XA_zero_gdp_year_row self 2026%Z g 0 self' g' Hgdp Hz E1)
    as (Hnan & Hdsa & _).
  exists self, g, self', g'. eexists.
  split; [reflexivity|]. split; [exact E1|]. split; [exact Hnan|].
  exact Hdsa.
Defined.

(** ** Determinism given the random draws *)

Lemma rng_agree_weaken n m n' m' g1 g2 :
  rng_agree n m g1 g2 -> (n' <= n)%nat -> (m' <= m)%nat ->
  rng_agree n' m' g1 g2.
Proof.
  intros (H1 & H2 & H3 & H4) Hn Hm. repeat split; auto.
  - intros i Hi. apply H3. lia.
  - intros i Hi. apply H4. lia.
Qed.

Lemma normal_agree n m g1 g2 :
  rng_agree (S n) m g1 g2 ->
  fst (np_random_normal g1) = fst (np_random_normal g2) /\
  rng_agree n m (snd (np_random_normal g1)) (snd (np_random_normal g2)).
Proof.
  intros (H1 & H2 & H3 & H4). unfold np_random_normal; cbn. split.
  - specialize (H3 0%nat ltac:(lia)). rewrite !Nat.add_0_r in H3. exact H3.
  - repeat split; cbn; auto.
    intros i Hi. specialize (H3 (S i) ltac:(lia)).
    rewrite !Nat.add_succ_r in H3. exact H3.
Qed.

Lemma uniform_agree a b n m g1 g2 :
  rng_agree n (S m) g1 g2 ->
  fst (random_uniform a b g1) = fst (random_uniform a b g2) /\
  rng_agree n m (snd (random_uniform a b g1)) (snd (random_uniform a b g2)).
Proof.
  intros (H1 & H2 & H3 & H4). unfold random_uniform; cbn. split.
  - specialize (H4 0%nat ltac:(lia)). rewrite !Nat.add_0_r in H4.
    rewrite H4. reflexivity.
  - repeat split; cbn; auto.
    intros i Hi. specialize (H4 (S i) ltac:(lia)).
    rewrite !Nat.add_succ_r in H4. exact H4.
Qed.

Lemma agree_bind {A B} n m n' m' (r1 r2 : result (A * rng))
    (k1 k2 : A * rng -> result (B * rng)) :
  agree_after n m r1 r2 ->
  (forall a g1 g2, rng_agree n m g1 g2 ->
     agree_after n' m' (k1 (a, g1)) (k2 (a, g2))) ->
  agree_after n' m' (bind r1 k1) (bind r2 k2).
Proof.
  destruct r1 as [[a1 g1]|e1], r2 as [[a2 g2]|e2]; cbn; try tauto.
  intros [<- Hg] Hk. apply Hk. exact Hg.
Qed.

Lemma agree_Ok {A} n m (a : A) g1 g2 :
  rng_agree n m g1 g2 -> agree_after n m (Ok (a, g1)) (Ok (a, g2)).
Proof. cbn. auto. Qed.

Lemma agree_Raise {A} n m e : @agree_after A n m (Raise e) (Raise e).
Proof. reflexivity. Qed.

(** Walking through two runs of the same code that differ only in the
    generator they carry. *)
Ltac agree_walk :=
  repeat match goal with
  | |- agree_after _ _ (bind ?m _) (bind ?m _) =>
      destruct m; cbn [bind]; [|apply agree_Raise]
  | |- agree_after _ _ (match ?p with pair _ _ => _ end)
         (match ?p with pair _ _ => _ end) => destruct p
  | |- agree_after _ _ (if ?b then _ else _) (if ?b then _ else _) =>
      destruct b
  | |- agree_after _ _ (Ok _) (Ok _) => apply agree_Ok; assumption
  | |- agree_after _ _ (Raise _) (Raise _) => apply agree_Raise
  end.

Lemma economic_update_agree config s y n m g1 g2 :
  rng_agree (S n) m g1 g2 ->
  agree_after n m (_update_economic_state config s y g1)
    (_update_economic_state config s y g2).
Proof.
  intros Hg. unfold _update_economic_state.
  destruct (normal_agree _ _ _ _ Hg) as [Hx Hg'].
  destruct (np_random_normal g1) as [x1 g1'], (np_random_normal g2) as [x2 g2'].
  cbn in Hx, Hg'. subst x2. agree_walk.
Qed.

Lemma project_flows_agree mm y s n m g1 g2 :
  rng_agree n (S m) g1 g2 ->
  agree_after n m (ExternalSectorModel._project_flows mm y s g1)
    (ExternalSectorModel._project_flows mm y s g2).
Proof.
  intros Hg. unfold ExternalSectorModel._project_flows.
  destruct (uniform_agree 0.98 1.05 _ _ _ _ Hg) as [Hx Hg'].
  destruct (random_uniform 0.98 1.05 g1) as [x1 g1'],
           (random_uniform 0.98 1.05 g2) as [x2 g2'].
  cbn in Hx, Hg'. subst x2. agree_walk.
Qed.

Lemma external_active_agree mm y s n m g1 g2 :
  rng_agree n (S m) g1 g2 ->
  agree_after n m (ExternalSectorModel.simulate_active mm y s g1)
    (ExternalSectorModel.simulate_active mm y s g2).
Proof.
  intros Hg. unfold ExternalSectorModel.simulate_active.
  eapply agree_bind; [apply project_flows_agree; exact Hg|].
  intros a h1 h2 Hh. agree_walk.
Qed.

Lemma external_agree mm y s n m g1 g2 :
  rng_agree n (S m) g1 g2 ->
  agree_after n m (ExternalSectorModel.simulate_external_sector mm y s g1)
    (ExternalSectorModel.simulate_external_sector mm y s g2).
Proof.
  intros Hg. unfold ExternalSectorModel.simulate_external_sector.
  pose proof (rng_agree_weaken n (S m) n m g1 g2 Hg ltac:(lia) ltac:(lia)).
  agree_walk; apply external_active_agree; exact Hg.
Qed.

Lemma simulate_flows_agree mm y s n m g1 g2 :
  rng_agree n (S m) g1 g2 ->
  agree_after n m (DevelopmentFinanceModel._simulate_flows mm y s g1)
    (DevelopmentFinanceModel._simulate_flows mm y s g2).
Proof.
  intros Hg. unfold DevelopmentFinanceModel._simulate_flows.
  destruct (uniform_agree 0.90 1.10 _ _ _ _ Hg) as [Hx Hg'].
  destruct (random_uniform 0.90 1.10 g1) as [x1 g1'],
           (random_uniform 0.90 1.10 g2) as [x2 g2'].
  cbn in Hx, Hg'. subst x2. agree_walk.
Qed.

Lemma development_agree mm y s n m g1 g2 :
  rng_agree n (S m) g1 g2 ->
  agree_after n m
    (DevelopmentFinanceModel.simulate_development_finance mm y s g1)
    (DevelopmentFinanceModel.simulate_development_finance mm y s g2).
Proof.
  intros Hg.
  assert (forall mm, agree_after n m
            (DevelopmentFinanceModel.simulate_active mm y s g1)
            (DevelopmentFinanceModel.simulate_active mm y s g2)) as Ha.
  { intros m0. unfold DevelopmentFinanceModel.simulate_active.
    eapply agree_bind; [apply simulate_flows_agree; exact Hg|].
    intros a h1 h2 Hh. agree_walk. }
  unfold DevelopmentFinanceModel.simulate_development_finance.
  pose proof (rng_agree_weaken n (S m) n m g1 g2 Hg ltac:(lia) ltac:(lia)).
  agree_walk; apply Ha.
Qed.

Lemma year_agree self y n m g1 g2 :
  rng_agree (S n) (S (S m)) g1 g2 ->
  agree_after n m (run_single_year self y g1) (run_single_year self y g2).
Proof.
  intros Hg. unfold run_single_year.
  eapply agree_bind; [apply economic_update_agree; exact Hg|].
  intros s0 h1 h2 Hh. cbv beta iota.
  agree_walk.
  eapply agree_bind; [apply external_agree; exact Hh|].
  intros [v mm] k1 k2 Hk. cbv beta iota.
  agree_walk.
  eapply agree_bind; [apply development_agree; exact Hk|].
  intros [v' mm'] j1 j2 Hj. cbv beta iota.
  agree_walk.
Qed.

Lemma run_years_agree ys : forall self n m g1 g2,
  rng_agree (length ys + n) (2 * length ys + m) g1 g2 ->
  agree_after n m (run_years self ys g1) (run_years self ys g2).
Proof.
  induction ys as [|y ys IH]; intros self n m g1 g2 Hg; cbn [run_years].
  - apply agree_Ok. exact Hg.
  - eapply agree_bind.
    + apply (year_agree self y (length ys + n) (2 * length ys + m)).
      eapply rng_agree_weaken; [exact Hg | cbn; lia | cbn; lia].
    + intros self1 h1 h2 Hh. apply IH. exact Hh.
Qed.

(** XB. The ledger of a run depends on the two random sources through the
    draws that the run consumes only: two runs from the same configuration
    whose sources are at the same position and agree on the next n normal
    and 2 n uniform draws, n being the number of years, produce the same
    ledger, or fail with the same exception. *)
Theorem XB_draws_determine_ledger config g1 g2 :
  let sim := simulation config in
  let n := Z.to_nat (cfg_end_year sim + 1 - cfg_start_year sim) in
  rng_agree n (2 * n) g1 g2 ->
  ledger_of (simulate config g1) = ledger_of (simulate config g2).
Proof.
  intros sim n Hg. subst sim n. unfold simulate.
  destruct (__init__ config) as [self|e] eqn:Hinit; [|reflexivity].
  cbn [bind]. unfold run_simulation.
  destruct (init_fields _ _ Hinit) as (Is & Ie & _).
  pose proof (run_years_agree (years self) self 0 0 g1 g2) as H.
  assert (length (years self) =
          Z.to_nat (cfg_end_year (simulation config) + 1 -
                    cfg_start_year (simulation config))) as Hlen.
  { unfold years. rewrite length_map, length_seq. congruence. }
  rewrite Hlen, !Nat.add_0_r in H. specialize (H Hg).
  destruct (run_years self (years self) g1) as [[s1 h1]|e1],
           (run_years self (years self) g2) as [[s2 h2]|e2];
    cbn in H |- *; try tauto.
  - destruct H as [-> _]. reflexivity.
  - congruence.
Qed.

Lemma XB_draws_determine_ledger_witness :
  rng_agree 2 4 Scenario.calm Scenario.calm_then_rough /\
  ledger_of (simulate Scenario.two_years Scenario.calm) =
  ledger_of (simulate Scenario.two_years Scenario.calm_then_rough).
Proof.
  assert (rng_agree 2 4 Scenario.calm Scenario.calm_then_rough) as H.
  { repeat split; cbn.
    - intros [|[|i]] Hi; try reflexivity. lia.
    - intros [|[|[|[|i]]]] Hi; try reflexivity. lia. }
  split; [exact H|].
  exact (XB_draws_determine_ledger Scenario.two_years Scenario.calm
           Scenario.calm_then_rough H).
Defined.
